(** * family-finance: the import pipeline, embedded and verified

    A shallow embedding of the backend's import pipeline:

    - [Py]: the fragment of Python the code relies on (exceptions, [str]
      methods, dynamically typed values);
    - [PyFloat]: [float], [float(str)], [*] and [round] on IEEE-754 binary64;
    - [RocketMoney], [SchemaBased]: the two parser plugins
      ([app/plugins/parsers]);
    - [Db]: the SQLAlchemy session as the services use it
      (add / flush / commit / rollback over the mapped tables);
    - [ImportService]: [app/services/import_service.py];
    - [Categorization]: [app/services/categorization_service.py];
    - [ImportTasks]: [categorize_import_task] of [app/tasks/import_tasks.py];
    - [ImportsApi]: [upload_file] of [app/api/imports.py].

    The definitions come first; the properties of the specification follow. *)

From Stdlib Require Import ZArith String Ascii List Bool Lia.
From Stdlib Require Import Floats.SpecFloat.
From stdpp Require Import base gmap strings list option pretty.

(* ===================================================================== *)
(** * Python substrate *)
(* ===================================================================== *)

Module Py.

(** Exceptions: the class, and the text that [str(exc)] gives. *)
Inductive exn_kind :=
| KeyError | ValueError | TypeError | OverflowError | AttributeError
| MultipleResultsFound | NoResultFound | DBAPIError | ReError
| ProviderError
| HTTPException (status_code : Z).

Record exn := Exn { kind : exn_kind; message : string }.

Inductive result (A : Type) :=
| Ok (a : A)
| Raise (e : exn).
Arguments Ok {A} a.
Arguments Raise {A} e.

Definition rbind {A B} (r : result A) (k : A -> result B) : result B :=
  match r with
  | Ok a => k a
  | Raise e => Raise e
  end.

#[global] Instance result_fmap : FMap result :=
  fun A B f r => rbind r (fun a => Ok (f a)).

(** [try: r except kinds: d] for a handler that yields a value. *)
Definition except_ {A} (r : result A) (caught : exn_kind -> bool) (d : A)
  : result A :=
  match r with
  | Ok a => Ok a
  | Raise e => if caught (kind e) then Ok d else Raise e
  end.

(** [bytes] and [str] are both byte strings here; a [str] holds the UTF-8
    encoding of its code points. *)
Abbreviation bytes := string (only parsing).

Definition chars (s : string) : list ascii := list_ascii_of_string s.
Definition of_chars (l : list ascii) : string := string_of_list_ascii l.

Definition byte_in (lo hi : N) (c : ascii) : bool :=
  (lo <=? N_of_ascii c)%N && (N_of_ascii c <=? hi)%N.

(** ** [str.isspace] and [str.strip] *)

(** The ASCII code points for which [str.isspace] holds. *)
Definition is_space (c : ascii) : bool :=
  byte_in 9 13 c || byte_in 28 32 c.

(** Length in bytes of a non-ASCII whitespace code point that starts the
    text: U+0085, U+00A0 (2 bytes); U+1680, U+2000..U+200A, U+2028, U+2029,
    U+202F, U+205F, U+3000 (3 bytes).  [0] when there is none. *)
Definition wide_space (l : list ascii) : nat :=
  match map N_of_ascii (take 3 l) with
  | 194%N :: 133%N :: _ => 2
  | 194%N :: 160%N :: _ => 2
  | [225; 154; 128]%N => 3
  | [226; 128; b]%N =>
      if ((128 <=? b) && (b <=? 138) || (b =? 168) || (b =? 169)
          || (b =? 175))%N then 3 else 0
  | [226; 129; 159]%N => 3
  | [227; 128; 128]%N => 3
  | _ => 0
  end%nat.

(** The same, read from the end of the text (argument reversed). *)
Definition wide_space_rev (l : list ascii) : nat :=
  match map N_of_ascii (take 3 l) with
  | 133%N :: 194%N :: _ => 2
  | 160%N :: 194%N :: _ => 2
  | [128; 154; 225]%N => 3
  | [b; 128; 226]%N =>
      if ((128 <=? b) && (b <=? 138) || (b =? 168) || (b =? 169)
          || (b =? 175))%N then 3 else 0
  | [159; 129; 226]%N => 3
  | [128; 128; 227]%N => 3
  | _ => 0
  end%nat.

(** Drop leading whitespace; [skip] counts the bytes of a wide whitespace
    code point still to drop. *)
Fixpoint drop_spaces (wide : list ascii -> nat) (skip : nat)
    (l : list ascii) : list ascii :=
  match l with
  | [] => []
  | c :: l' =>
      match skip with
      | S k => drop_spaces wide k l'
      | O =>
          if is_space c then drop_spaces wide O l'
          else match wide l with
               | S k => drop_spaces wide k l'
               | O => l
               end
      end
  end.

Definition lstrip (s : string) : string :=
  of_chars (drop_spaces wide_space 0 (chars s)).
Definition rstrip (s : string) : string :=
  of_chars (rev (drop_spaces wide_space_rev 0 (rev (chars s)))).
Definition strip (s : string) : string := lstrip (rstrip s).

(** ** [str.lower]

    Lower-casing of the ASCII letters; other code points are kept. *)
Definition lower_char (c : ascii) : ascii :=
  if byte_in 65 90 c then ascii_of_N (N_of_ascii c + 32) else c.
Definition lower (s : string) : string := of_chars (map lower_char (chars s)).

(** ** Searching and splitting *)

Fixpoint is_prefix (p l : list ascii) : bool :=
  match p, l with
  | [], _ => true
  | a :: p', b :: l' => if Ascii.eqb a b then is_prefix p' l' else false
  | _ :: _, [] => false
  end.

Fixpoint find_sub (p l : list ascii) : bool :=
  is_prefix p l ||
  match l with
  | [] => false
  | _ :: l' => find_sub p l'
  end.

(** [sub in s] *)
Definition contains (sub s : string) : bool := find_sub (chars sub) (chars s).

(** [s.endswith(suffix)] *)
Definition endswith (s suffix : string) : bool :=
  is_prefix (rev (chars suffix)) (rev (chars s)).

(** [s.split(sep)] for a one-character separator. *)
Fixpoint split_chars (sep : ascii) (cur : list ascii) (l : list ascii)
  : list (list ascii) :=
  match l with
  | [] => [rev cur]
  | c :: l' =>
      if Ascii.eqb c sep then rev cur :: split_chars sep [] l'
      else split_chars sep (c :: cur) l'
  end.
Definition split_on (sep : ascii) (s : string) : list string :=
  map of_chars (split_chars sep [] (chars s)).

(** [s.split(sep, 1)[0]]: the text before the first separator. *)
Fixpoint before_first (sep : ascii) (l : list ascii) : list ascii :=
  match l with
  | [] => []
  | c :: l' => if Ascii.eqb c sep then [] else c :: before_first sep l'
  end.
Definition split1_head (sep : ascii) (s : string) : string :=
  of_chars (before_first sep (chars s)).

(** [s.rsplit(sep, 1)[-1]]: the text after the last separator. *)
Definition rsplit1_last (sep : ascii) (s : string) : string :=
  of_chars (rev (before_first sep (rev (chars s)))).

(** ** UTF-8 *)

Definition is_cont (c : ascii) : bool := byte_in 128 191 c.

(** [bytes.decode("utf-8")]: the well-formed byte sequences of the Unicode
    standard (no overlong forms, no surrogates, at most U+10FFFF). *)
Fixpoint utf8_valid (fuel : nat) (l : list ascii) : bool :=
  match fuel with
  | O => match l with [] => true | _ => false end
  | S fuel' =>
      match l with
      | [] => true
      | a :: r =>
          if byte_in 0 127 a then utf8_valid fuel' r
          else if byte_in 194 223 a then
            match r with
            | b :: r' => is_cont b && utf8_valid fuel' r'
            | _ => false
            end
          else if byte_in 224 239 a then
            match r with
            | b :: c :: r' =>
                (if (N_of_ascii a =? 224)%N then byte_in 160 191 b
                 else if (N_of_ascii a =? 237)%N then byte_in 128 159 b
                 else is_cont b)
                && is_cont c && utf8_valid fuel' r'
            | _ => false
            end
          else if byte_in 240 244 a then
            match r with
            | b :: c :: d :: r' =>
                (if (N_of_ascii a =? 240)%N then byte_in 144 191 b
                 else if (N_of_ascii a =? 244)%N then byte_in 128 143 b
                 else is_cont b)
                && is_cont c && is_cont d && utf8_valid fuel' r'
            | _ => false
            end
          else false
      end
  end.

Definition decode_utf8 (b : bytes) : result string :=
  if utf8_valid (String.length b) (chars b) then Ok b
  else Raise (Exn ValueError "'utf-8' codec can't decode bytes").

(** [s[:n]]: the first [n] code points. *)
Fixpoint take_chars (n : nat) (l : list ascii) : list ascii :=
  match l with
  | [] => []
  | c :: l' =>
      if is_cont c then c :: take_chars n l'
      else match n with
           | O => []
           | S k => c :: take_chars k l'
           end
  end.
Definition slice_to (n : nat) (s : string) : string :=
  of_chars (take_chars n (chars s)).

(** [len(s)] in code points. *)
Definition len (s : string) : nat :=
  length (filter (fun c => is_cont c = false) (chars s)).

(** ** Dynamically typed values *)

Inductive pyval :=
| PNone
| PBool (b : bool)
| PInt (z : Z)
| PFloat (f : spec_float)
| PStr (s : string)
| PList (l : list string).

#[global] Instance spec_float_eq_dec : EqDecision spec_float.
Proof. solve_decision. Defined.
#[global] Instance pyval_eq_dec : EqDecision pyval.
Proof. solve_decision. Defined.

(** Truth value of an object ([if x:], [x or y], [not x]). *)
Definition truthy (v : pyval) : bool :=
  match v with
  | PNone => false
  | PBool b => b
  | PInt z => negb (z =? 0)%Z
  | PFloat (S754_zero _) => false
  | PFloat _ => true
  | PStr s => negb (String.eqb s "")
  | PList l => match l with [] => false | _ => true end
  end.

(** [x or y] *)
Definition or_ (x y : pyval) : pyval := if truthy x then x else y.

(** A row or record: [dict[str, Any]]. *)
Abbreviation dict := (gmap string pyval) (only parsing).

(** [d[k]] *)
Definition getitem (d : dict) (k : string) : result pyval :=
  match d !! k with
  | Some v => Ok v
  | None => Raise (Exn KeyError ("'" +:+ k +:+ "'"))
  end.

(** [d.get(k, default)] and [d.get(k)] *)
Definition get_or (d : dict) (k : string) (default : pyval) : pyval :=
  match d !! k with
  | Some v => v
  | None => default
  end.
Definition get (d : dict) (k : string) : pyval := get_or d k PNone.

(** Monadic notation for computations that may raise. *)
Declare Scope result_scope.
Delimit Scope result_scope with result.
Notation "x <- c ;; k" := (rbind c (fun x => k))
  (at level 100, c at next level, right associativity) : result_scope.

End Py.

Export Py.

(* ===================================================================== *)
(** * [float]: IEEE-754 binary64 *)
(* ===================================================================== *)

Module PyFloat.
Local Open Scope Z_scope.

Definition prec : Z := 53.
Definition emax : Z := 1024.

Abbreviation float := spec_float (only parsing).

(** [float(n)] for an integer that fits: correctly rounded. *)
Definition of_Z (z : Z) : float := binary_normalize prec emax z 0 false.

(** [x * y] *)
Definition mul (x y : float) : float := SFmul prec emax x y.

(** The binary64 nearest to [m * 10^e] (ties to even), as [float(str)]
    computes it for a decimal literal with digits [m] and exponent [e]. *)
Definition of_decimal (neg : bool) (m e : Z) : float :=
  match m with
  | Zpos p =>
      if 0 <=? e then
        binary_round prec emax neg (Z.to_pos (Zpos p * 10 ^ e)) 0
      else
        let '(q, e', l) :=
          SFdiv_core_binary prec emax (Zpos p) 0 (10 ^ (- e)) 0 in
        binary_round_aux prec emax neg q e' l
  | _ => S754_zero neg
  end.

(** ** [float(str)] *)

Definition digit_val (c : ascii) : option Z :=
  if byte_in 48 57 c then Some (Z.of_N (N_of_ascii c) - 48) else None.

(** [digitpart ::= digit (["_"] digit)*], continuing the value [acc];
    [n] counts the digits read.  Returns the value, the count and the rest. *)
Fixpoint digitpart (acc n : Z) (l : list ascii) : Z * Z * list ascii :=
  match l with
  | c :: l' =>
      match digit_val c with
      | Some d => digitpart (10 * acc + d) (n + 1) l'
      | None =>
          if Ascii.eqb c "_" && (0 <? n) then
            match l' with
            | c' :: _ =>
                if byte_in 48 57 c' then digitpart acc n l' else (acc, n, l)
            | [] => (acc, n, l)
            end
          else (acc, n, l)
      end
  | [] => (acc, n, l)
  end.

Definition sign (l : list ascii) : bool * list ascii :=
  match l with
  | "-"%char :: l' => (true, l')
  | "+"%char :: l' => (false, l')
  | _ => (false, l)
  end.

(** [floatnumber ::= ([digitpart] "." digitpart | digitpart ["."])
    [("e" | "E") ["+" | "-"] digitpart]]: the digits as an integer and
    the power of ten. *)
Definition floatnumber (l : list ascii) : option (Z * Z) :=
  let '(ip, ni, r1) := digitpart 0 0 l in
  let '(m, nf, r2) :=
    match r1 with
    | "."%char :: r => digitpart ip 0 r
    | _ => (ip, 0, r1)
    end in
  if (ni =? 0) && (nf =? 0) then None
  else
    match r2 with
    | [] => Some (m, - nf)
    | c :: r3 =>
        if Ascii.eqb c "e" || Ascii.eqb c "E" then
          let '(eneg, r4) := sign r3 in
          let '(ev, ne, r5) := digitpart 0 0 r4 in
          match r5 with
          | [] =>
              if ne =? 0 then None
              else Some (m, (if eneg then - ev else ev) - nf)
          | _ => None
          end
        else None
    end.

Definition could_not_convert (s : string) : exn :=
  Exn ValueError ("could not convert string to float: '" +:+ s +:+ "'").

(** [float(s)] for a [str]: surrounding whitespace is ignored; the rest is
    an optional sign followed by [inf], [infinity] or [nan] in any case, or
    a decimal literal.  (Decimal digits outside ASCII, which [float] also
    accepts, are not recognised here.) *)
Definition of_str (s : string) : result float :=
  let '(neg, l) := sign (chars (strip s)) in
  let word := lower (of_chars l) in
  if String.eqb word "inf" || String.eqb word "infinity"
  then Ok (S754_infinity neg)
  else if String.eqb word "nan" then Ok S754_nan
  else
    match floatnumber l with
    | Some (m, e) => Ok (of_decimal neg m e)
    | None => Raise (could_not_convert s)
    end.

(** [float(x)] for any object. *)
Definition of_val (v : pyval) : result float :=
  match v with
  | PStr s => of_str s
  | PFloat f => Ok f
  | PInt z =>
      match of_Z z with
      | S754_infinity _ =>
          Raise (Exn OverflowError "int too large to convert to float")
      | f => Ok f
      end
  | PBool b => Ok (of_Z (if b then 1 else 0))
  | PNone | PList _ =>
      Raise (Exn TypeError
               "float() argument must be a string or a real number")
  end.

(** ** [round(x)] with one argument: the nearest integer, ties to even. *)

Definition nearest_even (m e : Z) : Z :=
  if 0 <=? e then m * 2 ^ e
  else
    let d := 2 ^ (- e) in
    let q := m / d in
    let r := m mod d in
    match 2 * r ?= d with
    | Lt => q
    | Gt => q + 1
    | Eq => if Z.even q then q else q + 1
    end.

Definition round (f : float) : result Z :=
  match f with
  | S754_zero _ => Ok 0
  | S754_finite s m e => Ok (cond_Zopp s (nearest_even (Zpos m) e))
  | S754_infinity _ =>
      Raise (Exn OverflowError "cannot convert float infinity to integer")
  | S754_nan =>
      Raise (Exn ValueError "cannot convert float NaN to integer")
  end.

End PyFloat.

(* ===================================================================== *)
(** * Parser plugins *)
(* ===================================================================== *)

(** What the parsers use of pandas: [read_csv(..., dtype=str,
    keep_default_na=False)] gives a frame of text cells, and the reader itself
    is a parameter of the parsers.  A row, as [iterrows] yields it after
    [df.columns = [c.strip() for c in df.columns]], maps each stripped label
    to its cell (the first one, should two labels coincide). *)
Module Pandas.

Record DataFrame := { columns : list string; data : list (list string) }.

Abbreviation Series := (gmap string string) (only parsing).

Definition iterrows (df : DataFrame) : list Series :=
  map (fun cells => list_to_map (zip (map strip (columns df)) cells))
      (data df).

(** [str(row.get(label, default))] *)
Definition get (row : Series) (label default : string) : string :=
  match row !! label with
  | Some cell => cell
  | None => default
  end.

End Pandas.

(** [app/plugins/base.py]: the capability every parser offers. *)
Module FileParserPlugin.
Record t := mk {
  name : string;
  detect : bytes -> string -> result bool;
  parse : bytes -> string -> result (list dict)
}.
End FileParserPlugin.

Definition is_ValueError (k : exn_kind) : bool :=
  match k with ValueError => true | _ => false end.

Definition is_ValueError_or_TypeError (k : exn_kind) : bool :=
  match k with ValueError | TypeError => true | _ => false end.

(** [s or None] for a [str]. *)
Definition str_or_None (s : string) : pyval :=
  if String.eqb s "" then PNone else PStr s.

(** ** [app/plugins/parsers/rocket_money.py] *)
Module RocketMoney.

Definition EXPECTED_COLUMNS : list string :=
  [ "Date"; "Original Date"; "Account Type"; "Account Name";
    "Account Number"; "Institution Name"; "Name"; "Custom Name"; "Amount";
    "Description"; "Category"; "Note"; "Ignored From"; "Tax Deductible";
    "Transaction Tags" ].

Definition ACCOUNT_TYPE_MAP : gmap string string :=
  list_to_map
    [ ("Cash", "checking"); ("Credit Card", "credit_card");
      ("Savings", "savings"); ("Brokerage", "brokerage");
      ("Retirement", "retirement"); ("Loan", "loan") ].

Definition TRANSFER_CATEGORIES : gset string :=
  {[ "Credit Card Payment"; "Internal Transfers"; "Savings Transfer" ]}.

Definition name : string := "rocket_money".

Definition detect (file_content : bytes) (filename : string) : result bool :=
  if negb (endswith (lower filename) ".csv") then Ok false
  else
    match decode_utf8 (split1_head "010" file_content) with
    | Ok line =>
        let header_line := strip line in
        let header_fields := map strip (split_on "," header_line) in
        Ok (bool_decide (take 6 header_fields = take 6 EXPECTED_COLUMNS))
    | Raise _ => Ok false
    end.

(** [round(float(amount_str) * 100)], and [0] on [ValueError]. *)
Definition amount_to_cents (amount_str : string) : result Z :=
  except_
    (x <- PyFloat.of_str amount_str ;;
     PyFloat.round (PyFloat.mul x (PyFloat.of_Z 100)))%result
    is_ValueError 0%Z.

(** The body of the loop over [df.iterrows()]. *)
Definition parse_row (row : Pandas.Series) : result dict :=
  let amount_str := strip (Pandas.get row "Amount" "0") in
  (amount_cents <- amount_to_cents amount_str ;;
   let category := strip (Pandas.get row "Category" "") in
   let tags_raw := strip (Pandas.get row "Transaction Tags" "") in
   let tags :=
     if String.eqb tags_raw "" then []
     else map strip
            (filter (fun t => strip t <> "") (split_on "," tags_raw)) in
   let note := str_or_None (strip (Pandas.get row "Note" "")) in
   let tax_deductible_str :=
     lower (strip (Pandas.get row "Tax Deductible" "")) in
   let is_tax_deductible :=
     bool_decide (tax_deductible_str ∈ ["true"; "yes"; "1"]) in
   let acct_type_raw := strip (Pandas.get row "Account Type" "") in
   let account_type :=
     default "checking" (ACCOUNT_TYPE_MAP !! acct_type_raw) in
   let is_transfer := bool_decide (category ∈ TRANSFER_CATEGORIES) in
   Ok (list_to_map
         [ ("date", PStr (strip (Pandas.get row "Date" "")));
           ("original_date",
            str_or_None (strip (Pandas.get row "Original Date" "")));
           ("account_type", PStr account_type);
           ("account_name", PStr (strip (Pandas.get row "Account Name" "")));
           ("account_number_last4",
            str_or_None (strip (Pandas.get row "Account Number" "")));
           ("institution_name",
            PStr (strip (Pandas.get row "Institution Name" "")));
           ("merchant_name", str_or_None (strip (Pandas.get row "Name" "")));
           ("custom_name",
            str_or_None (strip (Pandas.get row "Custom Name" "")));
           ("amount_cents", PInt amount_cents);
           ("description", PStr (strip (Pandas.get row "Description" "")));
           ("original_description",
            PStr (strip (Pandas.get row "Description" "")));
           ("category_name", PStr category);
           ("note", note);
           ("is_transfer", PBool is_transfer);
           ("is_tax_deductible", PBool is_tax_deductible);
           ("tags", match tags with [] => PNone | _ => PList tags end) ]
       : dict))%result.

Fixpoint parse_rows (rows : list Pandas.Series) : result (list dict) :=
  match rows with
  | [] => Ok []
  | row :: rest =>
      (r <- parse_row row ;;
       rs <- parse_rows rest ;;
       Ok (r :: rs))%result
  end.

Section Parser.
(** [pd.read_csv(io.BytesIO(content), dtype=str, keep_default_na=False,
    sep=...)] *)
Variable read_csv : bytes -> string -> result Pandas.DataFrame.

Definition parse (file_content : bytes) (filename : string)
  : result (list dict) :=
  (df <- read_csv file_content "," ;;
   parse_rows (Pandas.iterrows df))%result.

Definition RocketMoneyParser : FileParserPlugin.t :=
  FileParserPlugin.mk name detect parse.
End Parser.

End RocketMoney.

(** ** [app/plugins/parsers/schema_based.py] *)
Module SchemaBased.

(** [detection_rules]: a JSON object; a key that is absent is [None]. *)
Record DetectionRules := {
  file_extension : option (list string);
  header_contains : option (list string);
  header_pattern : option string;
  filename_pattern : option string
}.

(** [transform_rules] *)
Record TransformRules := {
  delimiter : option string;
  date_format : option string;
  amount_multiplier : option pyval;
  defaults : option (list (string * pyval))
}.

(** One entry of [self._schemas], as [_load_schemas] builds it;
    [column_mapping] lists target field and source column in the order of
    the JSON object. *)
Record Schema := {
  id : string;
  schema_name : string;
  file_type : string;
  detection_rules : DetectionRules;
  column_mapping : list (string * string);
  transform_rules : TransformRules
}.

Definition name : string := "schema_based".

Section Parser.
(** [bool(re.search(pattern, text, flags))]; [true] as last argument
    stands for [re.IGNORECASE].  An invalid pattern raises [re.error]. *)
Variable re_search : string -> string -> bool -> result bool.
(** [datetime.strptime(text, fmt).strftime("%Y-%m-%d")], [None] when
    [strptime] raises [ValueError] or [TypeError]. *)
Variable reformat_date : string -> string -> option string.
Variable read_csv : bytes -> string -> result Pandas.DataFrame.

(** The extension [_check_rules] computes from the file name. *)
Definition extension (filename : string) : string :=
  if contains "." filename
  then "." +:+ lower (rsplit1_last "." filename)
  else "".

(** The first line, decoded and stripped; [""] when it is not UTF-8. *)
Definition first_line (file_content : bytes) : string :=
  match decode_utf8 (split1_head "010" file_content) with
  | Ok line => strip line
  | Raise _ => ""
  end.

Definition _check_rules (rules : DetectionRules) (file_content : bytes)
    (filename : string) : result bool :=
  let ext := extension filename in
  if match file_extension rules with
     | Some exts => negb (bool_decide (ext ∈ exts))
     | None => false
     end
  then Ok false
  else
    let line := first_line file_content in
    if match header_contains rules with
       | Some required => negb (forallb (fun r => contains r line) required)
       | None => false
       end
    then Ok false
    else
      (hp <- match header_pattern rules with
             | Some pat => re_search pat line false
             | None => Ok true
             end ;;
       if negb hp then Ok false
       else
         fp <- match filename_pattern rules with
               | Some pat => re_search pat filename true
               | None => Ok true
               end ;;
         if negb fp then Ok false else Ok true)%result.

(** The first schema whose rules match. *)
Fixpoint _match_schema (schemas : list Schema) (file_content : bytes)
    (filename : string) : result (option Schema) :=
  match schemas with
  | [] => Ok None
  | schema :: rest =>
      (ok <- _check_rules (detection_rules schema) file_content filename ;;
       if negb ok then _match_schema rest file_content filename
       else Ok (Some schema))%result
  end.

Definition detect (schemas : list Schema) (file_content : bytes)
    (filename : string) : result bool :=
  (m <- _match_schema schemas file_content filename ;;
   Ok (match m with Some _ => true | None => false end))%result.

(** [record[target_field] = str(row.get(source_col, "")).strip()] for
    every item of [column_mapping]. *)
Definition map_columns (column_mapping : list (string * string))
    (row : Pandas.Series) : dict :=
  foldl (fun record '(target_field, source_col) =>
           <[target_field := PStr (strip (Pandas.get row source_col ""))]>
             record)
        ∅ column_mapping.

(** The amount conversion. *)
Definition convert_amount (rules : TransformRules) (record : dict)
  : result dict :=
  match amount_multiplier rules, record !! "amount_cents" with
  | Some mult, Some raw_text =>
      (cents <- except_
                  (raw <- PyFloat.of_val raw_text ;;
                   multiplier <- PyFloat.of_val mult ;;
                   PyFloat.round (PyFloat.mul raw multiplier))
                  is_ValueError_or_TypeError 0%Z ;;
       Ok (<["amount_cents" := PInt cents]> record))%result
  | None, Some raw_text =>
      (cents <- except_
                  (raw <- PyFloat.of_val raw_text ;;
                   PyFloat.round (PyFloat.mul raw (PyFloat.of_Z 100)))
                  is_ValueError_or_TypeError 0%Z ;;
       Ok (<["amount_cents" := PInt cents]> record))%result
  | _, None => Ok record
  end.

(** The date normalisation. *)
Definition normalize_date (rules : TransformRules) (record : dict) : dict :=
  match date_format rules, record !! "date" with
  | Some fmt, Some (PStr text) =>
      match reformat_date text fmt with
      | Some iso => <["date" := PStr iso]> record
      | None => record
      end
  | _, _ => record
  end.

(** The default values. *)
Definition apply_defaults (rules : TransformRules) (record : dict) : dict :=
  foldl (fun record '(field, default) =>
           if negb (truthy (get record field))
           then <[field := default]> record
           else record)
        record (default [] (defaults rules)).

(** The body of the loop over [df.iterrows()]. *)
Definition parse_row (schema : Schema) (row : Pandas.Series)
  : result dict :=
  let rules := transform_rules schema in
  (record <- convert_amount rules (map_columns (column_mapping schema) row) ;;
   Ok (apply_defaults rules (normalize_date rules record)))%result.

Fixpoint parse_rows (schema : Schema) (rows : list Pandas.Series)
  : result (list dict) :=
  match rows with
  | [] => Ok []
  | row :: rest =>
      (r <- parse_row schema row ;;
       rs <- parse_rows schema rest ;;
       Ok (r :: rs))%result
  end.

Definition parse (schemas : list Schema) (file_content : bytes)
    (filename : string) : result (list dict) :=
  (m <- _match_schema schemas file_content filename ;;
   match m with
   | None => Ok []
   | Some schema =>
       let separator := default "," (delimiter (transform_rules schema)) in
       df <- read_csv file_content separator ;;
       parse_rows schema (Pandas.iterrows df)
   end)%result.

(** The plugin, once its schemas are loaded. *)
Definition SchemaBasedParser (schemas : list Schema) : FileParserPlugin.t :=
  FileParserPlugin.mk name (detect schemas) (parse schemas).

End Parser.

End SchemaBased.

(* ===================================================================== *)
(** * The mapped tables and the session *)
(* ===================================================================== *)

(** Primary keys ([uuid.uuid4()]) are drawn from a counter. *)
Abbreviation uuid := nat (only parsing).

(** [datetime.date] *)
Record date := Date { year : Z; month : Z; day : Z }.

(** [app/models/institution.py] *)
Module Institution.
Record t := mk { id : uuid; name : string }.
End Institution.

(** [app/models/account.py] *)
Module AccountType.
Inductive t :=
| CHECKING | SAVINGS | CREDIT_CARD | BROKERAGE | RETIREMENT
| CRYPTO | HSA | LOAN | MORTGAGE | CASH.

Definition values : list (string * t) :=
  [ ("checking", CHECKING); ("savings", SAVINGS);
    ("credit_card", CREDIT_CARD); ("brokerage", BROKERAGE);
    ("retirement", RETIREMENT); ("crypto", CRYPTO); ("hsa", HSA);
    ("loan", LOAN); ("mortgage", MORTGAGE); ("cash", CASH) ].

(** [AccountType(value)] *)
Definition of_value (v : pyval) : result t :=
  match v with
  | PStr s =>
      match (list_to_map values : gmap string t) !! s with
      | Some a => Ok a
      | None => Raise (Exn ValueError (s +:+ " is not a valid AccountType"))
      end
  | _ => Raise (Exn ValueError "not a valid AccountType")
  end.
End AccountType.

Module Account.
Record t := mk {
  id : uuid;
  user_id : option uuid;
  institution_id : uuid;
  name : string;
  account_type : AccountType.t;
  account_number_last4 : option string
}.
End Account.

(** [app/models/category.py] *)
Module Category.
Record t := mk { id : uuid; name : string; is_system : bool }.
End Category.

(** [app/models/transaction.py] *)
Module Transaction.
Record t := mk {
  id : uuid;
  account_id : uuid;
  date_ : date;
  original_date : option date;
  amount_cents : Z;
  description : string;
  original_description : option string;
  merchant_name : option string;
  category_id : option uuid;
  custom_name : option string;
  note : option string;
  is_transfer : bool;
  is_tax_deductible : bool;
  tags : pyval;
  import_job_id : option uuid
}.

Definition with_category_id (c : option uuid) (x : t) : t :=
  mk (id x) (account_id x) (date_ x) (original_date x) (amount_cents x)
     (description x) (original_description x) (merchant_name x) c
     (custom_name x) (note x) (is_transfer x) (is_tax_deductible x)
     (tags x) (import_job_id x).

Definition with_merchant_name (m : option string) (x : t) : t :=
  mk (id x) (account_id x) (date_ x) (original_date x) (amount_cents x)
     (description x) (original_description x) m (category_id x)
     (custom_name x) (note x) (is_transfer x) (is_tax_deductible x)
     (tags x) (import_job_id x).
End Transaction.

(** [app/models/import_job.py] *)
Module ImportStatus.
Inductive t :=
| PENDING | PROCESSING | COMPLETED | FAILED | CATEGORIZING | PARTIALLY_FAILED.

(** [status.value] *)
Definition value (s : t) : string :=
  match s with
  | PENDING => "pending"
  | PROCESSING => "processing"
  | COMPLETED => "completed"
  | FAILED => "failed"
  | CATEGORIZING => "categorizing"
  | PARTIALLY_FAILED => "partially_failed"
  end.
End ImportStatus.

Module ImportJob.
Record t := mk {
  id : uuid;
  user_id : uuid;
  filename : string;
  source_type : string;
  status : ImportStatus.t;
  total_rows : nat;
  imported_rows : nat;
  duplicate_rows : nat;
  processed_rows : nat;
  categorized_rows : nat;
  uncategorized_rows : nat;
  error_message : option string;
  celery_task_id : option string;
  source : string;
  file_path : option string;
  completed_at : option nat
}.

(** [ImportJob(user_id=..., filename=..., source_type=..., status=...)]
    with the column defaults. *)
Definition new (id user_id : uuid) (filename source_type : string)
    (status : ImportStatus.t) : t :=
  mk id user_id filename source_type status 0 0 0 0 0 0 None None
     "upload" None None.

Definition with_source_type (v : string) (j : t) : t :=
  mk (id j) (user_id j) (filename j) v (status j) (total_rows j)
     (imported_rows j) (duplicate_rows j) (processed_rows j)
     (categorized_rows j) (uncategorized_rows j) (error_message j)
     (celery_task_id j) (source j) (file_path j) (completed_at j).
Definition with_status (v : ImportStatus.t) (j : t) : t :=
  mk (id j) (user_id j) (filename j) (source_type j) v (total_rows j)
     (imported_rows j) (duplicate_rows j) (processed_rows j)
     (categorized_rows j) (uncategorized_rows j) (error_message j)
     (celery_task_id j) (source j) (file_path j) (completed_at j).
Definition with_total_rows (v : nat) (j : t) : t :=
  mk (id j) (user_id j) (filename j) (source_type j) (status j) v
     (imported_rows j) (duplicate_rows j) (processed_rows j)
     (categorized_rows j) (uncategorized_rows j) (error_message j)
     (celery_task_id j) (source j) (file_path j) (completed_at j).
Definition with_imported_rows (v : nat) (j : t) : t :=
  mk (id j) (user_id j) (filename j) (source_type j) (status j)
     (total_rows j) v (duplicate_rows j) (processed_rows j)
     (categorized_rows j) (uncategorized_rows j) (error_message j)
     (celery_task_id j) (source j) (file_path j) (completed_at j).
Definition with_duplicate_rows (v : nat) (j : t) : t :=
  mk (id j) (user_id j) (filename j) (source_type j) (status j)
     (total_rows j) (imported_rows j) v (processed_rows j)
     (categorized_rows j) (uncategorized_rows j) (error_message j)
     (celery_task_id j) (source j) (file_path j) (completed_at j).
Definition with_processed_rows (v : nat) (j : t) : t :=
  mk (id j) (user_id j) (filename j) (source_type j) (status j)
     (total_rows j) (imported_rows j) (duplicate_rows j) v
     (categorized_rows j) (uncategorized_rows j) (error_message j)
     (celery_task_id j) (source j) (file_path j) (completed_at j).
Definition with_categorized_rows (v : nat) (j : t) : t :=
  mk (id j) (user_id j) (filename j) (source_type j) (status j)
     (total_rows j) (imported_rows j) (duplicate_rows j) (processed_rows j)
     v (uncategorized_rows j) (error_message j)
     (celery_task_id j) (source j) (file_path j) (completed_at j).
Definition with_uncategorized_rows (v : nat) (j : t) : t :=
  mk (id j) (user_id j) (filename j) (source_type j) (status j)
     (total_rows j) (imported_rows j) (duplicate_rows j) (processed_rows j)
     (categorized_rows j) v (error_message j)
     (celery_task_id j) (source j) (file_path j) (completed_at j).
Definition with_error_message (v : option string) (j : t) : t :=
  mk (id j) (user_id j) (filename j) (source_type j) (status j)
     (total_rows j) (imported_rows j) (duplicate_rows j) (processed_rows j)
     (categorized_rows j) (uncategorized_rows j) v
     (celery_task_id j) (source j) (file_path j) (completed_at j).
Definition with_celery_task_id (v : option string) (j : t) : t :=
  mk (id j) (user_id j) (filename j) (source_type j) (status j)
     (total_rows j) (imported_rows j) (duplicate_rows j) (processed_rows j)
     (categorized_rows j) (uncategorized_rows j) (error_message j)
     v (source j) (file_path j) (completed_at j).
Definition with_completed_at (v : option nat) (j : t) : t :=
  mk (id j) (user_id j) (filename j) (source_type j) (status j)
     (total_rows j) (imported_rows j) (duplicate_rows j) (processed_rows j)
     (categorized_rows j) (uncategorized_rows j) (error_message j)
     (celery_task_id j) (source j) (file_path j) v.
End ImportJob.

(** [app/models/parser_schema.py] *)
Module ParserSchema.
Record t := mk {
  id : uuid;
  name : string;
  description : option string;
  file_type : string;
  detection_rules : SchemaBased.DetectionRules;
  column_mapping : list (string * string);
  transform_rules : SchemaBased.TransformRules;
  is_active : bool;
  created_by_ai : bool
}.
End ParserSchema.

(** The session, as the services drive it.  [current] is what the open
    transaction sees: the committed rows and every row added or changed since
    (the session flushes before each query).  [commit] makes [current]
    durable, [rollback] discards it.  Rows keep the order of insertion; the
    store enforces neither column widths nor foreign keys. *)
Module Db.

Record Tables := mkTables {
  institutions : list Institution.t;
  accounts : list Account.t;
  categories : list Category.t;
  transactions : list Transaction.t;
  import_jobs : gmap uuid ImportJob.t;
  parser_schemas : list ParserSchema.t
}.

Definition empty : Tables := mkTables [] [] [] [] ∅ [].

Record Session := mkSession {
  committed : Tables;
  current : Tables;
  next_uuid : uuid
}.

Definition open (db : Tables) (next : uuid) : Session := mkSession db db next.

(** Computations on a session that may raise; the session is returned as it
    stands when the exception is raised. *)
Definition M (A : Type) : Type := Session -> result A * Session.

Definition ret {A} (a : A) : M A := fun s => (Ok a, s).
Definition raise {A} (e : exn) : M A := fun s => (Raise e, s).
Definition lift {A} (r : result A) : M A := fun s => (r, s).
Definition bind {A B} (m : M A) (k : A -> M B) : M B :=
  fun s =>
    match m s with
    | (Ok a, s') => k a s'
    | (Raise e, s') => (Raise e, s')
    end.

(** [try: m except Exception as exc: h exc] *)
Definition try_except {A} (m : M A) (h : exn -> M A) : M A :=
  fun s =>
    match m s with
    | (Ok a, s') => (Ok a, s')
    | (Raise e, s') => h e s'
    end.

Declare Scope M_scope.
Delimit Scope M_scope with M.
Bind Scope M_scope with M.
Notation "x <- c ;; k" := (bind c (fun x => k))
  (at level 100, c at next level, right associativity) : M_scope.
Notation "c ;;; k" := (bind c (fun _ => k))
  (at level 100, right associativity) : M_scope.

Definition read {A} (f : Tables -> A) : M A := fun s => (Ok (f (current s)), s).
Definition write (f : Tables -> Tables) : M unit :=
  fun s => (Ok tt, mkSession (committed s) (f (current s)) (next_uuid s)).

(** [uuid.uuid4()] *)
Definition uuid4 : M uuid :=
  fun s => (Ok (next_uuid s),
            mkSession (committed s) (current s) (S (next_uuid s))).

Definition flush : M unit := ret tt.
Definition commit : M unit :=
  fun s => (Ok tt, mkSession (current s) (current s) (next_uuid s)).
Definition rollback : M unit :=
  fun s => (Ok tt, mkSession (committed s) (committed s) (next_uuid s)).

(** [Result.scalar_one_or_none()] and [Result.scalar_one()] *)
Definition scalar_one_or_none {A} (rows : list A) : result (option A) :=
  match rows with
  | [] => Ok None
  | [x] => Ok (Some x)
  | _ =>
      Raise (Exn MultipleResultsFound
               "Multiple rows were found when one or none was required")
  end.

Definition scalar_one {A} (rows : list A) : result A :=
  match rows with
  | [] => Raise (Exn NoResultFound
                   "No row was found when one was required")
  | [x] => Ok x
  | _ =>
      Raise (Exn MultipleResultsFound
               "Multiple rows were found when exactly one was required")
  end.

(** [db.add(row)] for each table. *)
Definition add_institution (x : Institution.t) : M unit :=
  write (fun t => mkTables (institutions t ++ [x]) (accounts t)
                    (categories t) (transactions t) (import_jobs t)
                    (parser_schemas t)).
Definition add_account (x : Account.t) : M unit :=
  write (fun t => mkTables (institutions t) (accounts t ++ [x])
                    (categories t) (transactions t) (import_jobs t)
                    (parser_schemas t)).
Definition add_category (x : Category.t) : M unit :=
  write (fun t => mkTables (institutions t) (accounts t)
                    (categories t ++ [x]) (transactions t) (import_jobs t)
                    (parser_schemas t)).
Definition add_transaction (x : Transaction.t) : M unit :=
  write (fun t => mkTables (institutions t) (accounts t)
                    (categories t) (transactions t ++ [x]) (import_jobs t)
                    (parser_schemas t)).
Definition add_parser_schema (x : ParserSchema.t) : M unit :=
  write (fun t => mkTables (institutions t) (accounts t)
                    (categories t) (transactions t) (import_jobs t)
                    (parser_schemas t ++ [x])).

Definition with_import_jobs (f : gmap uuid ImportJob.t -> gmap uuid ImportJob.t)
    (t : Tables) : Tables :=
  mkTables (institutions t) (accounts t) (categories t) (transactions t)
           (f (import_jobs t)) (parser_schemas t).
Definition with_transactions (f : list Transaction.t -> list Transaction.t)
    (t : Tables) : Tables :=
  mkTables (institutions t) (accounts t) (categories t)
           (f (transactions t)) (import_jobs t) (parser_schemas t).

(** [db.add(job)]: the row of a job, inserted or brought up to date. *)
Definition add_job (job : ImportJob.t) : M unit :=
  write (with_import_jobs (insert (ImportJob.id job) job)).

(** An attribute assignment on the job object, [job.attr = v]. *)
Definition set_job (job_id : uuid) (f : ImportJob.t -> ImportJob.t) : M unit :=
  write (with_import_jobs (alter f job_id)).

(** [select(ImportJob).where(ImportJob.id == job_id)] *)
Definition select_job (job_id : uuid) : M (list ImportJob.t) :=
  read (fun t => option_list (import_jobs t !! job_id)).

(** The job object, [db.execute(select(ImportJob).where(ImportJob.id ==
    job_id)).scalar_one()]: its attributes are those of its row in the open
    transaction. *)
Definition job_object (job_id : uuid) : M ImportJob.t :=
  (rows <- select_job job_id ;; lift (scalar_one rows))%M.

(** An attribute assignment on a transaction object. *)
Definition set_transaction (txn_id : uuid)
    (f : Transaction.t -> Transaction.t) : M unit :=
  write (with_transactions
           (map (fun x => if decide (Transaction.id x = txn_id) then f x
                          else x))).

End Db.

Export Db.

(* ===================================================================== *)
(** * [app/services/import_service.py] *)
(* ===================================================================== *)

#[global] Instance date_eq_dec : EqDecision date.
Proof. solve_decision. Defined.

Module ImportService.

(** A value bound to a query or written to a column must have the type of
    the column; the driver rejects any other. *)
Definition bind_error : exn :=
  Exn DBAPIError "invalid input for query argument".

Definition text_param (v : pyval) : result string :=
  match v with PStr s => Ok s | _ => Raise bind_error end.
Definition opt_text_param (v : pyval) : result (option string) :=
  match v with
  | PNone => Ok None
  | PStr s => Ok (Some s)
  | _ => Raise bind_error
  end.
Definition int_param (v : pyval) : result Z :=
  match v with PInt z => Ok z | _ => Raise bind_error end.
Definition bool_param (v : pyval) : result bool :=
  match v with PBool b => Ok b | _ => Raise bind_error end.

(** The counters and the lookup caches of one run. *)
Record LoopState := mkLoop {
  imported : nat;
  duplicates : nat;
  inst_cache : gmap string Institution.t;
  acct_cache : gmap string Account.t;
  cat_cache : gmap string Category.t
}.

Definition init : LoopState := mkLoop 0 0 ∅ ∅ ∅.

(** [if key not in cache: cache[key] = create()] followed by [cache[key]].
    A [list] cannot be hashed.  Only a [str] is ever stored: for a key of
    another type the lookup in [create] is refused by the driver. *)
Definition cached {V} (cache : gmap string V) (key : pyval) (create : M V)
  : M (V * gmap string V) :=
  match key with
  | PList _ => raise (Exn TypeError "unhashable type: 'list'")
  | PStr s =>
      match cache !! s with
      | Some v => ret (v, cache)
      | None => (v <- create ;; ret (v, <[s := v]> cache))%M
      end
  | _ => (v <- create ;; ret (v, cache))%M
  end.

Definition _get_or_create_institution (name : pyval) : M Institution.t :=
  (n <- lift (text_param name) ;;
   rows <- read (fun t =>
             filter (fun i => Institution.name i = n) (institutions t)) ;;
   inst <- lift (scalar_one_or_none rows) ;;
   match inst with
   | Some inst => ret inst
   | None =>
       id <- uuid4 ;;
       let inst := Institution.mk id n in
       add_institution inst ;;; flush ;;; ret inst
   end)%M.

(** The [where] clause of the account lookup; [last4] is filtered on only
    when it is given. *)
Definition account_matches (institution_id : uuid) (name : string)
    (last4 : option string) (a : Account.t) : Prop :=
  Account.institution_id a = institution_id
  ∧ Account.name a = name
  ∧ match last4 with
    | Some l => Account.account_number_last4 a = Some l
    | None => True
    end.

#[global] Instance account_matches_dec i n l a
  : Decision (account_matches i n l a).
Proof. unfold account_matches. destruct l; apply _. Defined.

Definition _get_or_create_account (institution : Institution.t)
    (name account_type last4 : pyval) (user_id : option uuid)
  : M Account.t :=
  (n <- lift (text_param name) ;;
   l4 <- lift (if truthy last4 then Some <$> text_param last4 else Ok None) ;;
   rows <- read (fun t =>
             filter (account_matches (Institution.id institution) n l4)
                    (accounts t)) ;;
   account <- lift (scalar_one_or_none rows) ;;
   match account with
   | Some account => ret account
   | None =>
       let acct_type_enum :=
         match AccountType.of_value account_type with
         | Ok a => a
         | Raise _ => AccountType.CHECKING
         end in
       l4col <- lift (opt_text_param last4) ;;
       id <- uuid4 ;;
       let account :=
         Account.mk id user_id (Institution.id institution) n
                    acct_type_enum l4col in
       add_account account ;;; flush ;;; ret account
   end)%M.

Definition _get_or_create_category (name : pyval) : M Category.t :=
  (n <- lift (text_param name) ;;
   rows <- read (fun t =>
             filter (fun c => Category.name c = n) (categories t)) ;;
   cat <- lift (scalar_one_or_none rows) ;;
   match cat with
   | Some cat => ret cat
   | None =>
       id <- uuid4 ;;
       let cat := Category.mk id n true in
       add_category cat ;;; flush ;;; ret cat
   end)%M.

Definition same_key (account_id : uuid) (txn_date : date) (amount_cents : Z)
    (description : string) (x : Transaction.t) : Prop :=
  Transaction.account_id x = account_id
  ∧ Transaction.date_ x = txn_date
  ∧ Transaction.amount_cents x = amount_cents
  ∧ Transaction.description x = description.

#[global] Instance same_key_dec a d c s x : Decision (same_key a d c s x).
Proof. unfold same_key. apply _. Defined.

Definition _is_duplicate (account_id : uuid) (txn_date : date)
    (amount_cents description : pyval) : M bool :=
  (a <- lift (int_param amount_cents) ;;
   d <- lift (text_param description) ;;
   rows <- read (fun t =>
             take 1 (filter (same_key account_id txn_date a d)
                            (transactions t))) ;;
   found <- lift (scalar_one_or_none rows) ;;
   ret (match found with Some _ => true | None => false end))%M.

(** The helpers of the worker path repeat the ones above on a synchronous
    session. *)
Definition _get_or_create_institution_sync := _get_or_create_institution.
Definition _get_or_create_account_sync := _get_or_create_account.
Definition _get_or_create_category_sync := _get_or_create_category.
Definition _is_duplicate_sync := _is_duplicate.

(** [for p in parsers.values(): if p.detect(...): parser = p; break] *)
Fixpoint select_parser (parsers : list FileParserPlugin.t)
    (file_content : bytes) (filename : string)
  : result (option FileParserPlugin.t) :=
  match parsers with
  | [] => Ok None
  | p :: rest =>
      (found <- FileParserPlugin.detect p file_content filename ;;
       if found then Ok (Some p)
       else select_parser rest file_content filename)%result
  end.

Definition no_parser_message : string := "No parser found for this file format".

Section Service.
(** [date.fromisoformat] *)
Variable fromisoformat : string -> result date.
(** [str(x)] for the values that are neither [None], [bool], [int] nor
    [str]. *)
Variable repr : pyval -> string.
(** [datetime.now(UTC)] *)
Variable now : nat.

(** [f"{x}"] *)
Definition format (v : pyval) : string :=
  match v with
  | PStr s => s
  | PNone => "None"
  | PBool true => "True"
  | PBool false => "False"
  | PInt z => pretty z
  | _ => repr v
  end.

Definition parse_date (v : pyval) : result date :=
  match v with
  | PStr s => fromisoformat s
  | _ => Raise (Exn TypeError "fromisoformat: argument must be str")
  end.

(** The body of the loop over the parsed rows, up to the progress
    callback of the worker path. *)
Definition import_row (user_id job_id : uuid) (row : dict) (st : LoopState)
  : M LoopState :=
  ((* Institution *)
   inst_name <- lift (getitem row "institution_name") ;;
   ic <- cached (inst_cache st) inst_name
           (_get_or_create_institution inst_name) ;;
   let '(institution, inst_cache) := ic in
   (* Account *)
   account_name <- lift (getitem row "account_name") ;;
   let acct_key :=
     format inst_name +:+ "|" +:+ format account_name +:+ "|"
       +:+ format (get_or row "account_number_last4" (PStr "")) in
   ac <- match acct_cache st !! acct_key with
         | Some a => ret (a, acct_cache st)
         | None =>
             account_type <- lift (getitem row "account_type") ;;
             a <- _get_or_create_account institution account_name
                    account_type (get row "account_number_last4")
                    (Some user_id) ;;
             ret (a, <[acct_key := a]> (acct_cache st))
         end ;;
   let '(account, acct_cache) := ac in
   (* Category *)
   let cat_name :=
     or_ (get_or row "category_name" (PStr "Uncategorized"))
         (PStr "Uncategorized") in
   cc <- cached (cat_cache st) cat_name
           (_get_or_create_category cat_name) ;;
   let '(category, cat_cache) := cc in
   (* Parse date *)
   date_text <- lift (getitem row "date") ;;
   txn_date <- lift (parse_date date_text) ;;
   original_date <-
     (if truthy (get row "original_date")
      then lift (Some <$> parse_date (get row "original_date"))
      else ret None) ;;
   (* Deduplicate *)
   amount_cents <- lift (getitem row "amount_cents") ;;
   description <- lift (getitem row "description") ;;
   dup <- _is_duplicate (Account.id account) txn_date amount_cents
            description ;;
   if dup : bool then
     ret (mkLoop (imported st) (S (duplicates st))
                 inst_cache acct_cache cat_cache)
   else
     amount <- lift (int_param amount_cents) ;;
     descr <- lift (text_param description) ;;
     original_description <-
       lift (opt_text_param (get row "original_description")) ;;
     merchant_name <- lift (opt_text_param (get row "merchant_name")) ;;
     custom_name <- lift (opt_text_param (get row "custom_name")) ;;
     note <- lift (opt_text_param (get row "note")) ;;
     is_transfer <-
       lift (bool_param (get_or row "is_transfer" (PBool false))) ;;
     is_tax_deductible <-
       lift (bool_param (get_or row "is_tax_deductible" (PBool false))) ;;
     id <- uuid4 ;;
     add_transaction
       (Transaction.mk id (Account.id account) txn_date original_date
          amount descr original_description merchant_name
          (Some (Category.id category)) custom_name note is_transfer
          is_tax_deductible (get row "tags") (Some job_id)) ;;;
     ret (mkLoop (S (imported st)) (duplicates st)
                 inst_cache acct_cache cat_cache))%M.

(** [for row in parsed: ...] *)
Fixpoint import_rows (user_id job_id : uuid) (parsed : list dict)
    (st : LoopState) : M LoopState :=
  match parsed with
  | [] => ret st
  | row :: rest =>
      (st' <- import_row user_id job_id row st ;;
       import_rows user_id job_id rest st')%M
  end.

(** The [try] block of [run_import]. *)
Definition import_body (parser : FileParserPlugin.t) (job_id user_id : uuid)
    (filename : string) (file_content : bytes) : M unit :=
  (parsed <- lift (FileParserPlugin.parse parser file_content filename) ;;
   set_job job_id (ImportJob.with_total_rows (length parsed)) ;;;
   st <- import_rows user_id job_id parsed init ;;
   set_job job_id (ImportJob.with_imported_rows (imported st)) ;;;
   set_job job_id (ImportJob.with_duplicate_rows (duplicates st)) ;;;
   set_job job_id (ImportJob.with_status ImportStatus.COMPLETED) ;;;
   set_job job_id (ImportJob.with_completed_at (Some now)) ;;;
   commit)%M.

(** [str(exc)[:1000]] *)
Definition failure_text (exc : exn) : string := slice_to 1000 (message exc).

Definition run_import (parsers : list FileParserPlugin.t) (user_id : uuid)
    (filename : string) (file_content : bytes) : M ImportJob.t :=
  (parser <- lift (select_parser parsers file_content filename) ;;
   match parser with
   | None =>
       id <- uuid4 ;;
       let job :=
         ImportJob.with_error_message (Some no_parser_message)
           (ImportJob.new id user_id filename "unknown"
              ImportStatus.FAILED) in
       add_job job ;;; commit ;;; ret job
   | Some parser =>
       id <- uuid4 ;;
       add_job (ImportJob.new id user_id filename (FileParserPlugin.name parser)
                  ImportStatus.PROCESSING) ;;;
       flush ;;;
       try_except
         (import_body parser id user_id filename file_content)
         (fun exc =>
            (* the job object keeps its attributes over the rollback
               that undoes its INSERT *)
            job <- job_object id ;;
            rollback ;;;
            add_job
              (ImportJob.with_error_message (Some (failure_text exc))
                 (ImportJob.with_status ImportStatus.FAILED job)) ;;;
            commit) ;;;
       job_object id
   end)%M.

(** The progress report at the end of a turn of the worker loop:
    [if on_progress and (i + 1) % 100 == 0: ...].  The callback reports
    progress and returns nothing. *)
Definition report_progress (on_progress : option (nat -> unit))
    (job_id : uuid) (i : nat) : M unit :=
  match on_progress with
  | Some callback =>
      if decide ((i + 1) mod 100 = 0)%nat then
        (set_job job_id (ImportJob.with_processed_rows (i + 1)) ;;;
         commit ;;;
         ret (callback (i + 1)%nat))%M
      else ret tt
  | None => ret tt
  end.

(** [for i, row in enumerate(parsed): ...] of the worker path; [i] is the
    index of the first row of [parsed]. *)
Fixpoint import_rows_sync (on_progress : option (nat -> unit))
    (user_id job_id : uuid) (parsed : list dict) (i : nat)
    (st : LoopState) : M LoopState :=
  match parsed with
  | [] => ret st
  | row :: rest =>
      (st' <- import_row user_id job_id row st ;;
       (* Progress callback every 100 rows *)
       report_progress on_progress job_id i ;;;
       import_rows_sync on_progress user_id job_id rest (S i) st')%M
  end.

(** The [try] block of [run_import_sync]. *)
Definition import_body_sync (on_progress : option (nat -> unit))
    (parser : FileParserPlugin.t) (job_id user_id : uuid)
    (filename : string) (file_content : bytes) : M unit :=
  (parsed <- lift (FileParserPlugin.parse parser file_content filename) ;;
   set_job job_id (ImportJob.with_total_rows (length parsed)) ;;;
   commit ;;;
   st <- import_rows_sync on_progress user_id job_id parsed 0 init ;;
   set_job job_id (ImportJob.with_processed_rows (length parsed)) ;;;
   set_job job_id (ImportJob.with_imported_rows (imported st)) ;;;
   set_job job_id (ImportJob.with_duplicate_rows (duplicates st)) ;;;
   commit)%M.

Definition run_import_sync (parsers : list FileParserPlugin.t)
    (user_id : uuid) (filename : string) (file_content : bytes)
    (job_id : uuid) (on_progress : option (nat -> unit))
  : M ImportJob.t :=
  (parser <- lift (select_parser parsers file_content filename) ;;
   _ <- job_object job_id ;;
   match parser with
   | None =>
       set_job job_id (ImportJob.with_status ImportStatus.FAILED) ;;;
       set_job job_id
         (ImportJob.with_error_message (Some no_parser_message)) ;;;
       commit ;;;
       job_object job_id
   | Some parser =>
       set_job job_id (ImportJob.with_source_type (FileParserPlugin.name parser)) ;;;
       set_job job_id (ImportJob.with_status ImportStatus.PROCESSING) ;;;
       commit ;;;
       try_except
         (import_body_sync on_progress parser job_id user_id filename
            file_content)
         (fun exc =>
            (* the job object is reloaded from the rolled-back session *)
            rollback ;;;
            set_job job_id (ImportJob.with_status ImportStatus.FAILED) ;;;
            set_job job_id
              (ImportJob.with_error_message (Some (failure_text exc))) ;;;
            commit) ;;;
       job_object job_id
   end)%M.

End Service.

End ImportService.

(* ===================================================================== *)
(** * [app/services/categorization_service.py] *)
(* ===================================================================== *)

(** [app/plugins/base.py]: the AI capability, as far as categorisation uses
    it.  [categorize_batch] receives the descriptions of the transactions and
    answers with one [dict] per transaction. *)
Module TxnDict.
Record t := mk {
  description : string;
  merchant_name : option string;
  amount_cents : Z
}.
End TxnDict.

Module AIProviderPlugin.
Record t := mk {
  name : string;
  categorize : string -> result (option string);
  categorize_batch : list TxnDict.t -> result (list dict)
}.
End AIProviderPlugin.

Module Categorization.

(** One entry of the list that [categorize_batch] returns, and the value
    that [categorize_transaction] returns. *)
Record Outcome := mkOutcome {
  transaction_id : uuid;
  category_name : pyval;
  confidence : pyval;
  merchant_normalized : pyval
}.

(** The registry of AI providers and [settings.DEFAULT_AI_PROVIDER]. *)
Record Providers := {
  registered : list AIProviderPlugin.t;
  DEFAULT_AI_PROVIDER : string
}.

(** [registry.get("ai", name)] *)
Definition registry_get (ps : Providers) (name : string)
  : option AIProviderPlugin.t :=
  find (fun p => String.eqb (AIProviderPlugin.name p) name) (registered ps).

Definition _get_ai_provider (ps : Providers) (provider_name : option string)
  : result AIProviderPlugin.t :=
  let name :=
    match provider_name with
    | Some n => if String.eqb n "" then DEFAULT_AI_PROVIDER ps else n
    | None => DEFAULT_AI_PROVIDER ps
    end in
  match registry_get ps name with
  | Some provider => Ok provider
  | None => Raise (Exn ValueError ("AI provider '" +:+ name +:+ "' not found."))
  end.

(** Match a category name from the AI to an existing category. *)
Definition _match_category (name : pyval) : M (option Category.t) :=
  match name with
  | PStr n =>
      (rows <- read (fun t =>
                 filter (fun c => Category.name c = n) (categories t)) ;;
       cat <- lift (scalar_one_or_none rows) ;;
       match cat with
       | Some cat => ret (Some cat)
       | None =>
           (* Case-insensitive fallback *)
           all_cats <- read categories ;;
           ret (find (fun c => String.eqb (lower (Category.name c)) (lower n))
                     all_cats)
       end)%M
  | PNone =>
      raise (Exn AttributeError
               "'NoneType' object has no attribute 'lower'")
  | _ => raise ImportService.bind_error
  end.

(** A transaction object: its attributes are those of its row in the open
    transaction. *)
Definition txn_object (txn_id : uuid) : M (option Transaction.t) :=
  read (fun t =>
          last (filter (fun x => Transaction.id x = txn_id) (transactions t))).

Definition float_0_5 : pyval := PFloat (PyFloat.of_decimal false 5 (-1)).
Definition float_0_0 : pyval := PFloat (S754_zero false).


(** The answer assumed for a transaction the provider returned nothing
    for. *)
Definition no_answer : dict :=
  list_to_map [ ("category", PStr "Uncategorized");
                ("confidence", float_0_0);
                ("merchant_normalized", PNone) ].

(** The second loop of [categorize_batch], over [enumerate(ordered_ids)]. *)
Fixpoint apply_answers (ai_results : list dict) (i : nat)
    (ordered_ids : list uuid) : M (list Outcome) :=
  match ordered_ids with
  | [] => ret []
  | tid :: rest =>
      (txn <- txn_object tid ;;
       let ai_result := default no_answer (ai_results !! i) in
       let cat_name := get_or ai_result "category" (PStr "Uncategorized") in
       category <- _match_category cat_name ;;
       match category with
       | Some c =>
           set_transaction tid
             (Transaction.with_category_id (Some (Category.id c)))
       | None => ret tt
       end ;;;
       let merchant_normalized := get ai_result "merchant_normalized" in
       (if truthy merchant_normalized
           && match txn ≫= Transaction.merchant_name with
              | Some m => negb (String.eqb m "")
              | None => false
              end
        then
          m <- lift (ImportService.text_param merchant_normalized) ;;
          set_transaction tid (Transaction.with_merchant_name (Some m))
        else ret tt) ;;;
       out <- apply_answers ai_results (S i) rest ;;
       ret (mkOutcome tid
              (match category with
               | Some c => PStr (Category.name c)
               | None => cat_name
               end)
              (get_or ai_result "confidence" float_0_5)
              merchant_normalized
            :: out))%M
  end.

Definition categorize_batch (ps : Providers) (transaction_ids : list uuid)
    (provider_name : option string) : M (list Outcome) :=
  (provider <- lift (_get_ai_provider ps provider_name) ;;
   transactions <- read (fun t =>
                     filter (fun x => Transaction.id x ∈ transaction_ids)
                            (transactions t)) ;;
   match transactions with
   | [] => ret []
   | _ =>
       let txn_map : gmap uuid Transaction.t :=
         foldl (fun m x => <[Transaction.id x := x]> m) ∅ transactions in
       let ordered :=
         omap (fun tid => (fun x => (tid, x)) <$> txn_map !! tid)
              transaction_ids in
       let ordered_ids := map fst ordered in
       let txn_dicts :=
         map (fun '(_, x) =>
                TxnDict.mk (Transaction.description x)
                           (Transaction.merchant_name x)
                           (Transaction.amount_cents x))
             ordered in
       ai_results <- lift (AIProviderPlugin.categorize_batch provider txn_dicts) ;;
       output <- apply_answers ai_results 0 ordered_ids ;;
       commit ;;;
       ret output
   end)%M.

End Categorization.

(* ===================================================================== *)
(** * [app/tasks/import_tasks.py]: the categorisation task *)
(* ===================================================================== *)

Module ImportTasks.

(** [with session_factory() as db: ...]: the block runs in a session of its
    own on the durable tables; what it leaves uncommitted is discarded when
    the session is closed. *)
Definition with_session {A} (block : M A) : M A :=
  fun s =>
    let '(r, s') := block (mkSession (committed s) (committed s) (next_uuid s)) in
    (r, mkSession (committed s') (committed s') (next_uuid s')).

(** [range(0, stop, step)] *)
Definition range (stop step : nat) : list nat :=
  map (fun k => k * step) (seq 0 ((stop + step - 1) / step)).

(** The argument of the task: the value the import task returned. *)
Record ImportResult := {
  job_id : option uuid;
  status : option string
}.

Inductive TaskResult :=
| Skipped (reason : string)
| Categorized (categorized total : nat) (warnings : option nat).

(** What the first session of the task finds. *)
Inductive Plan :=
| JobNotFound
| NothingToDo
| Batches (txn_ids : list uuid).

Definition batch_size : nat := 20.

(** [len([r for r in results if r["category_name"] != "Uncategorized"])] *)
Definition count_categorized (results : list Categorization.Outcome) : nat :=
  length (filter (fun r => Categorization.category_name r
                           <> PStr "Uncategorized") results).

Definition warning (batch_num : nat) (exc : exn) : string :=
  "Batch " +:+ pretty batch_num +:+ ": " +:+ message exc.

Definition join (sep : string) (l : list string) : string :=
  match l with
  | [] => ""
  | x :: rest => foldl (fun acc y => acc +:+ sep +:+ y) x rest
  end.

Definition warnings_text (categorization_errors : list string) : string :=
  "Categorization warnings (" +:+ pretty (length categorization_errors)
    +:+ " batches): " +:+ join "; " (take 5 categorization_errors).

Section Task.
Variable providers : Categorization.Providers.
Variable now : nat.

(** The first session: look the job and its uncategorized transactions
    up. *)
Definition plan (job_uuid : uuid) : M Plan :=
  (rows <- select_job job_uuid ;;
   job <- lift (scalar_one_or_none rows) ;;
   match job with
   | None => ret JobNotFound
   | Some _ =>
       (* Find uncategorized transactions from this import *)
       cats <- read (fun t =>
                 filter (fun c => Category.name c = "Uncategorized")
                        (categories t)) ;;
       uncat <- lift (scalar_one_or_none cats) ;;
       match uncat with
       | None =>
           set_job job_uuid (ImportJob.with_status ImportStatus.COMPLETED) ;;;
           set_job job_uuid (ImportJob.with_completed_at (Some now)) ;;;
           commit ;;;
           ret NothingToDo
       | Some uncat =>
           uncategorized_txns <-
             read (fun t =>
                     filter (fun x =>
                               Transaction.import_job_id x = Some job_uuid
                               ∧ Transaction.category_id x
                                 = Some (Category.id uncat))
                            (transactions t)) ;;
           match uncategorized_txns with
           | [] =>
               set_job job_uuid
                 (ImportJob.with_status ImportStatus.COMPLETED) ;;;
               set_job job_uuid (ImportJob.with_completed_at (Some now)) ;;;
               commit ;;;
               ret NothingToDo
           | _ =>
               set_job job_uuid
                 (ImportJob.with_status ImportStatus.CATEGORIZING) ;;;
               set_job job_uuid
                 (ImportJob.with_uncategorized_rows
                    (length uncategorized_txns)) ;;;
               commit ;;;
               ret (Batches (map Transaction.id uncategorized_txns))
           end
       end
   end)%M.

(** The progress update after a batch. *)
Definition update_progress (job_uuid : uuid) (categorized : nat) : M unit :=
  (_ <- job_object job_uuid ;;
   set_job job_uuid (ImportJob.with_categorized_rows categorized) ;;;
   commit)%M.

(** One turn of the loop over the batches: the [try] block and its
    handler.  The counter keeps what it gained before an exception. *)
Definition batch_step (job_uuid : uuid) (txn_ids : list uuid)
    (start : nat) (acc : nat * list string) : M (nat * list string) :=
  let '(categorized, categorization_errors) := acc in
  let batch_ids := take batch_size (drop start txn_ids) in
  let batch_num := (start / batch_size + 1)%nat in
  fun s =>
    match with_session
            (Categorization.categorize_batch providers batch_ids None) s with
    | (Ok results, s1) =>
        let categorized := (categorized + count_categorized results)%nat in
        match with_session (update_progress job_uuid categorized) s1 with
        | (Ok _, s2) => (Ok (categorized, categorization_errors), s2)
        | (Raise exc, s2) =>
            (Ok (categorized,
                 categorization_errors ++ [warning batch_num exc]), s2)
        end
    | (Raise exc, s1) =>
        (Ok (categorized,
             categorization_errors ++ [warning batch_num exc]), s1)
    end.

(** [for start in range(0, len(txn_ids), batch_size): ...] *)
Fixpoint batch_loop (job_uuid : uuid) (txn_ids : list uuid)
    (starts : list nat) (acc : nat * list string)
  : M (nat * list string) :=
  match starts with
  | [] => ret acc
  | start :: rest =>
      (acc' <- batch_step job_uuid txn_ids start acc ;;
       batch_loop job_uuid txn_ids rest acc')%M
  end.

(** Always mark completed: categorization is best-effort. *)
Definition finish (job_uuid : uuid) (categorization_errors : list string)
  : M unit :=
  (_ <- job_object job_uuid ;;
   set_job job_uuid (ImportJob.with_status ImportStatus.COMPLETED) ;;;
   set_job job_uuid (ImportJob.with_completed_at (Some now)) ;;;
   match categorization_errors with
   | [] => ret tt
   | _ =>
       set_job job_uuid
         (ImportJob.with_error_message
            (Some (warnings_text categorization_errors)))
   end ;;;
   commit)%M.

Definition categorize_import_task (import_result : ImportResult)
  : M TaskResult :=
  match job_id import_result with
  | None => ret (Skipped "Import failed or missing")
  | Some job_uuid =>
      if bool_decide (status import_result = Some "failed")
      then ret (Skipped "Import failed or missing")
      else
        (p <- with_session (plan job_uuid) ;;
         match p with
         | JobNotFound => ret (Skipped "Job not found")
         | NothingToDo => ret (Categorized 0 0 None)
         | Batches txn_ids =>
             acc <- batch_loop job_uuid txn_ids
                      (range (length txn_ids) batch_size) (0%nat, []) ;;
             let '(categorized, categorization_errors) := acc in
             with_session (finish job_uuid categorization_errors) ;;;
             ret (Categorized categorized (length txn_ids)
                    (Some (length categorization_errors)))
         end)%M
  end.

End Task.

End ImportTasks.

(* ===================================================================== *)
(** * [app/api/imports.py]: the upload route, with
      [app/services/schema_inference_service.py] *)
(* ===================================================================== *)

Module ImportsApi.

(** The JSON object the AI answers with; [inferred.get(key, {})]. *)
Record Inferred := {
  detection_rules : option SchemaBased.DetectionRules;
  column_mapping : option (list (string * string));
  transform_rules : option SchemaBased.TransformRules
}.

Definition no_rules : SchemaBased.DetectionRules :=
  SchemaBased.Build_DetectionRules None None None None.
Definition no_transform : SchemaBased.TransformRules :=
  SchemaBased.Build_TransformRules None None None None.

(** [Path(filename).stem] and [Path(filename).suffix] *)
Definition path_name (filename : string) : list ascii :=
  rev (before_first "/" (rev (chars filename))).
Definition path_ext (filename : string) : list ascii :=
  rev (before_first "." (rev (path_name filename))).
Definition has_suffix (filename : string) : bool :=
  let name := path_name filename in
  let ext := path_ext filename in
  (length ext + 1 <? length name)%nat && (0 <? length ext)%nat.
Definition stem (filename : string) : string :=
  let name := path_name filename in
  if has_suffix filename
  then of_chars (take (length name - length (path_ext filename) - 1) name)
  else of_chars name.
Definition suffix (filename : string) : string :=
  if has_suffix filename then of_chars ("."%char :: path_ext filename)
  else "".

(** [s.replace(" ", "-")] *)
Definition dashes (s : string) : string :=
  of_chars (map (fun c => if Ascii.eqb c " " then "-"%char else c) (chars s)).

Definition bad_request (detail : string) : exn :=
  Exn (HTTPException 400) detail.

(** [_load_schemas]: the active rows, as the parser keeps them. *)
Definition load_schemas (t : Tables) : list SchemaBased.Schema :=
  map (fun row =>
         SchemaBased.Build_Schema
           (pretty (ParserSchema.id row)) (ParserSchema.name row)
           (ParserSchema.file_type row) (ParserSchema.detection_rules row)
           (ParserSchema.column_mapping row)
           (ParserSchema.transform_rules row))
      (filter (fun row => ParserSchema.is_active row = true)
              (parser_schemas t)).

Section Api.
Variable re_search : string -> string -> bool -> result bool.
(** [infer_schema]: the call to the AI and the decoding of its answer. *)
Variable infer_schema : string -> bytes -> result Inferred.
(** Storing the content in Redis and dispatching the Celery chain; the
    value is [result.id]. *)
Variable dispatch : uuid -> bytes -> result string.
(** [registry.get_all("parser").values()] once [discover] has run. *)
Variable parsers : list FileParserPlugin.t.

(** [any(p.detect(content, filename) for p in parsers.values())] *)
Fixpoint any_detect (ps : list FileParserPlugin.t) (content : bytes)
    (filename : string) : result bool :=
  match ps with
  | [] => Ok false
  | p :: rest =>
      (found <- FileParserPlugin.detect p content filename ;;
       if found then Ok true else any_detect rest content filename)%result
  end.

Definition infer_and_save_schema (filename : string) (file_content : bytes)
  : M ParserSchema.t :=
  (inferred <- lift (infer_schema filename file_content) ;;
   let name :=
     slice_to 255 (lower (dashes ("ai-inferred-" +:+ stem filename))) in
   let ext := lower (suffix filename) in
   let ext := match ext with String "." e => e | _ => ext end in
   let file_type :=
     if bool_decide (ext ∈ ["csv"; "tsv"; "ofx"; "qfx"; "pdf"]) then ext
     else "csv" in
   id <- uuid4 ;;
   let schema :=
     ParserSchema.mk id name
       (Some ("Auto-inferred schema for " +:+ filename)) file_type
       (default no_rules (detection_rules inferred))
       (default [] (column_mapping inferred))
       (default no_transform (transform_rules inferred))
       true true in
   taken <- read (fun t =>
              filter (fun row => ParserSchema.name row = name)
                     (parser_schemas t)) ;;
   match taken with
   | [] => add_parser_schema schema ;;; commit ;;; ret schema
   | _ =>
       raise (Exn DBAPIError
                "duplicate key value violates unique constraint")
   end)%M.

(** The attempt at schema inference of [upload_file]: the [try] block,
    any exception of which is swallowed.  The value is [parser_found]. *)
Definition try_schema_inference (filename : string) (content : bytes)
  : M bool :=
  try_except
    (_ <- infer_and_save_schema filename content ;;
     match find (fun p => String.eqb (FileParserPlugin.name p)
                                     SchemaBased.name) parsers with
     | Some _ =>
         (* schema_parser.reload_schemas() *)
         schemas <- (fun s => (Ok (load_schemas (committed s)), s)) ;;
         lift (SchemaBased.detect re_search schemas content filename)
     | None => ret false
     end)%M
    (fun _ => ret false).

Definition upload_file (filename : option string) (content : bytes)
    (current_user : uuid) : M ImportJob.t :=
  match filename with
  | None => raise (bad_request "No filename provided")
  | Some filename =>
      if String.eqb content "" then raise (bad_request "Empty file")
      else
        ((* Validate that a parser can handle this file *)
         parser_found <- lift (any_detect parsers content filename) ;;
         parser_found <-
           (if parser_found : bool then ret true
            else try_schema_inference filename content) ;;
         if negb parser_found
         then raise (bad_request ImportService.no_parser_message)
         else
           (* Create PENDING job *)
           id <- uuid4 ;;
           add_job (ImportJob.new id current_user filename "unknown"
                      ImportStatus.PENDING) ;;;
           commit ;;;
           task_id <- lift (dispatch id content) ;;
           set_job id (ImportJob.with_celery_task_id (Some task_id)) ;;;
           commit ;;;
           job_object id)%M
  end.

End Api.

End ImportsApi.

(* ===================================================================== *)
(** * Library functions, for running the code on concrete files *)
(* ===================================================================== *)

(** The services take the functions of the libraries they call as
    parameters.  These definitions stand for them on plain inputs. *)
Module Plain.

Definition two_digits (a b : ascii) : option Z :=
  match PyFloat.digit_val a, PyFloat.digit_val b with
  | Some x, Some y => Some (10 * x + y)%Z
  | _, _ => None
  end.

(** [date.fromisoformat] on the format [YYYY-MM-DD] (days up to 28, so that
    every month has them). *)
Definition fromisoformat (s : string) : result date :=
  let invalid := Raise (Exn ValueError ("Invalid isoformat string: '" +:+ s +:+ "'")) in
  match chars s with
  | [y1; y2; y3; y4; "-"%char; m1; m2; "-"%char; d1; d2] =>
      match two_digits y1 y2, two_digits y3 y4, two_digits m1 m2,
            two_digits d1 d2 with
      | Some a, Some b, Some m, Some d =>
          if ((1 <=? 100 * a + b) && (1 <=? m) && (m <=? 12)
              && (1 <=? d) && (d <=? 28))%Z
          then Ok (Date (100 * a + b) m d)
          else invalid
      | _, _, _, _ => invalid
      end
  | _ => invalid
  end.

(** [pd.read_csv] on a file without quotes or blank cells to infer: one
    line per row, the first one the header. *)
Definition read_csv (content : bytes) (sep : string)
  : result Pandas.DataFrame :=
  let sepc := match sep with String c _ => c | EmptyString => ","%char end in
  match filter (fun line => line <> "") (split_on "010" content) with
  | [] => Raise (Exn ValueError "No columns to parse from file")
  | header :: rows =>
      Ok (Pandas.Build_DataFrame (split_on sepc header)
            (map (split_on sepc) rows))
  end.

(** [re.search] for a pattern without special characters. *)
Definition re_search (pattern text : string) (ignorecase : bool)
  : result bool :=
  Ok (if ignorecase then contains (lower pattern) (lower text)
      else contains pattern text).

(** [str(x)] of the remaining values is not needed on these inputs. *)
Definition repr (v : pyval) : string := "".

Definition newline : string := String "010" "".

End Plain.

(* ===================================================================== *)
(** * [app/plugins/registry.py] *)
(* ===================================================================== *)

Module Registry.

(** A [dict] with [str] keys: its items in insertion order.  Assigning to a
    key that is there replaces the value in place, assigning to a new key
    appends an item. *)
Definition Dict (V : Type) : Type := list (string * V).

Fixpoint dict_set {V} (k : string) (v : V) (d : Dict V) : Dict V :=
  match d with
  | [] => [(k, v)]
  | (k', v') :: rest =>
      if String.eqb k' k then (k, v) :: rest
      else (k', v') :: dict_set k v rest
  end.

Definition dict_get {V} (k : string) (d : Dict V) : option V :=
  snd <$> find (fun kv => String.eqb (fst kv) k) d.

Definition values {V} (d : Dict V) : list V := map snd d.

Section Registry.
Context {PluginBase : Type}.
(** [plugin.name] *)
Variable plugin_name : PluginBase -> string.

Definition t : Type := Dict (Dict PluginBase).

Definition _registry : t :=
  [ ("parser", []); ("datasource", []); ("ai", []); ("notification", []) ].

Definition register (plugin_type : string) (plugin : PluginBase) (r : t)
  : result t :=
  match dict_get plugin_type r with
  | None => Raise (Exn ValueError ("Unknown plugin type: " +:+ plugin_type))
  | Some plugins =>
      Ok (dict_set plugin_type
            (dict_set (plugin_name plugin) plugin plugins) r)
  end.

Definition get (plugin_type name : string) (r : t) : option PluginBase :=
  dict_get name (default [] (dict_get plugin_type r)).

Definition get_all (plugin_type : string) (r : t) : Dict PluginBase :=
  default [] (dict_get plugin_type r).
End Registry.

End Registry.

(* ===================================================================== *)
(** * [app/services/categorization_service.py], continued *)
(* ===================================================================== *)

Module Recategorization.

(** [{"categorized": ..., "total": ...}] *)
Record Counts := mkCounts { categorized : nat; total : nat }.

Section Service.
Variable providers : Categorization.Providers.

(** [for start in range(0, len(txn_ids), batch_size): ...]; an exception of
    a batch is not caught. *)
Fixpoint categorize_batches (txn_ids : list uuid)
    (provider_name : option string) (starts : list nat) (categorized : nat)
  : M nat :=
  match starts with
  | [] => ret categorized
  | start :: rest =>
      let batch_ids := take 20 (drop start txn_ids) in
      (results <- Categorization.categorize_batch providers batch_ids
                    provider_name ;;
       categorize_batches txn_ids provider_name rest
         (categorized + ImportTasks.count_categorized results))%M
  end.

Definition recategorize_uncategorized (user_id : uuid)
    (provider_name : option string) : M Counts :=
  ((* Find all transactions with "Uncategorized" category belonging to
      this user *)
   cats <- read (fun t =>
             filter (fun c => Category.name c = "Uncategorized")
                    (categories t)) ;;
   uncat <- lift (scalar_one_or_none cats) ;;
   match uncat with
   | None => ret (mkCounts 0 0)
   | Some uncat =>
       txns <- read (fun t =>
                 let user_accounts :=
                   map Account.id
                       (filter (fun a => Account.user_id a = Some user_id)
                               (accounts t)) in
                 filter (fun x =>
                           Transaction.account_id x ∈ user_accounts
                           ∧ Transaction.category_id x
                             = Some (Category.id uncat))
                        (transactions t)) ;;
       match txns with
       | [] => ret (mkCounts 0 0)
       | _ =>
           let txn_ids := map Transaction.id txns in
           (* Process in batches of 20 *)
           categorized <-
             categorize_batches txn_ids provider_name
               (ImportTasks.range (length txn_ids) 20) 0 ;;
           ret (mkCounts categorized (length txn_ids))
       end
   end)%M.
End Service.

End Recategorization.

(* ===================================================================== *)
(** * [app/tasks/import_tasks.py]: the import task *)
(* ===================================================================== *)

Module ImportWorker.

(** The dictionary the task returns: [{"job_id", "status": "failed",
    "error"}] or [{"job_id", "status", "imported", "duplicates",
    "total"}]. *)
Inductive ImportTaskResult :=
| Failed (error : string)
| Processed (status : string) (imported duplicates total : nat).

Definition max_retries : nat := 2.

(** [on_progress]: it logs the count. *)
Definition on_progress (count : nat) : unit := tt.

Section Worker.
Variable fromisoformat : string -> result date.
Variable repr : pyval -> string.
(** [registry.get_all("parser").values()] once [_ensure_plugins] has
    run. *)
Variable parsers : list FileParserPlugin.t.
(** The file system: the content of the path when [os.path.isfile]. *)
Variable read_file : string -> option bytes.
(** Redis: [r.get("import_file:<job_id>")] and [r.delete(...)]; the
    connection may fail. *)
Variable redis_get : uuid -> result (option bytes).
Variable redis_delete : uuid -> result unit.
(** [self.request.retries], and the exception [self.retry(exc=exc)]
    gives to raise. *)
Variable retries : nat.
Variable retry : exn -> exn.

(** Read file content: from disk (watch) or from Redis (upload). *)
Definition read_content (job_uuid : uuid) (file_path : option string)
  : result (option bytes) :=
  match file_path ≫= (fun p => if String.eqb p "" then None
                                else read_file p) with
  | Some file_content => Ok (Some file_content)
  | None => redis_get job_uuid
  end.

Definition process_import_task (job_uuid : uuid)
    (file_path : option string) : M ImportTaskResult :=
  ImportTasks.with_session
    (rows <- select_job job_uuid ;;
     job <- lift (scalar_one_or_none rows) ;;
     match job with
     | None => ret (Failed "Job not found")
     | Some job =>
         file_content <- lift (read_content job_uuid file_path) ;;
         match file_content with
         | None =>
             set_job job_uuid (ImportJob.with_status ImportStatus.FAILED) ;;;
             set_job job_uuid
               (ImportJob.with_error_message
                  (Some "File content not found in Redis or on disk")) ;;;
             commit ;;;
             ret (Failed "File not found")
         | Some file_content =>
             try_except
               (result_job <-
                  ImportService.run_import_sync fromisoformat repr parsers
                    (ImportJob.user_id job) (ImportJob.filename job)
                    file_content job_uuid (Some on_progress) ;;
                (* Clean up Redis file after successful processing *)
                lift (redis_delete job_uuid) ;;;
                ret (Processed
                       (ImportStatus.value (ImportJob.status result_job))
                       (ImportJob.imported_rows result_job)
                       (ImportJob.duplicate_rows result_job)
                       (ImportJob.total_rows result_job)))
               (fun exc =>
                  rollback ;;;
                  _ <- job_object job_uuid ;;
                  set_job job_uuid
                    (ImportJob.with_status ImportStatus.FAILED) ;;;
                  set_job job_uuid
                    (ImportJob.with_error_message
                       (Some (slice_to 1000 (message exc)))) ;;;
                  commit ;;;
                  (* Return error dict if retries exhausted, otherwise
                     retry *)
                  if decide (max_retries <= retries)%nat
                  then ret (Failed (slice_to 500 (message exc)))
                  else raise (retry exc))
         end
     end)%M.

(** What [categorize_import_task] receives from [process_import_task] in
    the chain: [job_id] and [status] of its result. *)
Definition import_result (job_uuid : uuid) (r : ImportTaskResult)
  : ImportTasks.ImportResult :=
  ImportTasks.Build_ImportResult (Some job_uuid)
    (Some match r with
          | Failed _ => "failed"
          | Processed status _ _ _ => status
          end).
End Worker.

End ImportWorker.

(* ===================================================================== *)
(** * [app/api/imports.py]: reading a job and retrying its
      categorization *)
(* ===================================================================== *)

#[global] Instance import_status_eq_dec : EqDecision ImportStatus.t.
Proof. solve_decision. Defined.

Module ImportJobsApi.

Definition not_found : exn :=
  Exn (HTTPException 404) "Import job not found".

(** [select(ImportJob).where(ImportJob.id == job_id,
    ImportJob.user_id == current_user.id)] *)
Definition select_own_job (job_id current_user : uuid)
  : M (list ImportJob.t) :=
  read (fun t =>
          filter (fun j => ImportJob.user_id j = current_user)
                 (option_list (import_jobs t !! job_id))).

Definition get_import_job (job_id current_user : uuid) : M ImportJob.t :=
  (rows <- select_own_job job_id current_user ;;
   job <- lift (scalar_one_or_none rows) ;;
   match job with
   | None => raise not_found
   | Some job => ret job
   end)%M.

Section Retry.
(** [categorize_import_task.apply_async((import_result,))]; the value is
    the id of the task. *)
Variable apply_async : ImportTasks.ImportResult -> result string.

Definition retry_categorize (job_id current_user : uuid)
  : M (string * uuid) :=
  (rows <- select_own_job job_id current_user ;;
   job <- lift (scalar_one_or_none rows) ;;
   match job with
   | None => raise not_found
   | Some job =>
       if bool_decide (ImportJob.status job
                       ∈ [ImportStatus.COMPLETED;
                          ImportStatus.PARTIALLY_FAILED])
       then
         task_id <-
           lift (apply_async
                   (ImportTasks.Build_ImportResult (Some (ImportJob.id job))
                      (Some (ImportStatus.value (ImportJob.status job))))) ;;
         ret (task_id, ImportJob.id job)
       else
         raise (Exn (HTTPException 400)
                  ("Job status is '"
                   +:+ ImportStatus.value (ImportJob.status job)
                   +:+ "', must be 'completed' or 'partially_failed'"))
   end)%M.
End Retry.

End ImportJobsApi.

(* ===================================================================== *)
(** * Inputs and observations used in the examples *)
(* ===================================================================== *)

(** ** Observations on results *)

Definition is_ok {A} (r : result A) : bool :=
  match r with Ok _ => true | Raise _ => false end.

Definition raised {A} (r : result A) : option exn :=
  match r with Ok _ => None | Raise e => Some e end.

Definition savings_row : Pandas.Series := {[ "Category" := "Savings Transfer" ]}.

Definition date_amount_schema : SchemaBased.Schema :=
  SchemaBased.Build_Schema "1" "bank" "csv"
    (SchemaBased.Build_DetectionRules
       (Some [".csv"]) (Some ["Date"; "Amount"]) None None)
    [("date", "Date"); ("amount_cents", "Amount")]
    (SchemaBased.Build_TransformRules None None None None).

Definition date_amount_file : bytes :=
  "Date,Amount,Memo" +:+ Plain.newline +:+ "2024-01-15,4.50,coffee"
    +:+ Plain.newline.


(** No job is added or changed: the jobs of the open transaction are kept,
    and the durable ones are those from before or, after a commit, those of
    the open transaction. *)
Definition jobs_kept (s s' : Session) : Prop :=
  import_jobs (current s') = import_jobs (current s)
  /\ (import_jobs (committed s') = import_jobs (committed s)
      \/ import_jobs (committed s') = import_jobs (current s)).
(** A registry with the fixed-format parser, and an AI that is unreachable. *)
Definition rocket_only : list FileParserPlugin.t :=
  [RocketMoney.RocketMoneyParser Plain.read_csv].
Definition ai_down (filename : string) (content : bytes)
  : result ImportsApi.Inferred :=
  Raise (Exn ProviderError "Connection error.").
Definition no_dispatch (job_id : uuid) (content : bytes) : result string :=
  Ok "task".
Definition fresh_session : Session := Db.open Db.empty 1.

(** An export with two accounts of the same name at the same institution,
    the first without an account number. *)
Definition rocket_header : string :=
  "Date,Original Date,Account Type,Account Name,Account Number,"
  +:+ "Institution Name,Name,Custom Name,Amount,Description,Category,Note,"
  +:+ "Ignored From,Tax Deductible,Transaction Tags".

Definition two_accounts_file : bytes :=
  rocket_header +:+ Plain.newline
  +:+ "2024-01-15,2024-01-14,Cash,Checking,,Chase,Starbucks,,4.50,"
  +:+ "STARBUCKS #1234,Dining & Drinks,,,," +:+ Plain.newline
  +:+ "2024-01-16,2024-01-16,Cash,Checking,1234,Chase,Shell,,30.00,"
  +:+ "SHELL OIL,Auto & Transport,,,," +:+ Plain.newline.

(** What the tests read off a job. *)
Definition job_summary (job : ImportJob.t)
  : ImportStatus.t * nat * nat * nat * option string :=
  (ImportJob.status job, ImportJob.total_rows job, ImportJob.imported_rows job,
   ImportJob.duplicate_rows job, ImportJob.error_message job).

Definition import_file (file_content : bytes) : M ImportJob.t :=
  ImportService.run_import Plain.fromisoformat Plain.repr 1000 rocket_only 7
    "export.csv" file_content.

(** What the resolution of the entities of a row may do to the session:
    nothing is committed, no transaction or job is touched, and the
    categories are kept. *)
Definition row_step (s s' : Session) : Prop :=
  committed s' = committed s
  /\ transactions (current s') = transactions (current s)
  /\ import_jobs (current s') = import_jobs (current s)
  /\ (forall c, c ∈ categories (current s) -> c ∈ categories (current s')).

(** Nothing is committed and the job rows stay. *)
Definition quiet (s s' : Session) : Prop :=
  committed s' = committed s
  /\ (forall id, is_Some (import_jobs (current s) !! id) ->
                 is_Some (import_jobs (current s') !! id)).

(** A cache of categories holds rows of the table, under their names. *)
Definition cat_cache_ok (cache : gmap string Category.t) (s : Session) : Prop :=
  forall n c, cache !! n = Some c ->
              c ∈ categories (current s) /\ Category.name c = n.

(** The category name [import_row] gives a row. *)
Definition cat_name_of (row : dict) : pyval :=
  or_ (get_or row "category_name" (PStr "Uncategorized"))
      (PStr "Uncategorized").
(** A transaction staged for a job from one of the rows: it is linked to the
    job and to a stored category that bears the category name of the row. *)
Definition staged_by (job_id : uuid) (rows : list dict) (s : Session)
    (t : Transaction.t) : Prop :=
  Transaction.import_job_id t = Some job_id
  /\ exists c row,
      c ∈ categories (current s)
      /\ Transaction.category_id t = Some (Category.id c)
      /\ row ∈ rows
      /\ cat_name_of row = PStr (Category.name c).

(** What a run of the loop over [rows] has done when it ends normally. *)
Definition loop_done (job_id : uuid) (rows : list dict)
    (st : ImportService.LoopState) (s : Session)
    (st' : ImportService.LoopState) (s' : Session) : Prop :=
  cat_cache_ok (ImportService.cat_cache st') s'
  /\ (forall c, c ∈ categories (current s) -> c ∈ categories (current s'))
  /\ ImportService.imported st' + ImportService.duplicates st'
     = ImportService.imported st + ImportService.duplicates st + length rows
  /\ exists staged,
      transactions (current s') = transactions (current s) ++ staged
      /\ ImportService.imported st'
         = ImportService.imported st + length staged
      /\ Forall (staged_by job_id rows s') staged.
(** Nothing is committed and the job rows are left alone. *)
Definition uncommitted (s s' : Session) : Prop :=
  committed s' = committed s
  /\ import_jobs (current s') = import_jobs (current s).

(** The row of a job stays, in the database and in the open transaction. *)
Definition job_stays (job_id : uuid) (s s' : Session) : Prop :=
  is_Some (import_jobs (committed s) !! job_id)
  /\ is_Some (import_jobs (current s) !! job_id) ->
  is_Some (import_jobs (committed s') !! job_id)
  /\ is_Some (import_jobs (current s') !! job_id).

(** The row of a job stays in the open transaction, with its number of
    rows. *)
Definition total_kept (job_id : uuid) (s s' : Session) : Prop :=
  forall j, import_jobs (current s) !! job_id = Some j ->
  exists j', import_jobs (current s') !! job_id = Some j'
             /\ ImportJob.total_rows j' = ImportJob.total_rows j.

(** The tables an import fills, jobs apart. *)
Definition entities (t : Tables)
  : list Institution.t * list Account.t * list Category.t
    * list Transaction.t :=
  (institutions t, accounts t, categories t, transactions t).

(** The session in which the [try] block of [run_import] starts: the new job
    is flushed, nothing is committed. *)
Definition job_flushed (parser : FileParserPlugin.t) (user_id : uuid)
    (filename : string) (s : Session) : Session :=
  mkSession (committed s)
    (with_import_jobs
       (insert (next_uuid s)
          (ImportJob.new (next_uuid s) user_id filename
             (FileParserPlugin.name parser) ImportStatus.PROCESSING))
       (current s))
    (S (next_uuid s)).

(** The session in which the [try] block of [run_import_sync] starts: the
    job is marked as processed by the parser, and this is committed. *)
Definition job_claimed (parser : FileParserPlugin.t) (job_id : uuid)
    (s : Session) : Session :=
  let tables :=
    with_import_jobs
      (alter (ImportJob.with_status ImportStatus.PROCESSING) job_id)
      (with_import_jobs
         (alter (ImportJob.with_source_type (FileParserPlugin.name parser))
            job_id)
         (current s)) in
  mkSession tables tables (next_uuid s).

(** An export of a hundred payments, followed by a row whose date is not
    one. *)
Definition payment_line (i : nat) : string :=
  "2024-01-15,2024-01-15,Cash,Checking,1234,Chase,Shop,,4.50,PAYMENT "
  +:+ pretty i +:+ ",Shopping,,,," +:+ Plain.newline.

Definition undated_line : string :=
  "not-a-date,,Cash,Checking,1234,Chase,Shop,,4.50,LAST,Shopping,,,,"
  +:+ Plain.newline.

Definition payments_file (n : nat) : bytes :=
  rocket_header +:+ Plain.newline
  +:+ foldr (fun i rest => payment_line i +:+ rest) undated_line (seq 0 n).

(** A session with the job that the upload has queued. *)
Definition queued_session : Session :=
  Db.open
    (with_import_jobs
       (insert 1 (ImportJob.new 1 7 "export.csv" "unknown"
                    ImportStatus.PENDING))
       Db.empty)
    2.

Definition silent (processed : nat) : unit := tt.

Definition work_on (file_content : bytes)
    (on_progress : option (nat -> unit)) : M ImportJob.t :=
  ImportService.run_import_sync Plain.fromisoformat Plain.repr rocket_only 7
    "export.csv" file_content 1 on_progress.

(** An export whose second row has no date. *)
Definition undated_file : bytes := payments_file 1.

(** An answer of the AI as the interface describes it: the category, when
    given, is a string, and so is the normalised merchant unless it is
    [None]. *)
Definition well_typed_answer (a : dict) : Prop :=
  (a !! "category" = None \/ exists n, a !! "category" = Some (PStr n))
  /\ (a !! "merchant_normalized" = None
      \/ a !! "merchant_normalized" = Some PNone
      \/ exists m, a !! "merchant_normalized" = Some (PStr m)).

(** A provider that answers every batch, with such answers. *)
Definition answers_batches (provider : AIProviderPlugin.t) : Prop :=
  forall txn_dicts,
  exists ai_results,
    AIProviderPlugin.categorize_batch provider txn_dicts = Ok ai_results
    /\ Forall well_typed_answer ai_results.

(** No two categories of the open transaction bear the same name. *)
Definition unique_names (s : Session) : Prop :=
  NoDup (Category.name <$> categories (current s)).

(** The id is the one of a transaction of the open transaction. *)
Definition resolves (s : Session) (tid : uuid) : Prop :=
  tid ∈ Transaction.id <$> transactions (current s).
#[export] Instance resolves_dec s tid : Decision (resolves s tid).
Proof. unfold resolves. apply _. Defined.

(** A provider that files everything under groceries, two purchases and the
    category. *)
Definition grocer : AIProviderPlugin.t :=
  AIProviderPlugin.mk "mock"
    (fun description => Ok (Some "Groceries"))
    (fun txn_dicts =>
       Ok (map (fun _ => {[ "category" := PStr "Groceries" ]} : dict)
               txn_dicts)).

Definition mock_providers : Categorization.Providers :=
  Categorization.Build_Providers [grocer] "mock".

Definition purchase (id : uuid) : Transaction.t :=
  Transaction.mk id 1 (Date 2024 1 15) None (-450) "STORE" None None None
    None None false false PNone None.

Definition purchases_session : Session :=
  Db.open (mkTables [] [] [Category.mk 1 "Groceries" true]
             [purchase 10; purchase 11] ∅ [])
          20.

(** The row of a job in the database. *)
Definition stored_job (s : Session) (job_id : uuid) : option ImportJob.t :=
  import_jobs (committed s) !! job_id.


(** The batches the task hands to [categorize_batch]. *)
Definition batches (txn_ids : list uuid) : list (list uuid) :=
  map (fun start => take ImportTasks.batch_size (drop start txn_ids))
      (ImportTasks.range (length txn_ids) ImportTasks.batch_size).

(** A database after an import: the job, the category of the rows without
    one, and two transactions of the job under it; no AI provider is
    registered. *)
Definition imported_session : Session :=
  Db.open
    (mkTables [] [] [Category.mk 5 "Uncategorized" true]
       [Transaction.mk 10 1 (Date 2024 1 15) None (-450) "STORE" None None
          (Some 5) None None false false PNone (Some 1);
        Transaction.mk 11 1 (Date 2024 1 16) None (-300) "CAFE" None None
          (Some 5) None None false false PNone (Some 1)]
       {[ 1 := ImportJob.new 1 7 "export.csv" "rocket_money"
                 ImportStatus.PROCESSING ]}
       [])
    20.

Definition no_providers : Categorization.Providers :=
  Categorization.Build_Providers [] "anthropic".

Definition finished_import : ImportTasks.ImportResult :=
  ImportTasks.Build_ImportResult (Some 1) (Some "completed").

(** A transaction that differs from another one in its category and its
    merchant name at most. *)
Definition relabelled (x x' : Transaction.t) : Prop :=
  x' = Transaction.with_merchant_name (Transaction.merchant_name x')
         (Transaction.with_category_id (Transaction.category_id x') x).

(** What categorisation may do to the open transaction: relabel
    transactions, nothing else. *)
Definition labels_only (s s' : Session) : Prop :=
  institutions (current s') = institutions (current s)
  /\ accounts (current s') = accounts (current s)
  /\ categories (current s') = categories (current s)
  /\ import_jobs (current s') = import_jobs (current s)
  /\ parser_schemas (current s') = parser_schemas (current s)
  /\ Forall2 relabelled (transactions (current s))
       (transactions (current s')).

(** The effective name [_get_ai_provider] looks up. *)
Definition requested_provider (ps : Categorization.Providers)
    (provider_name : option string) : string :=
  match provider_name with
  | Some n => if String.eqb n "" then Categorization.DEFAULT_AI_PROVIDER ps
              else n
  | None => Categorization.DEFAULT_AI_PROVIDER ps
  end.

(** The result for a transaction the provider gave no answer for. *)
Definition unanswered (o : Categorization.Outcome) : Prop :=
  (exists n, Categorization.category_name o = PStr n
             /\ lower n = "uncategorized")
  /\ Categorization.confidence o = Categorization.float_0_0
  /\ Categorization.merchant_normalized o = PNone.

(** A provider that returns no answer at all. *)
Definition mute : AIProviderPlugin.t :=
  AIProviderPlugin.mk "mock" (fun description => Ok None)
    (fun txn_dicts => Ok []).
Definition mute_providers : Categorization.Providers :=
  Categorization.Build_Providers [mute] "mock".

(** The surroundings of the import task in the examples: nothing on disk,
    the upload in Redis or not, a Redis that refuses to delete. *)
Definition nothing_on_disk (path : string) : option bytes := None.
Definition redis_holding (content : bytes) (job_id : uuid)
  : result (option bytes) := Ok (Some content).
Definition redis_empty (job_id : uuid) : result (option bytes) := Ok None.
Definition redis_deletes (job_id : uuid) : result unit := Ok tt.
Definition redis_refuses (job_id : uuid) : result unit :=
  Raise (Exn ProviderError "Connection refused").
Definition retry_of (exc : exn) : exn := exc.

(** The import task of an upload whose content is in Redis, with the
    retries used up, and the one of an upload that is not there. *)
Definition task_with_failing_cleanup : M ImportWorker.ImportTaskResult :=
  ImportWorker.process_import_task Plain.fromisoformat Plain.repr rocket_only
    nothing_on_disk (redis_holding two_accounts_file) redis_refuses 2
    retry_of 1 None.
Definition task_without_file : M ImportWorker.ImportTaskResult :=
  ImportWorker.process_import_task Plain.fromisoformat Plain.repr rocket_only
    nothing_on_disk redis_empty redis_deletes 0 retry_of 1 None.
(* ===================================================================== *)
(** * Properties *)
(* ===================================================================== *)

(** ** Reasoning about session computations *)

Section MonadFacts.
Context {A B : Type}.

Lemma bind_ok (m : M A) (k : A -> M B) s a s1 :
  m s = (Ok a, s1) -> bind m k s = k a s1.
Proof. unfold bind. by intros ->. Qed.

Lemma bind_raise (m : M A) (k : A -> M B) s e s1 :
  m s = (Raise e, s1) -> bind m k s = (Raise e, s1).
Proof. unfold bind. by intros ->. Qed.

Lemma bind_inv (m : M A) (k : A -> M B) s r s' :
  bind m k s = (r, s') ->
  (exists a s1, m s = (Ok a, s1) /\ k a s1 = (r, s'))
  \/ (exists e, m s = (Raise e, s') /\ r = Raise e).
Proof.
  unfold bind. destruct (m s) as [[a|e] s1]; intros H.
  - left. eauto.
  - right. exists e. by simplify_eq.
Qed.

Lemma bind_inv_ok (m : M A) (k : A -> M B) s b s' :
  bind m k s = (Ok b, s') ->
  exists a s1, m s = (Ok a, s1) /\ k a s1 = (Ok b, s').
Proof.
  intros H. apply bind_inv in H as [H|(e & _ & ?)]; [done|discriminate].
Qed.
End MonadFacts.

(** A relation between the session before and after that every outcome of a
    computation respects, whether it returns or raises. *)
Definition respects {A} (R : relation Session) (m : M A) : Prop :=
  forall s r s', m s = (r, s') -> R s s'.

Section Respects.
Context (R : relation Session) `{!Reflexive R, !Transitive R}.

Lemma respects_ret {A} (a : A) : respects R (ret a).
Proof. intros s r s' [= <- <-]. reflexivity. Qed.

Lemma respects_raise {A} e : respects R (raise (A := A) e).
Proof. intros s r s' [= <- <-]. reflexivity. Qed.

Lemma respects_lift {A} (x : result A) : respects R (lift x).
Proof. intros s r s' [= <- <-]. reflexivity. Qed.

Lemma respects_read {A} (f : Tables -> A) : respects R (read f).
Proof. intros s r s' [= <- <-]. reflexivity. Qed.

Lemma respects_flush : respects R flush.
Proof. apply respects_ret. Qed.

Lemma respects_bind {A B} (m : M A) (k : A -> M B) :
  respects R m -> (forall a, respects R (k a)) -> respects R (bind m k).
Proof.
  intros Hm Hk s r s' H.
  apply bind_inv in H as [(a & s1 & H1 & H2)|(e & H1 & _)].
  - etransitivity; [by eapply Hm | by eapply Hk].
  - by eapply Hm.
Qed.

Lemma respects_try_except {A} (m : M A) (h : exn -> M A) :
  respects R m -> (forall e, respects R (h e)) -> respects R (try_except m h).
Proof.
  intros Hm Hh s r s'. unfold try_except.
  destruct (m s) as [[a|e] s1] eqn:E; intros H.
  - simplify_eq. by eapply Hm.
  - etransitivity; [by eapply Hm | by eapply Hh].
Qed.

Lemma respects_cached {V} (cache : gmap string V) key (create : M V) :
  respects R create -> respects R (ImportService.cached cache key create).
Proof.
  intros Hc. unfold ImportService.cached.
  destruct key; try (apply respects_bind; [done|intros; apply respects_ret]).
  - destruct (cache !! s).
    + apply respects_ret.
    + apply respects_bind; [done|intros; apply respects_ret].
  - apply respects_raise.
Qed.
End Respects.


(** The value under a key of a dictionary literal. *)
Ltac lookup_literal :=
  cbn [list_to_map foldr fst snd];
  repeat (rewrite lookup_insert_ne by discriminate);
  rewrite lookup_insert_eq.

(* ===================================================================== *)
(** ** Transfers (fixed-format parser) *)
(* ===================================================================== *)

Lemma transfer_category_iff (category : string) :
  category ∈ RocketMoney.TRANSFER_CATEGORIES <->
  category = "Credit Card Payment" \/ category = "Internal Transfers"
  \/ category = "Savings Transfer".
Proof.
  unfold RocketMoney.TRANSFER_CATEGORIES.
  rewrite !elem_of_union, !elem_of_singleton. tauto.
Qed.

(** C7, as amended: every row that the fixed-format parser yields carries the
    stripped text of the [Category] cell as [category_name], and its
    [is_transfer] flag is true exactly when that category is one of
    "Credit Card Payment", "Internal Transfers" and "Savings Transfer". *)
Theorem is_transfer_iff_transfer_category (row : Pandas.Series) (r : dict) :
  RocketMoney.parse_row row = Ok r ->
  exists (category : string) (flag : bool),
    category = strip (Pandas.get row "Category" "")
    /\ r !! "category_name" = Some (PStr category)
    /\ r !! "is_transfer" = Some (PBool flag)
    /\ (flag = true <->
        category = "Credit Card Payment" \/ category = "Internal Transfers"
        \/ category = "Savings Transfer").
Proof.
  unfold RocketMoney.parse_row. intros H.
  destruct (RocketMoney.amount_to_cents _) as [cents|e]; [|discriminate].
  cbn [rbind] in H. injection H as <-.
  eexists _, _. split; [reflexivity|].
  split. { lookup_literal. reflexivity. }
  split. { lookup_literal. reflexivity. }
  rewrite bool_decide_eq_true. apply transfer_category_iff.
Qed.


Lemma savings_row_parses : is_ok (RocketMoney.parse_row savings_row) = true.
Proof. vm_compute. reflexivity. Qed.

Lemma is_transfer_witness :
  exists r, RocketMoney.parse_row savings_row = Ok r
            /\ r !! "is_transfer" = Some (PBool true).
Proof.
  pose proof savings_row_parses as Hok.
  destruct (RocketMoney.parse_row savings_row) as [r|e] eqn:H;
    [|discriminate].
  exists r. split; [reflexivity|].
  destruct (is_transfer_iff_transfer_category savings_row r H)
    as (c & f & Hc & _ & Hf & Hiff).
  rewrite Hf. f_equal. f_equal. apply Hiff. rewrite Hc.
  right. right. vm_compute. reflexivity.
Defined.

(** C7 as stated fails: a row of category "Internal Transfers", which is
    neither "Savings Transfer" nor "Credit Card Payment", is flagged as a
    transfer. *)
Lemma internal_transfers_is_transfer :
  (r <- RocketMoney.parse_row {[ "Category" := "Internal Transfers" ]} ;;
   Ok (r !! "category_name", r !! "is_transfer"))%result
  = Ok (Some (PStr "Internal Transfers"), Some (PBool true))
  /\ "Internal Transfers" <> "Savings Transfer"
  /\ "Internal Transfers" <> "Credit Card Payment".
Proof. split; [vm_compute; reflexivity|]. split; discriminate. Qed.

(* ===================================================================== *)
(** ** Amounts *)
(* ===================================================================== *)

Section Amounts.
Local Open Scope Z_scope.






Context (reformat_date : string -> string -> option string).





Lemma schema_parse_row_amount schema row r :
  SchemaBased.parse_row reformat_date schema row = Ok r ->
  exists record,
    SchemaBased.convert_amount (SchemaBased.transform_rules schema)
      (SchemaBased.map_columns (SchemaBased.column_mapping schema) row)
    = Ok record
    /\ r = SchemaBased.apply_defaults (SchemaBased.transform_rules schema)
             (SchemaBased.normalize_date reformat_date
                (SchemaBased.transform_rules schema) record).
Proof.
  unfold SchemaBased.parse_row. intros H.
  destruct (SchemaBased.convert_amount _ _) as [record|e]; [|discriminate].
  cbn in H. injection H as <-. eauto.
Qed.


End Amounts.

(** [float] accepts the spellings of infinity, and [round] then raises an
    [OverflowError], which neither parser catches. *)
Example amount_inf_overflows :
  kind <$> raised (RocketMoney.amount_to_cents "inf") = Some OverflowError.
Proof. vm_compute. reflexivity. Qed.


(* ===================================================================== *)
(** ** Detection rules (schema-based parser) *)
(* ===================================================================== *)

Lemma is_prefix_spec p l : is_prefix p l = true <-> exists post, l = p ++ post.
Proof.
  revert l. induction p as [|a p IH]; intros l; cbn.
  - split; eauto.
  - destruct l as [|b l]; [split; [done|intros (? & [=])]|].
    destruct (Ascii.eqb_spec a b) as [->|Hne].
    + rewrite IH. split; intros (post & Hp); exists post; by simplify_eq.
    + split; [done|]. intros (post & Hp). by simplify_eq.
Qed.

Lemma find_sub_spec p l :
  find_sub p l = true <-> exists pre post, l = pre ++ p ++ post.
Proof.
  induction l as [|b l IH]; cbn; rewrite orb_true_iff, is_prefix_spec.
  - split.
    + intros [(post & H)|?]; [|done]. by exists [], post.
    + intros (pre & post & H). left. destruct pre; [by exists post|done].
  - rewrite IH. split.
    + intros [(post & H)|(pre & post & H)].
      * by exists [], post.
      * exists (b :: pre), post. by rewrite H.
    + intros (pre & post & H). destruct pre as [|c pre]; cbn in H.
      * left. by exists post.
      * right. exists pre, post. by simplify_eq.
Qed.

Lemma chars_of_chars l : chars (of_chars l) = l.
Proof. apply list_ascii_of_string_of_list_ascii. Qed.
Lemma of_chars_chars s : of_chars (chars s) = s.
Proof. apply string_of_list_ascii_of_string. Qed.
Lemma chars_app s t : chars (s +:+ t) = chars s ++ chars t.
Proof.
  unfold chars. induction s as [|a s IH]; [done|].
  change (String a s +:+ t) with (String a (s +:+ t)). cbn. by rewrite IH.
Qed.

(** [sub in s] holds exactly when [sub] occurs in [s]. *)
Lemma contains_spec sub s :
  contains sub s = true <-> exists pre post, s = pre +:+ sub +:+ post.
Proof.
  unfold contains. rewrite find_sub_spec. split.
  - intros (pre & post & H). exists (of_chars pre), (of_chars post).
    rewrite <- (of_chars_chars s), H, <- (of_chars_chars sub) at 1.
    rewrite <- (of_chars_chars (_ +:+ _)), !chars_app, !chars_of_chars.
    done.
  - intros (pre & post & ->). exists (chars pre), (chars post).
    by rewrite !chars_app.
Qed.

Lemma contains_in_empty sub : sub <> "" -> contains sub "" = false.
Proof. destruct sub; [done|]. intros _. reflexivity. Qed.

Section Detection.
Context (re_search : string -> string -> bool -> result bool).

Abbreviation check := (SchemaBased._check_rules re_search).

Lemma first_line_empty : SchemaBased.first_line "" = "".
Proof. vm_compute. reflexivity. Qed.

(** Every rule kind that is present must hold; one that is absent is not
    checked. *)
Lemma check_rules_and rules file_content filename :
  check rules file_content filename = Ok true <->
  (forall exts, SchemaBased.file_extension rules = Some exts ->
                SchemaBased.extension filename ∈ exts)
  /\ (forall required, SchemaBased.header_contains rules = Some required ->
        forall r, r ∈ required ->
                  contains r (SchemaBased.first_line file_content) = true)
  /\ (forall pat, SchemaBased.header_pattern rules = Some pat ->
        re_search pat (SchemaBased.first_line file_content) false = Ok true)
  /\ (forall pat, SchemaBased.filename_pattern rules = Some pat ->
        re_search pat filename true = Ok true).
Proof.
  unfold SchemaBased._check_rules.
  destruct rules as [fe hc hp fp]; cbn [SchemaBased.file_extension
    SchemaBased.header_contains SchemaBased.header_pattern
    SchemaBased.filename_pattern].
  set (line := SchemaBased.first_line file_content).
  set (ext := SchemaBased.extension filename).
  assert (Hfe : (match fe with
                 | Some exts => negb (bool_decide (ext ∈ exts))
                 | None => false
                 end) = false <-> forall exts, fe = Some exts -> ext ∈ exts).
  { destruct fe as [exts|].
    - rewrite negb_false_iff, bool_decide_eq_true. split.
      + by intros ? ? [= <-].
      + eauto.
    - split; [by intros _ ? [=]|done]. }
  assert (Hhc : (match hc with
                 | Some required =>
                     negb (forallb (fun r => contains r line) required)
                 | None => false
                 end) = false
                <-> forall required, hc = Some required ->
                      forall r, r ∈ required -> contains r line = true).
  { destruct hc as [required|].
    - rewrite negb_false_iff, forallb_forall. split.
      + intros H ? [= <-] r Hr. apply H. by apply list_elem_of_In.
      + intros H r Hr. eapply H; [done|]. by apply list_elem_of_In.
    - split; [by intros _ ? [=]|done]. }
  assert (Hp : forall (o : option string) text flag (k : bool -> result bool),
             (forall b, k b = Ok true -> b = true) ->
             rbind (match o with
                    | Some pat => re_search pat text flag
                    | None => Ok true
                    end) k = Ok true
             <-> (forall pat, o = Some pat -> re_search pat text flag = Ok true)
                 /\ k true = Ok true).
  { intros o text flag k Hk. destruct o as [pat|]; cbn.
    - destruct (re_search pat text flag) as [b|e] eqn:E; cbn.
      + split.
        * intros H. pose proof (Hk _ H) as ->. split; [|done].
          intros ? [= <-]. done.
        * intros [H1 H2]. specialize (H1 _ eq_refl).
          rewrite E in H1. by simplify_eq.
      + split; [done|]. intros [H1 _]. specialize (H1 _ eq_refl).
        congruence.
    - split; [by split|by intros [_ ?]]. }
  destruct (match fe with Some _ => _ | None => _ end) eqn:Efe.
  { split; [done|]. intros (H & _). apply Hfe in H. congruence. }
  destruct (match hc with Some _ => _ | None => _ end) eqn:Ehc.
  { split; [done|]. intros (_ & H & _). apply Hhc in H. congruence. }
  rewrite Hp.
  2:{ intros [|]; [done|]. cbn. discriminate. }
  cbn [negb]. rewrite Hp.
  2:{ intros [|]; [done|]. cbn. discriminate. }
  cbn [negb]. rewrite <- Hfe, <- Hhc. tauto.
Qed.

Lemma detect_singleton schema file_content filename :
  SchemaBased.detect re_search [schema] file_content filename
  = check (SchemaBased.detection_rules schema) file_content filename.
Proof.
  unfold SchemaBased.detect. cbn [SchemaBased._match_schema].
  destruct (check _ _ _) as [[|]|e]; reflexivity.
Qed.

Lemma match_schema_some schemas file_content filename schema :
  SchemaBased._match_schema re_search schemas file_content filename
  = Ok (Some schema) ->
  schema ∈ schemas
  /\ check (SchemaBased.detection_rules schema) file_content filename
     = Ok true.
Proof.
  induction schemas as [|x schemas IH]; cbn [SchemaBased._match_schema];
    [done|].
  destruct (check (SchemaBased.detection_rules x) file_content filename)
    as [[|]|e] eqn:E; cbn [rbind negb].
  - intros [= <-]. split; [by left|done].
  - intros H. destruct (IH H). split; [by right|done].
  - discriminate.
Qed.

Lemma check_empty_file rules filename :
  SchemaBased.header_contains rules = Some ["Date"; "Amount"] ->
  check rules "" filename = Ok false.
Proof.
  intros H. unfold SchemaBased._check_rules. rewrite H, first_line_empty.
  by destruct (match SchemaBased.file_extension rules with
               | Some _ => _ | None => _ end).
Qed.
End Detection.

(** Stripping keeps a part of the text. *)
Lemma drop_spaces_suffix wide skip l :
  exists pre, l = pre ++ drop_spaces wide skip l.
Proof.
  revert skip. induction l as [|c l IH]; intros skip; cbn; [by exists []|].
  destruct skip as [|k].
  - destruct (is_space c).
    + destruct (IH 0%nat) as (pre & H). exists (c :: pre). cbn. by f_equal.
    + destruct (wide (c :: l)) as [|k].
      * by exists [].
      * destruct (IH k) as (pre & H). exists (c :: pre). cbn. by f_equal.
  - destruct (IH k) as (pre & H). exists (c :: pre). cbn. by f_equal.
Qed.

Lemma find_sub_within p a l b :
  find_sub p l = true -> find_sub p (a ++ l ++ b) = true.
Proof.
  rewrite !find_sub_spec. intros (pre & post & ->).
  exists (a ++ pre), (post ++ b). by rewrite <- !app_assoc.
Qed.

Lemma contains_strip r s : contains r (strip s) = true -> contains r s = true.
Proof.
  unfold contains, strip, lstrip, rstrip. rewrite !chars_of_chars.
  destruct (drop_spaces_suffix wide_space_rev 0 (rev (chars s))) as (b & Hb).
  set (t := drop_spaces wide_space_rev 0 (rev (chars s))) in *.
  destruct (drop_spaces_suffix wide_space 0 (rev t)) as (a & Ha).
  intros H. apply (find_sub_within _ a _ (rev b)) in H.
  rewrite app_assoc, <- Ha, <- rev_app_distr, <- Hb, rev_involutive in H.
  done.
Qed.

(** What [header_contains] finds in the stripped first line is in the first
    line of the file. *)
Lemma contains_first_line r file_content :
  contains r (SchemaBased.first_line file_content) = true ->
  contains r (split1_head "010" file_content) = true.
Proof.
  unfold SchemaBased.first_line, decode_utf8.
  destruct (utf8_valid _ _).
  - apply contains_strip.
  - unfold contains. destruct (chars r); [|done].
    intros _. by destruct (chars _).
Qed.

(** C6: the rules of a schema compose with AND, a rule kind that is absent
    is not checked.  With [header_contains: ["Date", "Amount"]], [detect]
    (of a parser holding that schema) answers true only if both texts occur
    in the first line of the file, and answers false on a file of zero bytes.
    With several schemas, [detect] answers true only if all the rules of one
    of them hold. *)
Theorem detection_rules_semantics
    (re_search : string -> string -> bool -> result bool) :
  (forall rules file_content filename,
      SchemaBased._check_rules re_search rules file_content filename = Ok true
      <->
      (forall exts, SchemaBased.file_extension rules = Some exts ->
                    SchemaBased.extension filename ∈ exts)
      /\ (forall required, SchemaBased.header_contains rules = Some required ->
            forall r, r ∈ required ->
                      contains r (SchemaBased.first_line file_content) = true)
      /\ (forall pat, SchemaBased.header_pattern rules = Some pat ->
            re_search pat (SchemaBased.first_line file_content) false
            = Ok true)
      /\ (forall pat, SchemaBased.filename_pattern rules = Some pat ->
            re_search pat filename true = Ok true))
  /\ (forall schema file_content filename,
        SchemaBased.header_contains (SchemaBased.detection_rules schema)
        = Some ["Date"; "Amount"] ->
        (SchemaBased.detect re_search [schema] file_content filename = Ok true ->
         contains "Date" (split1_head "010" file_content) = true
         /\ contains "Amount" (split1_head "010" file_content) = true)
        /\ SchemaBased.detect re_search [schema] "" filename = Ok false)
  /\ (forall schemas file_content filename,
        SchemaBased.detect re_search schemas file_content filename = Ok true ->
        exists schema,
          schema ∈ schemas
          /\ SchemaBased._check_rules re_search
               (SchemaBased.detection_rules schema) file_content filename
             = Ok true).
Proof.
  split; [apply check_rules_and|]. split.
  - intros schema file_content filename Hc. split.
    + rewrite detect_singleton, check_rules_and. intros (_ & H & _).
      specialize (H _ Hc).
      split; apply contains_first_line, H; set_solver.
    + rewrite detect_singleton. by apply check_empty_file.
  - intros schemas file_content filename. unfold SchemaBased.detect.
    destruct (SchemaBased._match_schema _ _ _ _) as [[schema|]|e] eqn:E;
      cbn; try discriminate.
    intros _. exists schema. by eapply match_schema_some.
Qed.

Lemma detection_rules_witness :
  SchemaBased.detect Plain.re_search [date_amount_schema] date_amount_file
    "export.csv" = Ok true
  /\ contains "Date" (split1_head "010" date_amount_file) = true
  /\ contains "Amount" (split1_head "010" date_amount_file) = true
  /\ SchemaBased.detect Plain.re_search [date_amount_schema] "" "export.csv"
     = Ok false.
Proof.
  assert (H : SchemaBased.detect Plain.re_search [date_amount_schema]
                date_amount_file "export.csv" = Ok true)
    by (vm_compute; reflexivity).
  destruct (detection_rules_semantics Plain.re_search) as (_ & Hs & _).
  destruct (Hs date_amount_schema date_amount_file "export.csv" eq_refl)
    as [Hd He].
  split; [exact H|]. split; [exact (proj1 (Hd H))|].
  split; [exact (proj2 (Hd H))|].
  exact (proj2 (Hs date_amount_schema "" "export.csv" eq_refl)).
Defined.

(* ===================================================================== *)
(** ** Matching a category name *)
(* ===================================================================== *)

(** Running the primitive steps of a session computation. *)
Ltac run :=
  cbn [bind ret raise lift read write flush commit rollback uuid4 try_except
       current committed next_uuid select_job job_object set_job add_job
       scalar_one_or_none scalar_one rbind].

Lemma filter_none {A} (P : A -> Prop) `{!forall x, Decision (P x)} (l : list A) :
  (forall x, x ∈ l -> ~ P x) -> filter P l = [].
Proof.
  intros Hno. destruct (filter P l) as [|x l'] eqn:E; [done|].
  assert (x ∈ filter P l) as Hx by (rewrite E; left).
  apply list_elem_of_filter in Hx as [HP Hin]. by destruct (Hno x Hin).
Qed.

Section MatchCategory.
Implicit Types (s : Session) (c : Category.t) (n : string).

Lemma match_category_exact s n c :
  filter (fun c => Category.name c = n) (categories (current s)) = [c] ->
  Categorization._match_category (PStr n) s = (Ok (Some c), s).
Proof.
  intros H. unfold Categorization._match_category. run. rewrite H. by run.
Qed.

Lemma match_category_fallback s n :
  filter (fun c => Category.name c = n) (categories (current s)) = [] ->
  Categorization._match_category (PStr n) s
  = (Ok (find (fun c => String.eqb (lower (Category.name c)) (lower n))
              (categories (current s))), s).
Proof.
  intros H. unfold Categorization._match_category. run. rewrite H. by run.
Qed.



End MatchCategory.





(* ===================================================================== *)
(** ** Upload without a parser *)
(* ===================================================================== *)


#[local] Instance jobs_kept_refl : Reflexive jobs_kept.
Proof. intros s. split; auto. Qed.

#[local] Instance jobs_kept_trans : Transitive jobs_kept.
Proof.
  intros s1 s2 s3 [H1 H1'] [H2 H2']. split; [congruence|].
  destruct H2' as [H2'|H2']; [destruct H1'|]; [left|right|right]; congruence.
Qed.

Lemma jobs_kept_commit : respects jobs_kept commit.
Proof. intros s r s' [= <- <-]. split; [done|by right]. Qed.

Lemma jobs_kept_uuid4 : respects jobs_kept uuid4.
Proof. intros s r s' [= <- <-]. split; [done|by left]. Qed.

Lemma jobs_kept_add_parser_schema x : respects jobs_kept (add_parser_schema x).
Proof. intros s r s' [= <- <-]. split; [done|by left]. Qed.

Section Upload.
Context (re_search : string -> string -> bool -> result bool)
        (infer_schema : string -> bytes -> result ImportsApi.Inferred)
        (dispatch : uuid -> bytes -> result string)
        (parsers : list FileParserPlugin.t).

Lemma any_detect_false ps content filename :
  ImportsApi.any_detect ps content filename = Ok false <->
  forall p, p ∈ ps -> FileParserPlugin.detect p content filename = Ok false.
Proof.
  induction ps as [|p ps IH]; cbn [ImportsApi.any_detect].
  - split; [|done]. intros _ p Hp. by apply elem_of_nil in Hp.
  - destruct (FileParserPlugin.detect p content filename) as [[|]|e] eqn:E;
      cbn [rbind].
    + split; [done|]. intros H. specialize (H p ltac:(left)). congruence.
    + rewrite IH. split.
      * intros H q Hq. apply elem_of_cons in Hq as [->|Hq]; auto.
      * intros H q Hq. apply H. by right.
    + split; [done|]. intros H. specialize (H p ltac:(left)). congruence.
Qed.

Lemma jobs_kept_infer_and_save filename content :
  respects jobs_kept
    (ImportsApi.infer_and_save_schema infer_schema filename content).
Proof.
  unfold ImportsApi.infer_and_save_schema.
  apply respects_bind; [apply _..|apply respects_lift; apply _|intros inferred].
  apply respects_bind; [apply _..|apply jobs_kept_uuid4|intros id].
  apply respects_bind; [apply _..|apply respects_read; apply _|intros taken].
  destruct taken.
  - apply respects_bind; [apply _..|apply jobs_kept_add_parser_schema|intros _].
    apply respects_bind; [apply _..|apply jobs_kept_commit|intros _].
    apply respects_ret; apply _.
  - apply respects_raise; apply _.
Qed.

Lemma jobs_kept_inference filename content :
  respects jobs_kept
    (ImportsApi.try_schema_inference re_search infer_schema parsers
       filename content).
Proof.
  unfold ImportsApi.try_schema_inference.
  apply respects_try_except; [apply _..| |intros; apply respects_ret; apply _].
  apply respects_bind; [apply _..|apply jobs_kept_infer_and_save|intros _].
  destruct (find _ parsers).
  - apply respects_bind; [apply _..| |intros; apply respects_lift; apply _].
    intros s r s' [= <- <-]. reflexivity.
  - apply respects_ret; apply _.
Qed.

(** The attempt never raises. *)
Lemma inference_total filename content s :
  exists found s',
    ImportsApi.try_schema_inference re_search infer_schema parsers
      filename content s = (Ok found, s').
Proof.
  unfold ImportsApi.try_schema_inference, try_except.
  destruct (bind _ _ s) as [[found|e] s1]; [by eauto|].
  by eexists _, _.
Qed.

(** It fails when the AI call fails. *)
Lemma inference_fails_with_ai filename content s e :
  infer_schema filename content = Raise e ->
  ImportsApi.try_schema_inference re_search infer_schema parsers
    filename content s = (Ok false, s).
Proof.
  intros H. unfold ImportsApi.try_schema_inference,
    ImportsApi.infer_and_save_schema, try_except.
  run. rewrite H. by run.
Qed.

Lemma upload_no_parser filename content current_user s :
  content <> "" ->
  (forall p, p ∈ parsers ->
             FileParserPlugin.detect p content filename = Ok false) ->
  (ImportsApi.try_schema_inference re_search infer_schema parsers
     filename content s).1 = Ok false ->
  exists s',
    ImportsApi.upload_file re_search infer_schema dispatch parsers
      (Some filename) content current_user s
    = (Raise (ImportsApi.bad_request ImportService.no_parser_message), s')
    /\ jobs_kept s s'.
Proof.
  intros Hc Hd Hi. apply any_detect_false in Hd.
  unfold ImportsApi.upload_file.
  destruct (String.eqb_spec content ""); [done|].
  rewrite Hd. run.
  destruct (ImportsApi.try_schema_inference _ _ _ _ _ s) as [r s'] eqn:E.
  cbn in Hi. subst r. unfold bind at 1. rewrite E. run.
  exists s'. split; [done|]. by eapply jobs_kept_inference.
Qed.

End Upload.

(** C4, as amended: an upload that has a file name and content, that no
    registered parser detects and for which the attempt at schema inference
    does not end with a detecting schema, is rejected with status 400 and
    "No parser found for this file format"; no import job is added, and in a
    session that had nothing pending none is persisted.  An upload of zero
    bytes is rejected before any detection with "Empty file", one without a
    name with "No filename provided"; they leave the session as it is. *)
Theorem upload_rejected_without_parser
    (re_search : string -> string -> bool -> result bool)
    (infer_schema : string -> bytes -> result ImportsApi.Inferred)
    (dispatch : uuid -> bytes -> result string)
    (parsers : list FileParserPlugin.t)
    (content : bytes) (current_user : uuid) (s : Session) :
  (forall filename,
      content <> "" ->
      (forall p, p ∈ parsers ->
                 FileParserPlugin.detect p content filename = Ok false) ->
      (ImportsApi.try_schema_inference re_search infer_schema parsers
         filename content s).1 = Ok false ->
      exists s',
        ImportsApi.upload_file re_search infer_schema dispatch parsers
          (Some filename) content current_user s
        = (Raise (Exn (HTTPException 400)
                      "No parser found for this file format"), s')
        /\ import_jobs (current s') = import_jobs (current s)
        /\ (current s = committed s ->
            import_jobs (committed s') = import_jobs (committed s)))
  /\ (forall filename,
        ImportsApi.upload_file re_search infer_schema dispatch parsers
          (Some filename) "" current_user s
        = (Raise (Exn (HTTPException 400) "Empty file"), s))
  /\ ImportsApi.upload_file re_search infer_schema dispatch parsers
       None content current_user s
     = (Raise (Exn (HTTPException 400) "No filename provided"), s).
Proof.
  split; [|split; reflexivity].
  intros filename Hc Hd Hi.
  destruct (upload_no_parser re_search infer_schema dispatch parsers
              filename content current_user s Hc Hd Hi)
    as (s' & Hu & Hk & Hk').
  exists s'. split; [exact Hu|]. split; [exact Hk|].
  intros Hfresh. destruct Hk' as [->| ->]; [done|by rewrite Hfresh].
Qed.


Lemma upload_rejected_witness :
  exists s',
    ImportsApi.upload_file Plain.re_search ai_down no_dispatch rocket_only
      (Some "data.xlsx") "not a csv" 7 fresh_session
    = (Raise (Exn (HTTPException 400)
                  "No parser found for this file format"), s')
    /\ import_jobs (committed s') = import_jobs (committed fresh_session).
Proof.
  destruct (upload_rejected_without_parser Plain.re_search ai_down
              no_dispatch rocket_only "not a csv" 7 fresh_session)
    as (H & _).
  destruct (H "data.xlsx") as (s' & Hu & _ & Hc).
  - discriminate.
  - apply (proj1 (Forall_forall _ _)).
    apply Forall_cons_2; [vm_compute; reflexivity|apply Forall_nil_2].
  - by rewrite (inference_fails_with_ai _ _ _ _ _ _ _ eq_refl).
  - exists s'. split; [exact Hu|]. by apply Hc.
Defined.

(** C4 as stated fails on a file of zero bytes: no parser detects it and the
    inference fails, yet the reason of the rejection is "Empty file". *)
Lemma empty_upload_rejected_as_empty :
  ImportsApi.any_detect rocket_only "" "empty.csv" = Ok false
  /\ (ImportsApi.try_schema_inference Plain.re_search ai_down rocket_only
        "empty.csv" "" fresh_session).1 = Ok false
  /\ (ImportsApi.upload_file Plain.re_search ai_down no_dispatch rocket_only
        (Some "empty.csv") "" 7 fresh_session).1
     = Raise (Exn (HTTPException 400) "Empty file")
  /\ "Empty file" <> "No parser found for this file format".
Proof.
  split; [vm_compute; reflexivity|].
  split; [by rewrite (inference_fails_with_ai _ _ _ _ _ _ _ eq_refl)|].
  split; [reflexivity|discriminate].
Qed.

(* ===================================================================== *)
(** ** Importing a file twice *)
(* ===================================================================== *)

(** C2 fails on the code: the first import of [two_accounts_file] completes
    with two rows imported and no duplicate; the second one finds two accounts
    for the row without an account number, the lookup raises, and the job
    fails with nothing counted. *)
Theorem reimport_fails_on_ambiguous_account :
  let first := import_file two_accounts_file fresh_session in
  let second := import_file two_accounts_file first.2 in
  job_summary <$> first.1 = Ok (ImportStatus.COMPLETED, 2, 2, 0, None)
  /\ job_summary <$> second.1
     = Ok (ImportStatus.FAILED, 2, 0, 0,
           Some "Multiple rows were found when one or none was required")
  /\ length (transactions (committed first.2)) = 2
  /\ map (fun a => (Account.name a, Account.account_number_last4 a))
         (accounts (committed first.2))
     = [("Checking", None); ("Checking", Some "1234")]
  /\ transactions (committed second.2) = transactions (committed first.2).
Proof. vm_compute. repeat split. Qed.

(* ===================================================================== *)
(** ** The import loop *)
(* ===================================================================== *)

Ltac run_import :=
  cbn [bind ret raise lift read write flush commit rollback uuid4 try_except
       current committed next_uuid select_job job_object set_job add_job
       scalar_one_or_none scalar_one rbind fmap result_fmap
       ImportService.text_param ImportService.opt_text_param
       ImportService.int_param ImportService.bool_param
       add_institution add_account add_category add_transaction].

#[local] Instance row_step_refl : Reflexive row_step.
Proof. by intros s. Qed.
#[local] Instance row_step_trans : Transitive row_step.
Proof.
  intros s1 s2 s3 (A1 & B1 & C1 & D1) (A2 & B2 & C2 & D2).
  repeat split; [congruence..|auto].
Qed.
#[local] Instance quiet_refl : Reflexive quiet.
Proof. by intros s. Qed.
#[local] Instance quiet_trans : Transitive quiet.
Proof.
  intros s1 s2 s3 (A1 & B1) (A2 & B2). split; [congruence|auto].
Qed.

Lemma row_step_quiet s s' : row_step s s' -> quiet s s'.
Proof. intros (A & _ & C & _). split; [done|]. intros id. by rewrite C. Qed.

(** Decomposing [respects] goals along the structure of a computation. *)
Ltac respects_step :=
  first
    [ apply respects_ret; apply _
    | apply respects_raise; apply _
    | apply respects_lift; apply _
    | apply respects_read; apply _
    | apply respects_flush; apply _
    | apply respects_cached; [apply _..|]
    | apply respects_bind; [apply _..| |intros ?]
    | assumption
    | match goal with
      | |- respects _ (match ?x with _ => _ end) => destruct x
      | |- respects _ (if ?x then _ else _) => destruct x
      end ].

Lemma row_step_uuid4 : respects row_step uuid4.
Proof. by intros s r s' [= <- <-]. Qed.
Lemma row_step_add_institution x : respects row_step (add_institution x).
Proof. by intros s r s' [= <- <-]. Qed.
Lemma row_step_add_account x : respects row_step (add_account x).
Proof. by intros s r s' [= <- <-]. Qed.
Lemma row_step_add_category x : respects row_step (add_category x).
Proof.
  intros s r s' [= <- <-]. repeat split. cbn. intros c Hc.
  apply elem_of_app. by left.
Qed.

Lemma row_step_institution name :
  respects row_step (ImportService._get_or_create_institution name).
Proof.
  unfold ImportService._get_or_create_institution.
  repeat respects_step.
  - apply row_step_uuid4.
  - apply row_step_add_institution.
Qed.

Lemma row_step_account inst name account_type last4 user_id :
  respects row_step
    (ImportService._get_or_create_account inst name account_type last4 user_id).
Proof.
  unfold ImportService._get_or_create_account.
  repeat respects_step.
  - apply row_step_uuid4.
  - apply row_step_add_account.
Qed.

Lemma row_step_category name :
  respects row_step (ImportService._get_or_create_category name).
Proof.
  unfold ImportService._get_or_create_category.
  repeat respects_step.
  - apply row_step_uuid4.
  - apply row_step_add_category.
Qed.

Lemma row_step_is_duplicate account_id txn_date amount_cents description :
  respects row_step
    (ImportService._is_duplicate account_id txn_date amount_cents description).
Proof. unfold ImportService._is_duplicate. repeat respects_step. Qed.

(** The category a row resolves to. *)
Lemma get_or_create_category_ok name s c s' :
  ImportService._get_or_create_category name s = (Ok c, s') ->
  name = PStr (Category.name c) /\ c ∈ categories (current s').
Proof.
  unfold ImportService._get_or_create_category. intros H.
  destruct name as [| | | |n|]; try discriminate. revert H. run_import.
  destruct (filter (fun c => Category.name c = n) (categories (current s)))
    as [|x [|y l]] eqn:E; run_import; [| |discriminate].
  - intros [= <- <-]. split; [done|]. cbn. apply elem_of_app. right. by left.
  - intros [= <- <-].
    assert (x ∈ filter (fun c => Category.name c = n) (categories (current s)))
      as Hx by (rewrite E; left).
    apply list_elem_of_filter in Hx as [-> Hx]. done.
Qed.

Lemma lift_inv_ok {A} (r : result A) s a s' :
  lift r s = (Ok a, s') -> r = Ok a /\ s' = s.
Proof. by intros [= -> ->]. Qed.

Lemma ret_inv_ok {A} (x : A) s a s' :
  ret x s = (Ok a, s') -> a = x /\ s' = s.
Proof. by intros [= -> ->]. Qed.

Ltac step_lift H :=
  let a := fresh "v" in
  let E := fresh "E" in
  apply bind_inv_ok in H as (a & ? & E & H);
  apply lift_inv_ok in E as [E ->].

Lemma cat_cache_ok_step cache s s' :
  cat_cache_ok cache s -> row_step s s' -> cat_cache_ok cache s'.
Proof.
  intros H (_ & _ & _ & Hc) n c Hn. destruct (H n c Hn). split; auto.
Qed.

Lemma cached_category_ok cache v s c cache' s' :
  cat_cache_ok cache s ->
  ImportService.cached cache v (ImportService._get_or_create_category v) s
  = (Ok (c, cache'), s') ->
  v = PStr (Category.name c) /\ c ∈ categories (current s')
  /\ cat_cache_ok cache' s' /\ row_step s s'.
Proof.
  intros Hinv H.
  assert (row_step s s') as Hstep.
  { eapply respects_cached; [apply _..|apply row_step_category|exact H]. }
  unfold ImportService.cached in H.
  destruct v as [| | | |n|];
    try (apply bind_inv_ok in H as (x & s1 & H1 & _); discriminate H1).
  - destruct (cache !! n) as [c0|] eqn:E.
    + apply ret_inv_ok in H as [[= Hc Hcache] Hs]. subst c cache' s'.
      destruct (Hinv n c0 E) as [Hin <-]. done.
    + apply bind_inv_ok in H as (x & s1 & H1 & H2).
      apply ret_inv_ok in H2 as [[= Hc Hcache] Hs]. subst c cache' s'.
      apply get_or_create_category_ok in H1 as [[= ->] Hin].
      split; [done|]. split; [exact Hin|]. split; [|exact Hstep].
      intros n' c'. rewrite lookup_insert. case_decide as Hd.
      * subst n'. by intros [= <-].
      * intros Hn. by eapply (cat_cache_ok_step cache s).
  - discriminate.
Qed.

Section Rows.
Context (fromisoformat : string -> result date) (repr : pyval -> string).

Abbreviation import_row := (ImportService.import_row fromisoformat repr).

Lemma import_row_ok user_id job_id row st s st' s' :
  cat_cache_ok (ImportService.cat_cache st) s ->
  import_row user_id job_id row st s = (Ok st', s') ->
  cat_cache_ok (ImportService.cat_cache st') s'
  /\ committed s' = committed s
  /\ import_jobs (current s') = import_jobs (current s)
  /\ (forall c, c ∈ categories (current s) -> c ∈ categories (current s'))
  /\ ((ImportService.imported st' = S (ImportService.imported st)
       /\ ImportService.duplicates st' = ImportService.duplicates st
       /\ exists t c,
           transactions (current s') = transactions (current s) ++ [t]
           /\ Transaction.import_job_id t = Some job_id
           /\ Transaction.category_id t = Some (Category.id c)
           /\ c ∈ categories (current s')
           /\ cat_name_of row = PStr (Category.name c))
      \/ (ImportService.imported st' = ImportService.imported st
          /\ ImportService.duplicates st' = S (ImportService.duplicates st)
          /\ transactions (current s') = transactions (current s))).
Proof.
  intros Hinv H. unfold ImportService.import_row in H.
  step_lift H.
  apply bind_inv_ok in H as ([institution inst_cache] & s2 & H2 & H).
  assert (row_step s s2) as S2.
  { eapply respects_cached; [apply _..|apply row_step_institution|exact H2]. }
  step_lift H.
  apply bind_inv_ok in H as ([account acct_cache] & s3 & H3 & H).
  assert (row_step s2 s3) as S3.
  { destruct (ImportService.acct_cache st !! _).
    - apply ret_inv_ok in H3 as [_ ->]. reflexivity.
    - step_lift H3. apply bind_inv_ok in H3 as (a & s3' & H3 & H3').
      apply ret_inv_ok in H3' as [_ ->].
      by eapply row_step_account. }
  apply bind_inv_ok in H as ([category cat_cache] & s4 & H4 & H).
  apply cached_category_ok in H4 as (Hname & Hin & Hcache & S4).
  2:{ eapply cat_cache_ok_step; [exact Hinv|]. by transitivity s2. }
  do 2 step_lift H.
  apply bind_inv_ok in H as (original_date & s5 & H5 & H).
  assert (s5 = s4) as ->.
  { destruct (truthy _).
    - by apply lift_inv_ok in H5 as [_ ->].
    - by apply ret_inv_ok in H5 as [_ ->]. }
  do 2 step_lift H.
  apply bind_inv_ok in H as (dup & s6 & H6 & H).
  assert (row_step s4 s6) as S6 by (by eapply row_step_is_duplicate).
  assert (row_step s s6) as (A & B & C & D).
  { transitivity s2; [done|]. transitivity s3; [done|]. by transitivity s4. }
  destruct dup.
  - apply ret_inv_ok in H as [-> ->]. cbn.
    split; [by eapply cat_cache_ok_step|].
    repeat split; auto.
  - do 8 step_lift H.
    apply bind_inv_ok in H as (id & s7 & H7 & H). injection H7 as <- <-.
    apply bind_inv_ok in H as ([] & s8 & H8 & H). injection H8 as <-.
    apply ret_inv_ok in H as [-> ->]. cbn.
    split.
    { intros n c Hn. destruct (Hcache n c Hn) as [Hc ?]. split; [|done].
      apply S6 in Hc. exact Hc. }
    repeat split; auto. left. repeat split; auto.
    eexists _, category. cbn. rewrite B.
    repeat split; auto. by apply S6.
Qed.
End Rows.


Lemma staged_by_mono job_id rows rows' s s' t :
  staged_by job_id rows s t ->
  (forall row, row ∈ rows -> row ∈ rows') ->
  (forall c, c ∈ categories (current s) -> c ∈ categories (current s')) ->
  staged_by job_id rows' s' t.
Proof.
  intros (Hj & c & row & Hc & Ht & Hr & Hn) Hrows Hcats.
  split; [done|]. exists c, row. auto.
Qed.

Lemma loop_done_cons job_id row rest st s st1 s1 s1' st' s' :
  cat_cache_ok (ImportService.cat_cache st1) s1 ->
  (forall c, c ∈ categories (current s) -> c ∈ categories (current s1)) ->
  (ImportService.imported st1 = S (ImportService.imported st)
   /\ ImportService.duplicates st1 = ImportService.duplicates st
   /\ exists t c,
       transactions (current s1) = transactions (current s) ++ [t]
       /\ Transaction.import_job_id t = Some job_id
       /\ Transaction.category_id t = Some (Category.id c)
       /\ c ∈ categories (current s1)
       /\ cat_name_of row = PStr (Category.name c))
  \/ (ImportService.imported st1 = ImportService.imported st
      /\ ImportService.duplicates st1 = S (ImportService.duplicates st)
      /\ transactions (current s1) = transactions (current s)) ->
  categories (current s1') = categories (current s1) ->
  transactions (current s1') = transactions (current s1) ->
  loop_done job_id rest st1 s1' st' s' ->
  loop_done job_id (row :: rest) st s st' s'.
Proof.
  intros Hc1 Hm1 Hrow Hcat Htx (Hc & Hm & Hn & staged & Hs & Hi & Hf).
  split; [done|]. split.
  { intros c Hin. apply Hm. rewrite Hcat. by apply Hm1. }
  assert (Forall (staged_by job_id (row :: rest) s') staged) as Hf'.
  { eapply Forall_impl; [exact Hf|]. intros t Ht.
    eapply staged_by_mono; [exact Ht| |done]. intros r Hr. by right. }
  destruct Hrow as [(Hi1 & Hd1 & t & c & Ht & Hj & Hcid & Hcin & Hname)
                   |(Hi1 & Hd1 & Ht)].
  - split; [cbn; lia|]. exists (t :: staged).
    split; [by rewrite Hs, Htx, Ht, <- app_assoc|].
    split; [cbn; lia|]. apply Forall_cons_2; [|done].
    split; [done|]. exists c, row. split; [|split; [done|split; [left|done]]].
    apply Hm. by rewrite Hcat.
  - split; [cbn; lia|]. exists staged.
    split; [by rewrite Hs, Htx, Ht|]. split; [lia|done].
Qed.

Section Loops.
Context (fromisoformat : string -> result date) (repr : pyval -> string).

Lemma import_rows_ok user_id job_id rows st s st' s' :
  cat_cache_ok (ImportService.cat_cache st) s ->
  ImportService.import_rows fromisoformat repr user_id job_id rows st s
  = (Ok st', s') ->
  loop_done job_id rows st s st' s'
  /\ committed s' = committed s
  /\ import_jobs (current s') = import_jobs (current s).
Proof.
  revert st s. induction rows as [|row rest IH]; intros st s Hinv H.
  - apply ret_inv_ok in H as [-> ->]. split; [|done].
    split; [done|]. split; [done|]. split; [cbn; lia|].
    exists []. by rewrite app_nil_r.
  - cbn [ImportService.import_rows] in H.
    apply bind_inv_ok in H as (st1 & s1 & H1 & H).
    apply import_row_ok in H1 as (Hc1 & Hcom & Hjobs & Hm1 & Hrow); [|done].
    apply IH in H as (Hdone & Hcom' & Hjobs'); [|done].
    split; [|split; congruence].
    by eapply (loop_done_cons job_id row rest st s st1 s1 s1).
Qed.

Lemma report_progress_ok on_progress job_id i s :
  exists s',
    ImportService.report_progress on_progress job_id i s = (Ok tt, s')
    /\ institutions (current s') = institutions (current s)
    /\ accounts (current s') = accounts (current s)
    /\ categories (current s') = categories (current s)
    /\ transactions (current s') = transactions (current s)
    /\ next_uuid s' = next_uuid s
    /\ (s' = s
        \/ (is_Some on_progress /\ (i + 1) mod 100 = 0
            /\ committed s' = current s'
            /\ current s'
               = with_import_jobs
                   (alter (ImportJob.with_processed_rows (i + 1)) job_id)
                   (current s))).
Proof.
  unfold ImportService.report_progress.
  destruct on_progress as [callback|]; [|by eexists; repeat split; auto].
  case_decide; [|by eexists; repeat split; auto].
  destruct (callback (i + 1)) eqn:Hcb.
  eexists. split.
  { run. reflexivity. }
  cbn [current committed next_uuid institutions accounts categories
       transactions with_import_jobs].
  do 5 (split; [reflexivity|]). right. repeat split; eauto.
Qed.

Lemma import_rows_sync_ok on_progress user_id job_id rows i st s st' s' :
  cat_cache_ok (ImportService.cat_cache st) s ->
  ImportService.import_rows_sync fromisoformat repr on_progress user_id
    job_id rows i st s = (Ok st', s') ->
  loop_done job_id rows st s st' s'.
Proof.
  revert i st s. induction rows as [|row rest IH]; intros i st s Hinv H.
  - apply ret_inv_ok in H as [-> ->].
    split; [done|]. split; [done|]. split; [cbn; lia|].
    exists []. by rewrite app_nil_r.
  - cbn [ImportService.import_rows_sync] in H.
    apply bind_inv_ok in H as (st1 & s1 & H1 & H).
    apply import_row_ok in H1 as (Hc1 & Hcom & Hjobs & Hm1 & Hrow); [|done].
    apply bind_inv_ok in H as ([] & s2 & H2 & H).
    destruct (report_progress_ok on_progress job_id i s1)
      as (s2' & H2' & _ & _ & Hcat & Htx & _).
    rewrite H2 in H2'. injection H2' as <-.
    apply IH in H.
    + by eapply (loop_done_cons job_id row rest st s st1 s1 s2).
    + intros n c Hn. destruct (Hc1 n c Hn). by rewrite Hcat.
Qed.
End Loops.

Lemma try_except_inv {A} (m : M A) (h : exn -> M A) s r s' :
  try_except m h s = (r, s') ->
  (exists a, m s = (Ok a, s') /\ r = Ok a)
  \/ (exists e s1, m s = (Raise e, s1) /\ h e s1 = (r, s')).
Proof.
  unfold try_except. destruct (m s) as [[a|e] s1].
  - intros [= <- <-]. left. by exists a.
  - intros H. right. by exists e, s1.
Qed.

Lemma cat_cache_ok_init s : cat_cache_ok (ImportService.cat_cache ImportService.init) s.
Proof. intros n c H. cbn in H. by rewrite lookup_empty in H. Qed.

Lemma job_object_inv job_id s job s' :
  job_object job_id s = (Ok job, s') ->
  import_jobs (current s) !! job_id = Some job /\ s' = s.
Proof.
  unfold job_object, select_job. run_import.
  destruct (import_jobs (current s) !! job_id); cbn; [|discriminate].
  by intros [= <- <-].
Qed.

Lemma loop_done_staged job_id rows st s st' s' s'' :
  loop_done job_id rows st s st' s' ->
  categories (current s'') = categories (current s') ->
  transactions (current s'') = transactions (current s') ->
  exists staged,
    transactions (current s'') = transactions (current s) ++ staged
    /\ ImportService.imported st' = ImportService.imported st + length staged
    /\ Forall (staged_by job_id rows s'') staged.
Proof.
  intros (_ & _ & _ & staged & Hs & Hi & Hf) Hc Ht.
  exists staged. split; [congruence|]. split; [done|].
  eapply Forall_impl; [exact Hf|]. intros t H.
  eapply staged_by_mono; [exact H|done|]. intros c. by rewrite Hc.
Qed.


#[local] Instance uncommitted_refl : Reflexive uncommitted.
Proof. by intros s. Qed.
#[local] Instance uncommitted_trans : Transitive uncommitted.
Proof. intros s1 s2 s3 [A1 B1] [A2 B2]. split; congruence. Qed.
#[local] Instance job_stays_refl job_id : Reflexive (job_stays job_id).
Proof. intros s H. exact H. Qed.
#[local] Instance job_stays_trans job_id : Transitive (job_stays job_id).
Proof. intros s1 s2 s3 H1 H2 H. apply H2, H1, H. Qed.

#[local] Instance total_kept_refl job_id : Reflexive (total_kept job_id).
Proof. intros s j H. by exists j. Qed.
#[local] Instance total_kept_trans job_id : Transitive (total_kept job_id).
Proof.
  intros s1 s2 s3 H1 H2 j H. destruct (H1 j H) as (j' & H' & E').
  destruct (H2 j' H') as (j'' & H'' & E''). exists j''. split; congruence.
Qed.

Lemma respects_weaken {A} (R R' : relation Session) (m : M A) :
  (forall s s', R s s' -> R' s s') -> respects R m -> respects R' m.
Proof. intros HR Hm s r s' H. apply HR. by eapply Hm. Qed.

Lemma row_step_uncommitted s s' : row_step s s' -> uncommitted s s'.
Proof. by intros (A & _ & C & _). Qed.

Lemma uncommitted_job_stays job_id s s' :
  uncommitted s s' -> job_stays job_id s s'.
Proof. intros [A B]. unfold job_stays. by rewrite A, B. Qed.

Lemma uncommitted_total_kept job_id s s' :
  uncommitted s s' -> total_kept job_id s s'.
Proof. intros [A B] j H. exists j. by rewrite B. Qed.

Lemma uncommitted_uuid4 : respects uncommitted uuid4.
Proof. by intros s r s' [= <- <-]. Qed.
Lemma uncommitted_add_transaction x : respects uncommitted (add_transaction x).
Proof. by intros s r s' [= <- <-]. Qed.

Section Outcomes.
Context (fromisoformat : string -> result date) (repr : pyval -> string).

Lemma import_row_uncommitted user_id job_id row st :
  respects uncommitted
    (ImportService.import_row fromisoformat repr user_id job_id row st).
Proof.
  unfold ImportService.import_row.
  repeat first
    [ apply (respects_weaken _ _ _ row_step_uncommitted);
      first [apply row_step_institution | apply row_step_account
            |apply row_step_category | apply row_step_is_duplicate]
    | apply uncommitted_uuid4
    | apply uncommitted_add_transaction
    | respects_step ].
Qed.

Lemma import_rows_uncommitted user_id job_id rows st :
  respects uncommitted
    (ImportService.import_rows fromisoformat repr user_id job_id rows st).
Proof.
  revert st. induction rows as [|row rest IH]; intros st.
  - apply respects_ret; apply _.
  - apply respects_bind; [apply _..|apply import_row_uncommitted|done].
Qed.

Lemma report_progress_job_stays id on_progress job_id i :
  respects (job_stays id) (ImportService.report_progress on_progress job_id i).
Proof.
  intros s r s' H.
  destruct (report_progress_ok on_progress job_id i s)
    as (s2 & H2 & _ & _ & _ & _ & _ & [->|(_ & _ & Hc & Hj)]).
  - rewrite H in H2. by injection H2 as _ <-.
  - rewrite H in H2. injection H2 as _ <-. intros [_ Hcur].
    rewrite Hc. rewrite Hj. cbn.
    assert (is_Some (alter (ImportJob.with_processed_rows (i + 1)) job_id
                       (import_jobs (current s)) !! id)); [|done].
    by apply lookup_alter_is_Some.
Qed.

Lemma import_rows_sync_respects (R : relation Session)
    `{!Reflexive R, !Transitive R} on_progress user_id job_id rows i st :
  (forall s s', uncommitted s s' -> R s s') ->
  (forall i, respects R (ImportService.report_progress on_progress job_id i)) ->
  respects R
    (ImportService.import_rows_sync fromisoformat repr on_progress user_id
       job_id rows i st).
Proof.
  intros Hunc Hrep. revert i st. induction rows as [|row rest IH]; intros i st.
  - apply respects_ret; apply _.
  - cbn [ImportService.import_rows_sync].
    apply respects_bind; [apply _..| |intros st1].
    { eapply respects_weaken; [exact Hunc|]. apply import_row_uncommitted. }
    apply respects_bind; [apply _..| |intros []].
    + apply Hrep.
    + apply IH.
Qed.

Lemma report_progress_total_kept on_progress job_id i :
  respects (total_kept job_id)
    (ImportService.report_progress on_progress job_id i).
Proof.
  intros s r s' H.
  destruct (report_progress_ok on_progress job_id i s)
    as (s2 & H2 & _ & _ & _ & _ & _ & [->|(_ & _ & Hc & Hj)]).
  - rewrite H in H2. by injection H2 as _ <-.
  - rewrite H in H2. injection H2 as _ <-. intros j Hlook.
    rewrite Hj. cbn. rewrite lookup_alter_eq, Hlook. cbn. by eexists.
Qed.

(** Without a callback, or within the first hundred rows, a loop that raises
    has committed nothing. *)
Lemma import_rows_sync_raise on_progress user_id job_id rows i st s e s' :
  on_progress = None \/ i + length rows <= 100 ->
  ImportService.import_rows_sync fromisoformat repr on_progress user_id
    job_id rows i st s = (Raise e, s') ->
  committed s' = committed s.
Proof.
  revert i st s. induction rows as [|row rest IH]; intros i st s Hlim H.
  - discriminate H.
  - cbn [ImportService.import_rows_sync] in H.
    apply bind_inv in H as [(st1 & s1 & H1 & H)|(e' & H1 & _)].
    2:{ by eapply import_row_uncommitted. }
    apply import_row_uncommitted in H1 as [Hcom _].
    apply bind_inv in H as [([] & s2 & H2 & H)|(e' & H2 & _)].
    2:{ destruct (report_progress_ok on_progress job_id i s1)
          as (s2 & H2' & _). rewrite H2 in H2'. discriminate H2'. }
    destruct (report_progress_ok on_progress job_id i s1)
      as (s2' & H2' & _ & _ & _ & _ & _ & Hcases).
    rewrite H2 in H2'. injection H2' as <-.
    destruct Hcases as [->|(Hsome & Hmod & _)].
    + rewrite <- Hcom. eapply IH; [|exact H].
      destruct Hlim as [->|Hlim]; [by left|right]. cbn in Hlim. lia.
    + destruct Hlim as [->|Hlim]; [by destruct Hsome|].
      cbn [length] in Hlim.
      assert (i + 1 = 100) as Hi.
      { destruct (decide (i + 1 = 100)) as [|Hne]; [done|].
        assert (i + 1 < 100) as Hlt by lia.
        rewrite Nat.mod_small in Hmod by exact Hlt. lia. }
      destruct rest as [|row' rest']; [discriminate H|cbn in Hlim; lia].
Qed.
End Outcomes.

Section Runs.
Context (fromisoformat : string -> result date) (repr : pyval -> string)
        (now : nat).

(** *** The asynchronous path *)

Lemma run_import_unfold parsers user_id filename content parser s :
  ImportService.select_parser parsers content filename = Ok (Some parser) ->
  ImportService.run_import fromisoformat repr now parsers user_id filename
    content s
  = (try_except
       (ImportService.import_body fromisoformat repr now parser (next_uuid s)
          user_id filename content)
       (fun exc =>
          job <- job_object (next_uuid s) ;;
          rollback ;;;
          add_job
            (ImportJob.with_error_message
               (Some (ImportService.failure_text exc))
               (ImportJob.with_status ImportStatus.FAILED job)) ;;;
          commit) ;;;
     job_object (next_uuid s))%M
      (job_flushed parser user_id filename s).
Proof. intros H. unfold ImportService.run_import. by rewrite H. Qed.

Lemma import_body_raise parser job_id user_id filename content s e s1 :
  ImportService.import_body fromisoformat repr now parser job_id user_id
    filename content s = (Raise e, s1) ->
  committed s1 = committed s
  /\ (import_jobs (current s1) = import_jobs (current s)
      \/ exists n,
          import_jobs (current s1)
          = alter (ImportJob.with_total_rows n) job_id
              (import_jobs (current s))).
Proof.
  unfold ImportService.import_body. intros H.
  apply bind_inv in H as [(parsed & s2 & H2 & H)|(e' & H2 & _)].
  2:{ injection H2 as _ <-. by split; [|left]. }
  injection H2 as _ <-.
  apply bind_inv in H as [([] & s3 & H3 & H)|(e' & H3 & _)];
    [|discriminate H3].
  injection H3 as <-.
  apply bind_inv in H as [(st & s4 & H4 & H)|(e' & H4 & _)];
    [discriminate H|].
  apply import_rows_uncommitted in H4 as [Hc Hj].
  split; [exact Hc|]. right. by exists (length parsed).
Qed.

Lemma run_import_failed parsers user_id filename content parser s e s1 :
  ImportService.select_parser parsers content filename = Ok (Some parser) ->
  ImportService.import_body fromisoformat repr now parser (next_uuid s)
    user_id filename content (job_flushed parser user_id filename s)
  = (Raise e, s1) ->
  exists job s',
    ImportService.run_import fromisoformat repr now parsers user_id filename
      content s = (Ok job, s')
    /\ ImportJob.id job = next_uuid s
    /\ ImportJob.status job = ImportStatus.FAILED
    /\ ImportJob.error_message job = Some (ImportService.failure_text e)
    /\ committed s'
       = with_import_jobs (insert (next_uuid s) job) (committed s)
    /\ current s' = committed s'.
Proof.
  intros Hp Hbody. rewrite (run_import_unfold _ _ _ _ _ _ Hp).
  pose proof (import_body_raise _ _ _ _ _ _ _ _ Hbody) as [Hc Hj].
  assert (exists j, import_jobs (current s1) !! next_uuid s = Some j
                    /\ ImportJob.id j = next_uuid s) as (j & Hlook & Hid).
  { destruct Hj as [->|[n ->]]; cbn.
    - rewrite lookup_insert_eq. by eexists.
    - rewrite lookup_alter_eq, lookup_insert_eq. by eexists. }
  unfold bind at 1. unfold try_except. rewrite Hbody.
  unfold job_object, select_job. run_import. rewrite Hlook. cbn.
  rewrite Hid, lookup_insert_eq. cbn.
  eexists _, _. split; [reflexivity|]. cbn. rewrite Hc. done.
Qed.

Lemma run_import_completed parsers user_id filename content s job s' :
  ImportService.run_import fromisoformat repr now parsers user_id filename
    content s = (Ok job, s') ->
  ImportJob.status job = ImportStatus.COMPLETED ->
  exists parser parsed,
    ImportService.select_parser parsers content filename = Ok (Some parser)
    /\ FileParserPlugin.parse parser content filename = Ok parsed
    /\ ImportJob.id job = next_uuid s
    /\ ImportJob.total_rows job = length parsed
    /\ ImportJob.imported_rows job + ImportJob.duplicate_rows job
       = ImportJob.total_rows job
    /\ committed s' = current s'
    /\ exists staged,
        transactions (current s') = transactions (current s) ++ staged
        /\ length staged = ImportJob.imported_rows job
        /\ Forall (staged_by (ImportJob.id job) parsed s') staged.
Proof.
  intros H Hst.
  destruct (ImportService.select_parser parsers content filename)
    as [[parser|]|e] eqn:Hp.
  2:{ unfold ImportService.run_import in H. rewrite Hp in H. revert H.
      run_import. intros [= <- <-]. discriminate Hst. }
  2:{ unfold ImportService.run_import in H. rewrite Hp in H. discriminate H. }
  destruct (ImportService.import_body fromisoformat repr now parser
              (next_uuid s) user_id filename content
              (job_flushed parser user_id filename s))
    as [[[]|e] s1] eqn:Hbody.
  2:{ destruct (run_import_failed _ _ _ _ _ _ _ _ Hp Hbody)
        as (job' & s'' & Hrun & _ & Hfailed & _).
      rewrite H in Hrun. injection Hrun as <- <-.
      rewrite Hst in Hfailed. discriminate Hfailed. }
  rewrite (run_import_unfold _ _ _ _ _ _ Hp) in H.
  unfold bind at 1 in H. unfold try_except in H. rewrite Hbody in H.
  apply job_object_inv in H as [Hjob ->].
  unfold ImportService.import_body in Hbody.
  step_lift Hbody. rename v into parsed, E into Hparse.
  apply bind_inv_ok in Hbody as ([] & s5 & H5 & Hbody). injection H5 as <-.
  apply bind_inv_ok in Hbody as (st & s6 & Hloop & Hbody).
  apply import_rows_ok in Hloop as (Hdone & Hcom & Hjobs);
    [|apply cat_cache_ok_init].
  revert Hbody. run_import. intros [= Hs1].
  assert (categories (current s1) = categories (current s6)) as Hc1
    by (by rewrite <- Hs1).
  assert (transactions (current s1) = transactions (current s6)) as Ht1
    by (by rewrite <- Hs1).
  assert (committed s1 = current s1) as Hcom1 by (by rewrite <- Hs1).
  rewrite <- Hs1 in Hjob. cbn in Hjob. rewrite Hjobs in Hjob. cbn in Hjob.
  rewrite !lookup_alter_eq, lookup_insert_eq in Hjob. cbn in Hjob.
  injection Hjob as <-. cbn.
  exists parser, parsed. do 4 (split; [done|]).
  destruct (Hdone) as (_ & _ & Hn & _). cbn in Hn.
  split; [lia|]. split; [done|].
  destruct (loop_done_staged _ _ _ _ _ _ s1 Hdone Hc1 Ht1)
    as (staged & Hs & Hi & Hf).
  exists staged. cbn in Hi. done.
Qed.

(** *** The worker path *)

Lemma run_import_sync_unfold parsers user_id filename content job_id
    on_progress parser s j0 :
  ImportService.select_parser parsers content filename = Ok (Some parser) ->
  import_jobs (current s) !! job_id = Some j0 ->
  ImportService.run_import_sync fromisoformat repr parsers user_id filename
    content job_id on_progress s
  = (try_except
       (ImportService.import_body_sync fromisoformat repr on_progress parser
          job_id user_id filename content)
       (fun exc =>
          rollback ;;;
          set_job job_id (ImportJob.with_status ImportStatus.FAILED) ;;;
          set_job job_id
            (ImportJob.with_error_message
               (Some (ImportService.failure_text exc))) ;;;
          commit) ;;;
     job_object job_id)%M
      (job_claimed parser job_id s).
Proof.
  intros Hp Hj. unfold ImportService.run_import_sync. rewrite Hp.
  unfold job_object at 1, select_job. run_import. by rewrite Hj.
Qed.

Lemma job_claimed_has_job parser job_id s j0 :
  import_jobs (current s) !! job_id = Some j0 ->
  is_Some (import_jobs (committed (job_claimed parser job_id s)) !! job_id)
  /\ is_Some (import_jobs (current (job_claimed parser job_id s)) !! job_id).
Proof.
  intros H. cbn. rewrite !lookup_alter_eq, H. cbn. split; by eexists.
Qed.

Lemma import_body_sync_job_stays on_progress parser job_id user_id filename
    content :
  respects (job_stays job_id)
    (ImportService.import_body_sync fromisoformat repr on_progress parser
       job_id user_id filename content).
Proof.
  assert (forall f, respects (job_stays job_id) (set_job job_id f)) as Hset.
  { intros f s r s' [= <- <-] [Hc Hj]. cbn. split; [done|].
    by apply lookup_alter_is_Some. }
  assert (respects (job_stays job_id) commit) as Hcommit.
  { intros s r s' [= <- <-] [Hc Hj]. by cbn. }
  unfold ImportService.import_body_sync.
  repeat first
    [ apply Hset | apply Hcommit
    | apply import_rows_sync_respects;
      [apply _..|apply uncommitted_job_stays
      |intros; apply report_progress_job_stays]
    | respects_step ].
Qed.

Lemma import_body_sync_raise on_progress parser job_id user_id filename
    content s e s1 :
  committed s = current s ->
  on_progress = None
  \/ (forall parsed, FileParserPlugin.parse parser content filename = Ok parsed
                     -> length parsed <= 100) ->
  ImportService.import_body_sync fromisoformat repr on_progress parser
    job_id user_id filename content s = (Raise e, s1) ->
  entities (committed s1) = entities (current s).
Proof.
  intros Hs Hlim H. unfold ImportService.import_body_sync in H.
  apply bind_inv in H as [(parsed & s2 & H2 & H)|(e' & H2 & _)].
  2:{ injection H2 as _ <-. by rewrite Hs. }
  injection H2 as Hparse <-.
  apply bind_inv in H as [([] & s3 & H3 & H)|(e' & H3 & _)];
    [|discriminate H3].
  injection H3 as <-.
  apply bind_inv in H as [([] & s4 & H4 & H)|(e' & H4 & _)];
    [|discriminate H4].
  injection H4 as <-.
  apply bind_inv in H as [(st & s5 & H5 & H)|(e' & H5 & _)];
    [discriminate H|].
  apply import_rows_sync_raise in H5.
  - by rewrite H5.
  - destruct Hlim as [->|Hlim]; [by left|right]. by apply Hlim.
Qed.

Lemma run_import_sync_failed parsers user_id filename content job_id
    on_progress parser s j0 e s1 :
  ImportService.select_parser parsers content filename = Ok (Some parser) ->
  import_jobs (current s) !! job_id = Some j0 ->
  ImportService.import_body_sync fromisoformat repr on_progress parser
    job_id user_id filename content (job_claimed parser job_id s)
  = (Raise e, s1) ->
  exists job s',
    ImportService.run_import_sync fromisoformat repr parsers user_id
      filename content job_id on_progress s = (Ok job, s')
    /\ ImportJob.status job = ImportStatus.FAILED
    /\ ImportJob.error_message job = Some (ImportService.failure_text e)
    /\ import_jobs (committed s') !! job_id = Some job
    /\ current s' = committed s'
    /\ entities (committed s') = entities (committed s1).
Proof.
  intros Hp Hj Hbody.
  rewrite (run_import_sync_unfold _ _ _ _ _ _ _ _ _ Hp Hj).
  destruct (import_body_sync_job_stays _ _ _ _ _ _ _ _ _ Hbody
              (job_claimed_has_job parser _ _ _ Hj)) as [[j1 Hj1] _].
  unfold bind at 1. unfold try_except. rewrite Hbody.
  unfold job_object, select_job. run_import.
  cbn [import_jobs with_import_jobs lift].
  rewrite !lookup_alter_eq, Hj1. cbn.
  eexists _, _. split; [reflexivity|]. cbn.
  rewrite !lookup_alter_eq, Hj1. done.
Qed.

Lemma run_import_sync_succeeded parsers user_id filename content job_id
    on_progress s job s' :
  ImportService.run_import_sync fromisoformat repr parsers user_id filename
    content job_id on_progress s = (Ok job, s') ->
  ImportJob.status job <> ImportStatus.FAILED ->
  exists parser parsed,
    ImportService.select_parser parsers content filename = Ok (Some parser)
    /\ FileParserPlugin.parse parser content filename = Ok parsed
    /\ import_jobs (committed s') !! job_id = Some job
    /\ ImportJob.total_rows job = length parsed
    /\ ImportJob.imported_rows job + ImportJob.duplicate_rows job
       = ImportJob.total_rows job
    /\ committed s' = current s'
    /\ exists staged,
        transactions (current s') = transactions (current s) ++ staged
        /\ length staged = ImportJob.imported_rows job
        /\ Forall (staged_by job_id parsed s') staged.
Proof.
  intros H Hst.
  destruct (ImportService.select_parser parsers content filename)
    as [[parser|]|e] eqn:Hp.
  3:{ unfold ImportService.run_import_sync in H. rewrite Hp in H.
      discriminate H. }
  all: destruct (import_jobs (current s) !! job_id) as [j0|] eqn:Hj.
  2,4: unfold ImportService.run_import_sync in H; rewrite Hp in H;
       revert H; unfold job_object at 1, select_job; run_import;
       rewrite Hj; discriminate.
  2:{ exfalso. apply Hst. revert H.
      unfold ImportService.run_import_sync. rewrite Hp.
      unfold job_object, select_job. run_import. rewrite Hj. cbn.
      rewrite !lookup_alter_eq, Hj. cbn. by intros [= <- <-]. }
  destruct (ImportService.import_body_sync fromisoformat repr on_progress
              parser job_id user_id filename content
              (job_claimed parser job_id s))
    as [[[]|e] s1] eqn:Hbody.
  2:{ destruct (run_import_sync_failed _ _ _ _ _ on_progress _ _ _ _ _
                  Hp Hj Hbody)
        as (job' & s'' & Hrun & Hfailed & _).
      rewrite H in Hrun. injection Hrun as <- <-. done. }
  rewrite (run_import_sync_unfold _ _ _ _ _ _ _ _ _ Hp Hj) in H.
  unfold bind at 1 in H. unfold try_except in H. rewrite Hbody in H.
  apply job_object_inv in H as [Hjob ->].
  unfold ImportService.import_body_sync in Hbody.
  step_lift Hbody. rename v into parsed, E into Hparse.
  apply bind_inv_ok in Hbody as ([] & s5 & H5 & Hbody). injection H5 as <-.
  apply bind_inv_ok in Hbody as ([] & s6 & H6 & Hbody). injection H6 as <-.
  apply bind_inv_ok in Hbody as (st & s7 & Hloop & Hbody).
  pose proof Hloop as Hkept.
  apply (import_rows_sync_respects _ _ (total_kept job_id)) in Hkept;
    [|apply _..|apply uncommitted_total_kept
     |intros; apply report_progress_total_kept].
  destruct (Hkept (ImportJob.with_total_rows (length parsed)
                     (ImportJob.with_status ImportStatus.PROCESSING
                        (ImportJob.with_source_type
                           (FileParserPlugin.name parser) j0))))
    as (j7 & Hj7 & Htotal).
  { cbn. by rewrite !lookup_alter_eq, Hj. }
  apply import_rows_sync_ok in Hloop; [|apply cat_cache_ok_init].
  revert Hbody. run_import. intros [= Hs1].
  assert (categories (current s1) = categories (current s7)) as Hc1
    by (by rewrite <- Hs1).
  assert (transactions (current s1) = transactions (current s7)) as Ht1
    by (by rewrite <- Hs1).
  assert (committed s1 = current s1) as Hcom1 by (by rewrite <- Hs1).
  rewrite <- Hs1 in Hjob. cbn in Hjob.
  rewrite !lookup_alter_eq, Hj7 in Hjob. cbn in Hjob.
  injection Hjob as Hjob.
  assert (import_jobs (committed s1) !! job_id = Some job) as Hlook.
  { rewrite <- Hs1. cbn. rewrite !lookup_alter_eq, Hj7. cbn. by rewrite Hjob. }
  subst job. cbn in *.
  exists parser, parsed. do 4 (split; [done|]).
  destruct (Hloop) as (_ & _ & Hn & _). cbn in Hn.
  split; [lia|]. split; [done|].
  destruct (loop_done_staged _ _ _ _ _ _ s1 Hloop Hc1 Ht1)
    as (staged & Hs & Hi & Hf).
  exists staged. cbn in Hi. done.
Qed.
End Runs.

(* ===================================================================== *)
(** ** Counters and categories of a successful import *)
(* ===================================================================== *)

Lemma cat_name_of_default (row : dict) :
  row !! "category_name" = None
  \/ (exists v, row !! "category_name" = Some v /\ truthy v = false) ->
  cat_name_of row = PStr "Uncategorized".
Proof.
  unfold cat_name_of, or_, get_or.
  intros [->|(v & -> & Hv)]; [done|]. by rewrite Hv.
Qed.

Lemma first_import_summary :
  job_summary <$> (import_file two_accounts_file fresh_session).1
  = Ok (ImportStatus.COMPLETED, 2, 2, 0, None).
Proof. vm_compute. reflexivity. Qed.

(** C10: after a successful import run, on the asynchronous path (the job
    returned is COMPLETED) as on the worker path (the job returned is not
    FAILED), the parser has returned rows, [total_rows] is their number and
    [imported_rows + duplicate_rows = total_rows]; the transactions the run
    has added to the table are as many as [imported_rows], they are
    committed, and each one is linked to the job and carries the id of a
    stored category whose name is the category name of a parsed row, which
    is "Uncategorized" when the row has no category name or an empty one. *)
Theorem import_counts_every_row_once
    (fromisoformat : string -> result date) (repr : pyval -> string)
    (now : nat) (parsers : list FileParserPlugin.t) (user_id : uuid)
    (filename : string) (content : bytes) (s : Session) :
  (forall job s',
      ImportService.run_import fromisoformat repr now parsers user_id
        filename content s = (Ok job, s') ->
      ImportJob.status job = ImportStatus.COMPLETED ->
      exists parser parsed staged,
        ImportService.select_parser parsers content filename
        = Ok (Some parser)
        /\ FileParserPlugin.parse parser content filename = Ok parsed
        /\ ImportJob.total_rows job = length parsed
        /\ ImportJob.imported_rows job + ImportJob.duplicate_rows job
           = ImportJob.total_rows job
        /\ transactions (committed s') = transactions (current s) ++ staged
        /\ length staged = ImportJob.imported_rows job
        /\ Forall (staged_by (ImportJob.id job) parsed s') staged)
  /\ (forall job_id on_progress job s',
        ImportService.run_import_sync fromisoformat repr parsers user_id
          filename content job_id on_progress s = (Ok job, s') ->
        ImportJob.status job <> ImportStatus.FAILED ->
        exists parser parsed staged,
          ImportService.select_parser parsers content filename
          = Ok (Some parser)
          /\ FileParserPlugin.parse parser content filename = Ok parsed
          /\ import_jobs (committed s') !! job_id = Some job
          /\ ImportJob.total_rows job = length parsed
          /\ ImportJob.imported_rows job + ImportJob.duplicate_rows job
             = ImportJob.total_rows job
          /\ transactions (committed s') = transactions (current s) ++ staged
          /\ length staged = ImportJob.imported_rows job
          /\ Forall (staged_by job_id parsed s') staged)
  /\ (forall row : dict,
        row !! "category_name" = None
        \/ row !! "category_name" = Some PNone
        \/ row !! "category_name" = Some (PStr "") ->
        cat_name_of row = PStr "Uncategorized").
Proof.
  split; [|split].
  - intros job s' H Hst.
    destruct (run_import_completed _ _ _ _ _ _ _ _ _ _ H Hst)
      as (parser & parsed & Hp & Hparse & _ & Ht & Hn & Hc & staged
          & Hs & Hl & Hf).
    exists parser, parsed, staged. rewrite <- Hc in Hs.
    repeat (split; [assumption|]). assumption.
  - intros job_id on_progress job s' H Hst.
    destruct (run_import_sync_succeeded _ _ _ _ _ _ _ _ _ _ _ H Hst)
      as (parser & parsed & Hp & Hparse & Hj & Ht & Hn & Hc & staged
          & Hs & Hl & Hf).
    exists parser, parsed, staged. rewrite <- Hc in Hs.
    repeat (split; [assumption|]). assumption.
  - intros row H. apply cat_name_of_default.
    destruct H as [H|[H|H]]; [by left|right; by eexists..].
Qed.

Lemma import_counts_witness :
  exists job s',
    import_file two_accounts_file fresh_session = (Ok job, s')
    /\ ImportJob.imported_rows job + ImportJob.duplicate_rows job
       = ImportJob.total_rows job
    /\ length (transactions (committed s')) = ImportJob.imported_rows job.
Proof.
  pose proof first_import_summary as Hsum.
  destruct (import_file two_accounts_file fresh_session)
    as [[job|e] s'] eqn:H; [|discriminate Hsum].
  injection Hsum as Hst _ _ _ _.
  destruct (import_counts_every_row_once Plain.fromisoformat Plain.repr 1000
              rocket_only 7 "export.csv" two_accounts_file fresh_session)
    as (Hasync & _).
  destruct (Hasync job s' H Hst)
    as (parser & parsed & staged & _ & _ & _ & Hn & Hs & Hl & _).
  exists job, s'. split; [done|]. split; [exact Hn|].
  rewrite Hs. exact Hl.
Defined.

(* ===================================================================== *)
(** ** A run that fails *)
(* ===================================================================== *)

Lemma rocket_detects_undated :
  ImportService.select_parser rocket_only undated_file "export.csv"
  = Ok (Some (RocketMoney.RocketMoneyParser Plain.read_csv)).
Proof.
  assert (FileParserPlugin.detect
            (RocketMoney.RocketMoneyParser Plain.read_csv) undated_file
            "export.csv" = Ok true) as H by (vm_compute; reflexivity).
  unfold rocket_only. cbn [ImportService.select_parser]. rewrite H.
  reflexivity.
Qed.

Lemma undated_body_raises :
  raised
    (ImportService.import_body Plain.fromisoformat Plain.repr 1000
       (RocketMoney.RocketMoneyParser Plain.read_csv) 1 7 "export.csv"
       undated_file
       (job_flushed (RocketMoney.RocketMoneyParser Plain.read_csv) 7
          "export.csv" fresh_session)).1
  = Some (Exn ValueError "Invalid isoformat string: 'not-a-date'").
Proof. vm_compute. reflexivity. Qed.

(** C1, as amended.  When the [try] block of an import raises [exc]:
    on the asynchronous path the run returns the job with status FAILED and
    [error_message = str(exc)[:1000]], and the database is the one from
    before the run with this job added, nothing else of the run being
    persisted or left pending; on the worker path the run returns the job
    with status FAILED and the same message, committed, and the tables of
    institutions, accounts, categories and transactions are those of the
    last commit of the [try] block, which are those from before the run when
    no progress callback was given or the file has at most a hundred rows.
    (With a callback the rows staged before the last multiple of a hundred
    stay persisted.) *)
Theorem failed_import_rolls_back
    (fromisoformat : string -> result date) (repr : pyval -> string)
    (now : nat) (parsers : list FileParserPlugin.t) (user_id : uuid)
    (filename : string) (content : bytes) (parser : FileParserPlugin.t)
    (exc : exn) :
  ImportService.select_parser parsers content filename = Ok (Some parser) ->
  (forall s s1,
      ImportService.import_body fromisoformat repr now parser (next_uuid s)
        user_id filename content (job_flushed parser user_id filename s)
      = (Raise exc, s1) ->
      exists job s',
        ImportService.run_import fromisoformat repr now parsers user_id
          filename content s = (Ok job, s')
        /\ ImportJob.status job = ImportStatus.FAILED
        /\ ImportJob.error_message job
           = Some (slice_to 1000 (message exc))
        /\ committed s'
           = with_import_jobs (insert (next_uuid s) job) (committed s)
        /\ current s' = committed s')
  /\ (forall job_id on_progress s s1,
        is_Some (import_jobs (current s) !! job_id) ->
        ImportService.import_body_sync fromisoformat repr on_progress parser
          job_id user_id filename content (job_claimed parser job_id s)
        = (Raise exc, s1) ->
        exists job s',
          ImportService.run_import_sync fromisoformat repr parsers user_id
            filename content job_id on_progress s = (Ok job, s')
          /\ ImportJob.status job = ImportStatus.FAILED
          /\ ImportJob.error_message job
             = Some (slice_to 1000 (message exc))
          /\ import_jobs (committed s') !! job_id = Some job
          /\ current s' = committed s'
          /\ entities (committed s') = entities (committed s1)
          /\ (on_progress = None
              \/ (forall parsed,
                     FileParserPlugin.parse parser content filename
                     = Ok parsed -> length parsed <= 100) ->
              entities (committed s') = entities (current s))).
Proof.
  intros Hp. split.
  - intros s s1 Hbody.
    destruct (run_import_failed fromisoformat repr now _ _ _ _ _ _ _ _
                Hp Hbody)
      as (job & s' & Hrun & _ & Hst & Hmsg & Hc & Hcur).
    by exists job, s'.
  - intros job_id on_progress s s1 [j0 Hj] Hbody.
    destruct (run_import_sync_failed fromisoformat repr _ _ _ _ _ _ _ _ _
                _ _ Hp Hj Hbody)
      as (job & s' & Hrun & Hst & Hmsg & Hlook & Hcur & Hent).
    exists job, s'. do 6 (split; [done|]).
    intros Hlim. rewrite Hent.
    by rewrite (import_body_sync_raise fromisoformat repr _ _ _ _ _ _
                  (job_claimed parser job_id s) _ _ eq_refl Hlim Hbody).
Qed.

Lemma failed_import_witness :
  exists job s',
    import_file undated_file fresh_session = (Ok job, s')
    /\ ImportJob.status job = ImportStatus.FAILED
    /\ ImportJob.error_message job
       = Some "Invalid isoformat string: 'not-a-date'"
    /\ entities (committed s') = ([], [], [], []).
Proof.
  pose proof undated_body_raises as Hraised.
  destruct (ImportService.import_body Plain.fromisoformat Plain.repr 1000
              (RocketMoney.RocketMoneyParser Plain.read_csv) 1 7
              "export.csv" undated_file
              (job_flushed (RocketMoney.RocketMoneyParser Plain.read_csv) 7
                 "export.csv" fresh_session))
    as [[[]|e] s1] eqn:Hbody; [discriminate Hraised|].
  injection Hraised as ->.
  destruct (failed_import_rolls_back Plain.fromisoformat Plain.repr 1000
              rocket_only 7 "export.csv" undated_file _
              (Exn ValueError "Invalid isoformat string: 'not-a-date'")
              rocket_detects_undated)
    as (Hasync & _).
  destruct (Hasync fresh_session s1 Hbody)
    as (job & s' & Hrun & Hst & Hmsg & Hc & _).
  exists job, s'. split; [exact Hrun|]. split; [exact Hst|].
  split; [exact Hmsg|]. by rewrite Hc.
Defined.

(** C1 as stated fails on the worker path: with a progress callback, a file
    of a hundred good rows followed by a row without a date ends with the
    job FAILED, yet the hundred transactions staged before the failure, all
    of this job, and their category are persisted. *)
Lemma worker_failure_keeps_checkpoint :
  let run := work_on (payments_file 100) (Some silent) queued_session in
  job_summary <$> run.1
  = Ok (ImportStatus.FAILED, 101, 0, 0,
        Some "Invalid isoformat string: 'not-a-date'")
  /\ entities (committed queued_session) = ([], [], [], [])
  /\ length (transactions (committed run.2)) = 100
  /\ forallb (fun t => bool_decide (Transaction.import_job_id t = Some 1))
       (transactions (committed run.2)) = true
  /\ length (categories (committed run.2)) = 1.
Proof. vm_compute. repeat split. Qed.

(* ===================================================================== *)
(** ** Categorising a batch *)
(* ===================================================================== *)

Ltac run_batch :=
  cbn [bind ret raise lift read write flush commit rollback
       current committed next_uuid scalar_one_or_none rbind
       set_transaction Categorization.txn_object
       ImportService.text_param].

Lemma filter_unique {A} (f : A -> string) n (l : list A) :
  NoDup (f <$> l) ->
  filter (fun c => f c = n) l = []
  \/ exists c, filter (fun c => f c = n) l = [c].
Proof.
  induction l as [|x l IH]; [by left|]. intros Hnd.
  apply NoDup_cons in Hnd as [Hx Hnd]. rewrite filter_cons.
  case_decide as Hfx.
  - right. exists x. f_equal. apply filter_none.
    intros y Hy Hfy. apply Hx. rewrite Hfx, <- Hfy.
    by apply list_elem_of_fmap_2.
  - by apply IH.
Qed.

Lemma match_category_total s n :
  unique_names s ->
  exists r, Categorization._match_category (PStr n) s = (Ok r, s).
Proof.
  intros Hu. destruct (filter_unique Category.name n _ Hu) as [H|[c H]].
  - rewrite (match_category_fallback _ _ H). by eexists.
  - rewrite (match_category_exact _ _ _ H). by eexists.
Qed.

Lemma match_category_inv name s r s' :
  Categorization._match_category name s = (Ok r, s') -> s' = s.
Proof.
  unfold Categorization._match_category.
  destruct name as [| | | |n|]; try discriminate. run_batch.
  destruct (filter _ _) as [|c [|c' l]]; run_batch;
    [by intros [= _ <-]..|discriminate].
Qed.

Lemma no_answer_well_typed : well_typed_answer Categorization.no_answer.
Proof.
  split.
  - right. exists "Uncategorized". vm_compute. reflexivity.
  - right. left. vm_compute. reflexivity.
Qed.

Lemma answer_well_typed ai_results i :
  Forall well_typed_answer ai_results ->
  well_typed_answer (default Categorization.no_answer (ai_results !! i)).
Proof.
  intros H. destruct (ai_results !! i) as [a|] eqn:E; cbn.
  - eapply (proj1 (Forall_forall _ _)); [exact H|].
    by eapply list_elem_of_lookup_2.
  - apply no_answer_well_typed.
Qed.

Lemma apply_answers_total ai_results i ordered_ids s :
  Forall well_typed_answer ai_results ->
  unique_names s ->
  exists out s',
    Categorization.apply_answers ai_results i ordered_ids s = (Ok out, s')
    /\ Categorization.transaction_id <$> out = ordered_ids.
Proof.
  intros Hwt. revert i s.
  induction ordered_ids as [|tid rest IH]; intros i s Hu.
  - by exists [], s.
  - cbn [Categorization.apply_answers]. run_batch.
    destruct (answer_well_typed ai_results i Hwt) as [Hcat Hm].
    set (a := default Categorization.no_answer (ai_results !! i)) in *.
    assert (exists n, get_or a "category" (PStr "Uncategorized") = PStr n)
      as [n ->].
    { unfold get_or. destruct Hcat as [->|[n ->]]; by eexists. }
    destruct (match_category_total s n Hu) as [r Hr].
    rewrite (bind_ok _ _ _ _ _ Hr).
    assert (exists s1,
               match r with
               | Some c =>
                   set_transaction tid
                     (Transaction.with_category_id (Some (Category.id c)))
               | None => ret tt
               end s = (Ok tt, s1)
               /\ categories (current s1) = categories (current s))
      as (s1 & Hs1 & Hc1).
    { destruct r; by eexists. }
    rewrite (bind_ok _ _ _ _ _ Hs1).
    assert (exists s2,
               (if truthy (Py.get a "merchant_normalized")
                   && match last (filter (fun x => Transaction.id x = tid)
                                    (transactions (current s)))
                            ≫= Transaction.merchant_name with
                      | Some m => negb (String.eqb m "")
                      | None => false
                      end
                then
                  (m <- lift (ImportService.text_param
                                (Py.get a "merchant_normalized")) ;;
                   set_transaction tid
                     (Transaction.with_merchant_name (Some m)))%M
                else ret tt) s1 = (Ok tt, s2)
               /\ categories (current s2) = categories (current s1))
      as (s2 & Hs2 & Hc2).
    { unfold Py.get, get_or.
      destruct Hm as [->|[->|[m ->]]]; cbn [truthy andb]; try by eexists.
      destruct (_ && _); by eexists. }
    rewrite (bind_ok _ _ _ _ _ Hs2).
    destruct (IH (S i) s2) as (out & s' & Hrest & Hout).
    { unfold unique_names. by rewrite Hc2, Hc1. }
    rewrite (bind_ok _ _ _ _ _ Hrest).
    eexists _, _. split; [reflexivity|]. cbn. by rewrite Hout.
Qed.

Lemma apply_answers_ids ai_results i ordered_ids s out s' :
  Categorization.apply_answers ai_results i ordered_ids s = (Ok out, s') ->
  Categorization.transaction_id <$> out = ordered_ids.
Proof.
  revert i s out s'. induction ordered_ids as [|tid rest IH];
    intros i s out s' H.
  - by injection H as <- <-.
  - cbn [Categorization.apply_answers] in H.
    apply bind_inv_ok in H as (txn & s1 & _ & H).
    apply bind_inv_ok in H as (category & s2 & _ & H).
    apply bind_inv_ok in H as ([] & s3 & _ & H).
    apply bind_inv_ok in H as ([] & s4 & _ & H).
    apply bind_inv_ok in H as (out' & s5 & Hrest & H).
    injection H as <- <-. cbn. f_equal. by eapply IH.
Qed.

Lemma txn_map_lookup (l : list Transaction.t) (m0 : gmap uuid Transaction.t)
    tid :
  is_Some (foldl (fun m x => <[Transaction.id x := x]> m) m0 l !! tid)
  <-> is_Some (m0 !! tid) \/ tid ∈ Transaction.id <$> l.
Proof.
  revert m0. induction l as [|x l IH]; intros m0; cbn.
  - split; [by left|]. intros [H|H]; [done|]. by apply elem_of_nil in H.
  - rewrite IH, lookup_insert_is_Some', elem_of_cons.
    split; [intros [[<-|H]|H]|intros [H|[->|H]]]; auto.
Qed.

Lemma ordered_ids_filter (m : gmap uuid Transaction.t) (P : uuid -> Prop)
    `{!forall tid, Decision (P tid)} (ids : list uuid) :
  (forall tid, tid ∈ ids -> is_Some (m !! tid) <-> P tid) ->
  map fst (omap (fun tid => (fun x => (tid, x)) <$> m !! tid) ids)
  = filter P ids.
Proof.
  induction ids as [|tid ids IH]; intros Hiff; [done|].
  cbn [omap list_omap]. rewrite filter_cons.
  assert (is_Some (m !! tid) <-> P tid) as Htid by (apply Hiff; left).
  assert (map fst (omap (fun tid => (fun x => (tid, x)) <$> m !! tid) ids)
          = filter P ids) as IH'.
  { apply IH. intros t Ht. apply Hiff. by right. }
  destruct (m !! tid) as [x|] eqn:E; cbn.
  - rewrite decide_True by (apply Htid; by eexists). cbn. by f_equal.
  - rewrite decide_False; [done|]. intros HP. apply Htid in HP.
    by destruct HP.
Qed.

Lemma selected_resolve s (ids : list uuid) tid :
  tid ∈ ids ->
  tid ∈ Transaction.id
        <$> filter (fun x => Transaction.id x ∈ ids) (transactions (current s))
  <-> resolves s tid.
Proof.
  intros Hin. unfold resolves. rewrite !list_elem_of_fmap. split.
  - intros (x & -> & Hx). apply list_elem_of_filter in Hx as [_ Hx]. eauto.
  - intros (x & -> & Hx). exists x. split; [done|].
    by apply list_elem_of_filter.
Qed.

Lemma categorize_batch_ids ps ids provider_name s out s' :
  Categorization.categorize_batch ps ids provider_name s = (Ok out, s') ->
  Categorization.transaction_id <$> out = filter (resolves s) ids.
Proof.
  unfold Categorization.categorize_batch. intros H.
  apply bind_inv_ok in H as (provider & s1 & H1 & H).
  injection H1 as _ <-.
  apply bind_inv_ok in H as (txs & s1 & H1 & H). injection H1 as <- <-.
  destruct (filter (fun x => Transaction.id x ∈ ids)
              (transactions (current s))) as [|x l] eqn:E.
  - injection H as <- <-. symmetry. apply filter_none.
    intros tid Hin Hres. apply (selected_resolve s ids tid Hin) in Hres.
    rewrite E in Hres. by apply elem_of_nil in Hres.
  - apply bind_inv_ok in H as (ai_results & s1 & _ & H).
    apply bind_inv_ok in H as (output & s2 & Hout & H).
    apply bind_inv_ok in H as ([] & s3 & _ & H). injection H as <- <-.
    apply apply_answers_ids in Hout. rewrite Hout.
    apply ordered_ids_filter. intros tid Hin.
    rewrite txn_map_lookup, lookup_empty, <- E.
    rewrite (selected_resolve s ids tid Hin).
    split; [intros [[? ?]|?]; done|by right].
Qed.

Lemma categorize_batch_total ps ids provider_name provider s :
  Categorization._get_ai_provider ps provider_name = Ok provider ->
  answers_batches provider ->
  unique_names s ->
  exists out s',
    Categorization.categorize_batch ps ids provider_name s = (Ok out, s').
Proof.
  intros Hp Hans Hu. unfold Categorization.categorize_batch.
  rewrite Hp. run_batch.
  destruct (filter (fun x => Transaction.id x ∈ ids)
              (transactions (current s))) as [|x l] eqn:E.
  - by eexists _, _.
  - match goal with
    | |- context [AIProviderPlugin.categorize_batch provider ?d] =>
        destruct (Hans d) as (ai_results & -> & Hwt)
    end.
    run_batch.
    match goal with
    | |- context [Categorization.apply_answers ai_results 0 ?o] =>
        destruct (apply_answers_total ai_results 0 o s Hwt Hu)
          as (out & s' & Hout & _)
    end.
    rewrite (bind_ok _ _ _ _ _ Hout). by eexists _, _.
Qed.

Lemma categorize_batch_empty ps provider_name provider s :
  Categorization._get_ai_provider ps provider_name = Ok provider ->
  Categorization.categorize_batch ps [] provider_name s = (Ok [], s).
Proof.
  intros Hp. unfold Categorization.categorize_batch. rewrite Hp. run_batch.
  rewrite filter_none; [done|]. intros x _ Hx. by apply elem_of_nil in Hx.
Qed.

(** C8: with a registered provider, [categorize_batch] on an empty list of
    ids returns the empty list and leaves the session as it is.  On any list
    of ids, whenever it returns, the ids of the results are the ids of the
    input that resolve to a stored transaction, in the order of the input
    (one result for each of them, the others dropped); and it does return
    when the provider answers its batches with well-typed answers and no two
    categories bear the same name. *)
Theorem categorize_batch_keeps_found_in_order
    (ps : Categorization.Providers) (provider_name : option string)
    (provider : AIProviderPlugin.t) :
  Categorization._get_ai_provider ps provider_name = Ok provider ->
  (forall s,
      Categorization.categorize_batch ps [] provider_name s = (Ok [], s))
  /\ (forall transaction_ids s out s',
        Categorization.categorize_batch ps transaction_ids provider_name s
        = (Ok out, s') ->
        Categorization.transaction_id <$> out
        = filter (resolves s) transaction_ids)
  /\ (forall transaction_ids s,
        answers_batches provider ->
        unique_names s ->
        exists out s',
          Categorization.categorize_batch ps transaction_ids provider_name s
          = (Ok out, s')
          /\ Categorization.transaction_id <$> out
             = filter (resolves s) transaction_ids).
Proof.
  intros Hp. split; [|split].
  - intros s. by eapply categorize_batch_empty.
  - intros ids s out s' H. by eapply categorize_batch_ids.
  - intros ids s Hans Hu.
    destruct (categorize_batch_total ps ids provider_name provider s
                Hp Hans Hu) as (out & s' & H).
    exists out, s'. split; [exact H|]. by eapply categorize_batch_ids.
Qed.

Lemma grocer_answers : answers_batches grocer.
Proof.
  intros txn_dicts. eexists. split; [reflexivity|].
  apply Forall_forall. intros a Ha.
  apply list_elem_of_fmap in Ha as (x & -> & _). split.
  - right. exists "Groceries". apply lookup_singleton_eq.
  - left. by apply lookup_singleton_ne.
Qed.

Lemma categorize_batch_witness :
  exists out s',
    Categorization.categorize_batch mock_providers [11; 99; 10] None
      purchases_session = (Ok out, s')
    /\ Categorization.transaction_id <$> out = [11; 10].
Proof.
  destruct (categorize_batch_keeps_found_in_order mock_providers None
              grocer eq_refl) as (_ & _ & Htotal).
  destruct (Htotal [11; 99; 10] purchases_session grocer_answers)
    as (out & s' & H & Hids).
  - apply NoDup_singleton.
  - exists out, s'. split; [exact H|]. rewrite Hids. reflexivity.
Defined.

(* ===================================================================== *)
(** ** The categorization task *)
(* ===================================================================== *)

Lemma with_session_inv {A} (block : M A) s r s2 :
  ImportTasks.with_session block s = (r, s2) ->
  exists s',
    block (mkSession (committed s) (committed s) (next_uuid s)) = (r, s')
    /\ s2 = mkSession (committed s') (committed s') (next_uuid s').
Proof.
  unfold ImportTasks.with_session.
  destruct (block _) as [r' s']. intros [= <- <-]. by exists s'.
Qed.







Section Task.
Context (providers : Categorization.Providers) (now : nat).




End Task.

(** *** Batches of twenty *)

Lemma concat_batches_upto (txn_ids : list uuid) step m :
  concat (map (fun start => take step (drop start txn_ids))
              (map (fun k => k * step) (seq 0 m)))
  = take (m * step) txn_ids.
Proof.
  induction m as [|m IH]; [done|].
  rewrite seq_S, !map_app, concat_app, IH. cbn.
  rewrite app_nil_r, take_take_drop. f_equal. lia.
Qed.

Lemma concat_batches txn_ids : concat (batches txn_ids) = txn_ids.
Proof.
  unfold batches, ImportTasks.range. rewrite concat_batches_upto.
  apply take_ge. unfold ImportTasks.batch_size.
  pose proof (Nat.div_mod_eq (length txn_ids + 20 - 1) 20) as Hd.
  pose proof (Nat.mod_upper_bound (length txn_ids + 20 - 1) 20) as Hm.
  lia.
Qed.





(** Without a provider the only batch fails; the job is COMPLETED all the
    same, with the warning as its message. *)
Lemma failed_batch_is_a_warning :
  let run :=
    ImportTasks.categorize_import_task no_providers 1000 finished_import
      imported_session in
  run.1 = Ok (ImportTasks.Categorized 0 2 (Some 1))
  /\ (fun j => (ImportJob.status j, ImportJob.error_message j))
       <$> stored_job run.2 1
     = Some (ImportStatus.COMPLETED,
             Some ("Categorization warnings (1 batches): "
                   +:+ "Batch 1: AI provider 'anthropic' not found.")).
Proof. vm_compute. split; reflexivity. Qed.

(* ===================================================================== *)
(** * Further properties of the import service *)
(* ===================================================================== *)

Lemma filter_nil_inv {A} (P : A -> Prop) `{!forall x, Decision (P x)}
    (l : list A) x :
  filter P l = [] -> x ∈ l -> ~ P x.
Proof.
  intros E Hx HP.
  assert (x ∈ filter P l) as Hin by (by apply list_elem_of_filter).
  rewrite E in Hin. by apply elem_of_nil in Hin.
Qed.

Lemma filter_app_singleton {A} (P : A -> Prop) `{!forall x, Decision (P x)}
    (l : list A) x :
  filter P l = [] -> P x -> filter P (l ++ [x]) = [x].
Proof.
  intros E HP. rewrite filter_app, E, filter_cons, decide_True by exact HP.
  done.
Qed.

Lemma filter_singleton_elem {A} (P : A -> Prop) `{!forall x, Decision (P x)}
    (l : list A) x :
  filter P l = [x] -> x ∈ l /\ P x.
Proof.
  intros E. assert (x ∈ filter P l) as Hin by (rewrite E; left).
  apply list_elem_of_filter in Hin as [HP Hin]. done.
Qed.

(** ** The get-or-create helpers *)

Lemma get_or_create_institution_again name s inst s' :
  ImportService._get_or_create_institution name s = (Ok inst, s') ->
  ImportService._get_or_create_institution name s' = (Ok inst, s')
  /\ inst ∈ institutions (current s')
  /\ name = PStr (Institution.name inst).
Proof.
  unfold ImportService._get_or_create_institution.
  destruct name as [| | | |n|]; try discriminate. run_import.
  destruct (filter (fun i => Institution.name i = n)
              (institutions (current s))) as [|x [|y l]] eqn:E;
    run_import; [| |discriminate].
  - intros [= <- <-]. run_import. cbn [institutions].
    rewrite (filter_app_singleton _ _ _ E) by done. run_import.
    split; [done|]. split; [|done]. apply elem_of_app. right. by left.
  - intros [= <- <-]. rewrite E. run_import.
    apply filter_singleton_elem in E as [Hin <-]. done.
Qed.

Lemma get_or_create_category_again name s cat s' :
  ImportService._get_or_create_category name s = (Ok cat, s') ->
  ImportService._get_or_create_category name s' = (Ok cat, s')
  /\ cat ∈ categories (current s')
  /\ name = PStr (Category.name cat).
Proof.
  unfold ImportService._get_or_create_category.
  destruct name as [| | | |n|]; try discriminate. run_import.
  destruct (filter (fun c => Category.name c = n)
              (categories (current s))) as [|x [|y l]] eqn:E;
    run_import; [| |discriminate].
  - intros [= <- <-]. run_import. cbn [categories].
    rewrite (filter_app_singleton _ _ _ E) by done. run_import.
    split; [done|]. split; [|done]. apply elem_of_app. right. by left.
  - intros [= <- <-]. rewrite E. run_import.
    apply filter_singleton_elem in E as [Hin <-]. done.
Qed.

Lemma get_or_create_account_again institution name account_type last4
    user_id s account s' :
  ImportService._get_or_create_account institution name account_type last4
    user_id s = (Ok account, s') ->
  ImportService._get_or_create_account institution name account_type last4
    user_id s' = (Ok account, s')
  /\ account ∈ accounts (current s')
  /\ Account.institution_id account = Institution.id institution
  /\ name = PStr (Account.name account).
Proof.
  unfold ImportService._get_or_create_account.
  destruct name as [| | | |n|]; try discriminate. run_import.
  destruct (if truthy last4 then Some <$> ImportService.text_param last4
            else Ok None) as [l4|e] eqn:El4; [|discriminate]. run_import.
  destruct (filter (ImportService.account_matches
                      (Institution.id institution) n l4)
              (accounts (current s))) as [|x [|y l]] eqn:E;
    run_import; [| |discriminate].
  - destruct (ImportService.opt_text_param last4) as [l4col|e] eqn:Ecol;
      [|discriminate]. run_import.
    intros [= <- <-]. run_import. cbn [accounts].
    rewrite (filter_app_singleton _ _ _ E).
    + run_import. split; [done|]. split; [|done].
      apply elem_of_app. right. by left.
    + split; [done|]. split; [done|]. cbn.
      destruct l4 as [l|]; [|done].
      destruct last4; cbn in El4, Ecol; try discriminate;
        destruct (negb _); try discriminate; congruence.
  - intros [= <- <-]. rewrite E. run_import.
    apply filter_singleton_elem in E as [Hin (Hi & Hn & _)]. by subst.
Qed.

(** X1: the three get-or-create helpers are idempotent. *)
Theorem get_or_create_is_idempotent :
  (forall name s inst s',
      ImportService._get_or_create_institution name s = (Ok inst, s') ->
      ImportService._get_or_create_institution name s' = (Ok inst, s')
      /\ inst ∈ institutions (current s')
      /\ name = PStr (Institution.name inst))
  /\ (forall institution name account_type last4 user_id s account s',
        ImportService._get_or_create_account institution name account_type
          last4 user_id s = (Ok account, s') ->
        ImportService._get_or_create_account institution name account_type
          last4 user_id s' = (Ok account, s')
        /\ account ∈ accounts (current s')
        /\ Account.institution_id account = Institution.id institution
        /\ name = PStr (Account.name account))
  /\ (forall name s cat s',
        ImportService._get_or_create_category name s = (Ok cat, s') ->
        ImportService._get_or_create_category name s' = (Ok cat, s')
        /\ cat ∈ categories (current s')
        /\ name = PStr (Category.name cat)).
Proof.
  split; [exact get_or_create_institution_again|].
  split; [exact get_or_create_account_again
         |exact get_or_create_category_again].
Qed.

Lemma get_or_create_witness :
  exists inst s',
    ImportService._get_or_create_institution (PStr "Chase") fresh_session
    = (Ok inst, s')
    /\ ImportService._get_or_create_institution (PStr "Chase") s'
       = (Ok inst, s').
Proof.
  destruct (ImportService._get_or_create_institution (PStr "Chase")
              fresh_session) as [[inst|e] s'] eqn:H; [|discriminate H].
  exists inst, s'. split; [reflexivity|].
  destruct get_or_create_is_idempotent as (Hinst & _).
  by destruct (Hinst _ _ _ _ H).
Defined.

(** ** Resolving the account of a row *)

(** X2: a row without an account number resolves to the one stored account
    of its institution and name, whatever the number of that account, and
    nothing is created; with several such accounts the lookup raises and
    the session is left as it is; an account that has to be created gets the
    type CHECKING when the type of the row is no value of [AccountType]. *)
Theorem account_resolution_without_number
    (institution : Institution.t) (n : string) (account_type last4 : pyval)
    (user_id : option uuid) (s : Session) :
  truthy last4 = false ->
  (forall account,
      filter (ImportService.account_matches (Institution.id institution) n
                None) (accounts (current s)) = [account] ->
      ImportService._get_or_create_account institution (PStr n) account_type
        last4 user_id s = (Ok account, s))
  /\ (forall a b rest,
        filter (ImportService.account_matches (Institution.id institution) n
                  None) (accounts (current s)) = a :: b :: rest ->
        ImportService._get_or_create_account institution (PStr n)
          account_type last4 user_id s
        = (Raise (Exn MultipleResultsFound
                    "Multiple rows were found when one or none was required"),
           s))
  /\ (forall l4col,
        filter (ImportService.account_matches (Institution.id institution) n
                  None) (accounts (current s)) = [] ->
        ImportService.opt_text_param last4 = Ok l4col ->
        (forall a, AccountType.of_value account_type <> Ok a) ->
        exists s',
          ImportService._get_or_create_account institution (PStr n)
            account_type last4 user_id s
          = (Ok (Account.mk (next_uuid s) user_id (Institution.id institution)
                   n AccountType.CHECKING l4col), s')
          /\ accounts (current s')
             = accounts (current s)
               ++ [Account.mk (next_uuid s) user_id
                     (Institution.id institution) n AccountType.CHECKING
                     l4col]).
Proof.
  intros Hfalsy. unfold ImportService._get_or_create_account.
  rewrite Hfalsy. run_import. split; [|split].
  - intros account ->. by run_import.
  - intros a b rest ->. by run_import.
  - intros l4col -> -> Hty. run_import.
    destruct (AccountType.of_value account_type) as [a|e] eqn:E;
      [by destruct (Hty a)|].
    eexists. split; reflexivity.
Qed.

Lemma account_resolution_witness :
  exists s',
    ImportService._get_or_create_account (Institution.mk 1 "Chase")
      (PStr "Checking") (PStr "wallet") PNone (Some 7) fresh_session
    = (Ok (Account.mk 1 (Some 7) 1 "Checking" AccountType.CHECKING None), s').
Proof.
  destruct (account_resolution_without_number (Institution.mk 1 "Chase")
              "Checking" (PStr "wallet") PNone (Some 7) fresh_session
              eq_refl) as (_ & _ & H).
  destruct (H None eq_refl eq_refl) as (s' & Hs' & _).
  - intros a Ha. vm_compute in Ha. discriminate Ha.
  - by exists s'.
Defined.

(** ** Duplicates *)

Lemma is_duplicate_spec account_id txn_date amount_cents description s :
  exists dup,
    ImportService._is_duplicate account_id txn_date (PInt amount_cents)
      (PStr description) s = (Ok dup, s)
    /\ (dup = true <->
        exists x, x ∈ transactions (current s)
                  /\ ImportService.same_key account_id txn_date amount_cents
                       description x).
Proof.
  unfold ImportService._is_duplicate. run_import.
  destruct (filter (ImportService.same_key account_id txn_date amount_cents
                      description) (transactions (current s)))
    as [|x l] eqn:E; cbn [take]; run_import.
  - eexists. split; [reflexivity|]. split; [discriminate|].
    intros (x & Hx & Hk). by destruct (filter_nil_inv _ _ _ E Hx).
  - eexists. split; [reflexivity|]. split; [|done]. intros _.
    assert (x ∈ filter (ImportService.same_key account_id txn_date
                          amount_cents description)
                  (transactions (current s))) as Hx by (rewrite E; left).
    apply list_elem_of_filter in Hx as [Hk Hx]. by exists x.
Qed.


(** ** Detection in the runs *)

Lemma select_parser_none parsers content filename :
  ImportService.select_parser parsers content filename = Ok None
  <-> Forall (fun p => FileParserPlugin.detect p content filename = Ok false)
             parsers.
Proof.
  induction parsers as [|p rest IH]; cbn.
  - split; [constructor|done].
  - destruct (FileParserPlugin.detect p content filename) as [[]|e] eqn:E;
      cbn.
    + split; [discriminate|]. intros H. apply Forall_cons_1 in H as [H _].
      rewrite E in H. discriminate H.
    + rewrite IH. split; [by constructor|]. intros H.
      by apply Forall_cons_1 in H as [_ H].
    + split; [discriminate|]. intros H. apply Forall_cons_1 in H as [H _].
      rewrite E in H. discriminate H.
Qed.

Lemma select_parser_some parsers content filename p :
  ImportService.select_parser parsers content filename = Ok (Some p)
  <-> exists before after,
        parsers = before ++ p :: after
        /\ Forall (fun q => FileParserPlugin.detect q content filename
                            = Ok false) before
        /\ FileParserPlugin.detect p content filename = Ok true.
Proof.
  induction parsers as [|q rest IH]; cbn.
  - split; [discriminate|]. intros (before & after & H & _).
    by destruct before.
  - destruct (FileParserPlugin.detect q content filename) as [[]|e] eqn:E;
      cbn.
    + split.
      * intros [= <-]. exists [], rest. split; [done|]. by split.
      * intros ([|q' before] & after & H & Hb & Hp).
        -- by injection H as <- _.
        -- injection H as <- _. apply Forall_cons_1 in Hb as [Hb _].
           rewrite E in Hb. discriminate Hb.
    + rewrite IH. split.
      * intros (before & after & -> & Hb & Hp).
        exists (q :: before), after. split; [done|]. split; [|done].
        by constructor.
      * intros ([|q' before] & after & H & Hb & Hp).
        -- injection H as <- _. rewrite E in Hp. discriminate Hp.
        -- injection H as <- ->. apply Forall_cons_1 in Hb as [_ Hb].
           by exists before, after.
    + split; [discriminate|].
      intros ([|q' before] & after & H & Hb & Hp).
      * injection H as <- _. rewrite E in Hp. discriminate Hp.
      * injection H as <- _. apply Forall_cons_1 in Hb as [Hb _].
        rewrite E in Hb. discriminate Hb.
Qed.

(** X4: the parser of a run is the first registered one that detects the
    file: those registered before it have all answered false, and those
    after it are not asked; no parser is selected exactly when all answer
    false. *)
Theorem select_parser_first_match
    (parsers : list FileParserPlugin.t) (content : bytes)
    (filename : string) :
  (forall p,
      ImportService.select_parser parsers content filename = Ok (Some p)
      <-> exists before after,
            parsers = before ++ p :: after
            /\ Forall (fun q => FileParserPlugin.detect q content filename
                                = Ok false) before
            /\ FileParserPlugin.detect p content filename = Ok true)
  /\ (ImportService.select_parser parsers content filename = Ok None
      <-> Forall (fun p => FileParserPlugin.detect p content filename
                           = Ok false) parsers).
Proof.
  split; [intros p; apply select_parser_some|apply select_parser_none].
Qed.

Section NoParser.
Context (fromisoformat : string -> result date) (repr : pyval -> string)
        (now : nat).

(** X5: when no parser detects the file, the asynchronous run adds a job
    with status FAILED, source type "unknown" and the message "No parser
    found for this file format" and commits; the worker run marks the queued
    job FAILED with the same message and commits, and raises [NoResultFound]
    without touching the session when the job is not there.  An exception of
    a parser's [detect] escapes from both runs before any job is written. *)
Theorem run_without_parser
    (parsers : list FileParserPlugin.t) (user_id : uuid)
    (filename : string) (content : bytes) (s : Session) :
  (ImportService.select_parser parsers content filename = Ok None ->
   let job :=
     ImportJob.with_error_message
       (Some "No parser found for this file format")
       (ImportJob.new (next_uuid s) user_id filename "unknown"
          ImportStatus.FAILED) in
   let tables := with_import_jobs (insert (next_uuid s) job) (current s) in
   ImportService.run_import fromisoformat repr now parsers user_id filename
     content s
   = (Ok job, mkSession tables tables (S (next_uuid s))))
  /\ (forall job_id on_progress j0,
        ImportService.select_parser parsers content filename = Ok None ->
        import_jobs (current s) !! job_id = Some j0 ->
        let job :=
          ImportJob.with_error_message
            (Some "No parser found for this file format")
            (ImportJob.with_status ImportStatus.FAILED j0) in
        exists s',
          ImportService.run_import_sync fromisoformat repr parsers user_id
            filename content job_id on_progress s = (Ok job, s')
          /\ committed s' = current s'
          /\ import_jobs (committed s') !! job_id = Some job
          /\ entities (committed s') = entities (current s))
  /\ (forall job_id on_progress p,
        ImportService.select_parser parsers content filename = Ok p ->
        import_jobs (current s) !! job_id = None ->
        ImportService.run_import_sync fromisoformat repr parsers user_id
          filename content job_id on_progress s
        = (Raise (Exn NoResultFound "No row was found when one was required"),
           s))
  /\ (forall exc,
        ImportService.select_parser parsers content filename = Raise exc ->
        ImportService.run_import fromisoformat repr now parsers user_id
          filename content s = (Raise exc, s)
        /\ forall job_id on_progress,
             ImportService.run_import_sync fromisoformat repr parsers
               user_id filename content job_id on_progress s
             = (Raise exc, s)).
Proof.
  split; [|split; [|split]].
  - intros Hp. unfold ImportService.run_import. rewrite Hp. reflexivity.
  - intros job_id on_progress j0 Hp Hj.
    unfold ImportService.run_import_sync, job_object, select_job.
    rewrite Hp. run_import. rewrite Hj. cbn.
    rewrite !lookup_alter_eq, Hj. cbn.
    eexists. split; [reflexivity|]. cbn.
    rewrite !lookup_alter_eq, Hj. done.
  - intros job_id on_progress p Hp Hj.
    unfold ImportService.run_import_sync, job_object, select_job.
    rewrite Hp. run_import. rewrite Hj. reflexivity.
  - intros exc Hp. split; [|intros job_id on_progress].
    + unfold ImportService.run_import. by rewrite Hp.
    + unfold ImportService.run_import_sync. by rewrite Hp.
Qed.

End NoParser.

Lemma run_without_parser_witness :
  exists job s',
    ImportService.run_import Plain.fromisoformat Plain.repr 1000 rocket_only
      7 "notes.txt" "hello" fresh_session = (Ok job, s')
    /\ ImportJob.status job = ImportStatus.FAILED
    /\ ImportJob.error_message job
       = Some "No parser found for this file format".
Proof.
  destruct (run_without_parser Plain.fromisoformat Plain.repr 1000
              rocket_only 7 "notes.txt" "hello" fresh_session) as (H & _).
  eexists _, _. split; [apply H|done].
  apply select_parser_none. unfold rocket_only.
  apply Forall_cons_2; [vm_compute; reflexivity|apply Forall_nil_2].
Defined.

(** ** The same row twice *)

Lemma is_duplicate_inv account_id txn_date amount_cents description s dup s' :
  ImportService._is_duplicate account_id txn_date amount_cents description s
  = (Ok dup, s') ->
  exists a d, amount_cents = PInt a /\ description = PStr d /\ s' = s.
Proof.
  unfold ImportService._is_duplicate. intros H.
  step_lift H. step_lift H.
  destruct amount_cents; try discriminate.
  destruct description; try discriminate.
  apply bind_inv_ok in H as (rows & s1 & [= <- <-] & H).
  step_lift H. injection H as _ <-. by eexists _, _.
Qed.

Lemma cached_hit {V} (cache : gmap string V) n (create : M V) s x cache' s' :
  ImportService.cached cache (PStr n) create s = (Ok (x, cache'), s') ->
  forall s'', ImportService.cached cache' (PStr n) create s''
              = (Ok (x, cache'), s'').
Proof.
  unfold ImportService.cached. destruct (cache !! n) as [v|] eqn:E.
  - intros [= <- <- <-] s''. by rewrite E.
  - intros H s''. apply bind_inv_ok in H as (v & s1 & _ & [= <- <- <-]).
    by rewrite lookup_insert_eq.
Qed.

Lemma cached_key_institution cache key s x cache' s' :
  ImportService.cached cache key
    (ImportService._get_or_create_institution key) s = (Ok (x, cache'), s') ->
  exists n, key = PStr n.
Proof.
  unfold ImportService.cached. intros H.
  destruct key as [|b|z|f|n|l]; [| | | |by exists n|discriminate];
    apply bind_inv_ok in H as (v & s1 & H & _); discriminate H.
Qed.

Lemma cached_key_category cache key s x cache' s' :
  ImportService.cached cache key
    (ImportService._get_or_create_category key) s = (Ok (x, cache'), s') ->
  exists n, key = PStr n.
Proof.
  unfold ImportService.cached. intros H.
  destruct key as [|b|z|f|n|l]; [| | | |by exists n|discriminate];
    apply bind_inv_ok in H as (v & s1 & H & _); discriminate H.
Qed.

Section RowTwice.
Context (fromisoformat : string -> result date) (repr : pyval -> string).

Lemma import_row_again user_id job_id row st s st1 s1 :
  ImportService.import_row fromisoformat repr user_id job_id row st s
  = (Ok st1, s1) ->
  ImportService.import_row fromisoformat repr user_id job_id row st1 s1
  = (Ok (ImportService.mkLoop (ImportService.imported st1)
           (S (ImportService.duplicates st1)) (ImportService.inst_cache st1)
           (ImportService.acct_cache st1) (ImportService.cat_cache st1)),
     s1).
Proof.
  intros H. unfold ImportService.import_row in H.
  step_lift H. rename v into inst_name, E into Einst.
  apply bind_inv_ok in H as ([institution ic] & s2 & H2 & H).
  destruct (cached_key_institution _ _ _ _ _ _ H2) as [n ->].
  pose proof (cached_hit _ _ _ _ _ _ _ H2) as Hic.
  step_lift H. rename v into account_name, E into Eacct.
  apply bind_inv_ok in H as ([account ac] & s3 & H3 & H).
  set (acct_key :=
         ImportService.format repr (PStr n) +:+ "|"
         +:+ ImportService.format repr account_name +:+ "|"
         +:+ ImportService.format repr
               (get_or row "account_number_last4" (PStr ""))) in *.
  assert (ac !! acct_key = Some account) as Hac.
  { destruct (ImportService.acct_cache st !! acct_key) as [a|] eqn:Ea.
    - by injection H3 as <- <- _.
    - step_lift H3. apply bind_inv_ok in H3 as (a & s3' & _ & H3).
      injection H3 as <- <- _. by rewrite lookup_insert_eq. }
  apply bind_inv_ok in H as ([category cc] & s4 & H4 & H).
  destruct (cached_key_category _ _ _ _ _ _ H4) as [cn Hcn].
  rewrite Hcn in H4.
  pose proof (cached_hit _ _ _ _ _ _ _ H4) as Hcc.
  step_lift H. rename v into date_text, E into Edate.
  step_lift H. rename v into txn_date, E into Etxn.
  apply bind_inv_ok in H as (original_date & s5 & H5 & H).
  assert (s5 = s4 /\ forall s',
             (if truthy (Py.get row "original_date")
              then lift (Some <$> ImportService.parse_date fromisoformat
                                    (Py.get row "original_date"))
              else ret None) s' = (Ok original_date, s')) as [-> Horig].
  { destruct (truthy _).
    - apply lift_inv_ok in H5 as [E ->]. split; [done|].
      intros s'. unfold lift. by rewrite E.
    - apply ret_inv_ok in H5 as [-> ->]. done. }
  step_lift H. rename v into amount_cents, E into Eamount.
  step_lift H. rename v into description, E into Edescr.
  apply bind_inv_ok in H as (dup & s6 & H6 & H).
  destruct (is_duplicate_inv _ _ _ _ _ _ _ H6) as (a & d & -> & -> & ->).
  assert (exists x, x ∈ transactions (current s1)
                    /\ ImportService.same_key (Account.id account) txn_date
                         a d x
                    /\ st1 = ImportService.mkLoop (ImportService.imported st1)
                               (ImportService.duplicates st1) ic ac cc)
    as (x & Hx & Hkey & Hst1).
  { destruct (is_duplicate_spec (Account.id account) txn_date a d s4)
      as (dup' & Hdup' & Hiff).
    rewrite H6 in Hdup'. injection Hdup' as <-.
    destruct dup.
    - apply ret_inv_ok in H as [-> ->].
      destruct (proj1 Hiff eq_refl) as (x & Hx & Hk). by exists x.
    - do 8 step_lift H.
      apply bind_inv_ok in H as (id & s7 & H7 & H). injection H7 as <- <-.
      apply bind_inv_ok in H as ([] & s8 & H8 & H). injection H8 as <-.
      apply ret_inv_ok in H as [-> ->]. cbn in *.
      injection E as <-. injection E0 as <-.
      eexists. split; [apply elem_of_app; right; left|]. by split. }
  destruct (is_duplicate_spec (Account.id account) txn_date a d s1)
    as (dup1 & Hdup1 & Hiff1).
  assert (dup1 = true) as -> by (apply Hiff1; by exists x).
  rewrite Hst1. unfold ImportService.import_row.
  cbn [ImportService.inst_cache ImportService.acct_cache
       ImportService.cat_cache ImportService.imported
       ImportService.duplicates].
  rewrite Einst. run_import. rewrite (bind_ok _ _ _ _ _ (Hic s1)).
  rewrite Eacct. run_import. fold acct_key. rewrite Hac. run_import.
  rewrite Hcn. rewrite (bind_ok _ _ _ _ _ (Hcc s1)).
  rewrite Edate. run_import. rewrite Etxn. run_import.
  rewrite (bind_ok _ _ _ _ _ (Horig s1)).
  rewrite Eamount. run_import. rewrite Edescr. run_import.
  rewrite (bind_ok _ _ _ _ _ Hdup1). reflexivity.
Qed.

(** X6: a row that has just been processed is a duplicate when it comes
    again: with the state the first turn of the loop has left, the same row
    is counted as a duplicate, nothing is staged and the session stays as it
    is.  A file that repeats a row imports it once. *)
Theorem same_row_again_is_duplicate
    (user_id job_id : uuid) (row : dict) (st : ImportService.LoopState)
    (s : Session) (st1 : ImportService.LoopState) (s1 : Session) :
  ImportService.import_row fromisoformat repr user_id job_id row st s
  = (Ok st1, s1) ->
  exists st2,
    ImportService.import_row fromisoformat repr user_id job_id row st1 s1
    = (Ok st2, s1)
    /\ ImportService.imported st2 = ImportService.imported st1
    /\ ImportService.duplicates st2 = S (ImportService.duplicates st1).
Proof.
  intros H. eexists.
  split; [exact (import_row_again _ _ _ _ _ _ _ H)|]. done.
Qed.
End RowTwice.

Lemma same_row_again_witness :
  exists st1 s1 st2,
    ImportService.import_row Plain.fromisoformat Plain.repr 7 1
      (list_to_map
         [ ("institution_name", PStr "Chase");
           ("account_name", PStr "Checking");
           ("account_type", PStr "checking");
           ("date", PStr "2024-01-15");
           ("amount_cents", PInt 450);
           ("description", PStr "COFFEE") ])
      ImportService.init fresh_session = (Ok st1, s1)
    /\ ImportService.imported st1 = 1
    /\ ImportService.import_row Plain.fromisoformat Plain.repr 7 1
         (list_to_map
            [ ("institution_name", PStr "Chase");
              ("account_name", PStr "Checking");
              ("account_type", PStr "checking");
              ("date", PStr "2024-01-15");
              ("amount_cents", PInt 450);
              ("description", PStr "COFFEE") ])
         st1 s1 = (Ok st2, s1)
    /\ ImportService.imported st2 = 1
    /\ ImportService.duplicates st2 = 1.
Proof.
  destruct (ImportService.import_row Plain.fromisoformat Plain.repr 7 1
              (list_to_map
                 [ ("institution_name", PStr "Chase");
                   ("account_name", PStr "Checking");
                   ("account_type", PStr "checking");
                   ("date", PStr "2024-01-15");
                   ("amount_cents", PInt 450);
                   ("description", PStr "COFFEE") ])
              ImportService.init fresh_session) as [r s1] eqn:H.
  assert (ImportService.imported <$> r = Ok 1
          /\ ImportService.duplicates <$> r = Ok 0) as [Hi Hd].
  { change r with (r, s1).1. rewrite <- H. vm_compute. by split. }
  destruct r as [st1|e]; [|discriminate Hi].
  injection Hi as Hi. injection Hd as Hd.
  destruct (same_row_again_is_duplicate Plain.fromisoformat Plain.repr
              _ _ _ _ _ _ _ H) as (st2 & H2 & Hi2 & Hd2).
  exists st1, s1, st2. split; [reflexivity|]. split; [exact Hi|].
  split; [exact H2|]. split; [congruence|]. by rewrite Hd2, Hd.
Defined.

(* ===================================================================== *)
(** * Further properties of the parsers *)
(* ===================================================================== *)

Lemma Ok_inj {A} (a b : A) : Ok a = Ok b -> a = b.
Proof. by intros [= ->]. Qed.

(** ** The rows of the fixed-format parser *)

Lemma account_type_map_values raw v :
  RocketMoney.ACCOUNT_TYPE_MAP !! raw = Some v ->
  v ∈ ["checking"; "credit_card"; "savings"; "brokerage"; "retirement";
       "loan"].
Proof.
  unfold RocketMoney.ACCOUNT_TYPE_MAP. intros H.
  apply elem_of_list_to_map_2 in H.
  repeat (apply elem_of_cons in H as [[= -> ->]|H];
          [set_solver|]).
  by apply elem_of_nil in H.
Qed.

Lemma rocket_account_type_valid raw :
  exists a,
    AccountType.of_value
      (PStr (default "checking" (RocketMoney.ACCOUNT_TYPE_MAP !! raw)))
    = Ok a.
Proof.
  destruct (RocketMoney.ACCOUNT_TYPE_MAP !! raw) as [v|] eqn:E; cbn.
  - apply account_type_map_values in E.
    repeat (apply elem_of_cons in E as [->|E]; [by eexists|]).
    by apply elem_of_nil in E.
  - by eexists.
Qed.

Lemma str_or_None_cases s :
  str_or_None s = PNone \/ (str_or_None s = PStr s /\ s <> "").
Proof.
  unfold str_or_None. destruct (String.eqb_spec s ""); [by left|by right].
Qed.

(** X7: a row the fixed-format parser returns has the six fields the
    import reads without a default, each of its type: the names, the date
    and the description are strings, the amount is an integer, and the
    account type is a value of [AccountType] (an unknown type of the export
    has become "checking").  The optional texts are [None] or a non-empty
    string, never the empty string; the tags are [None] or a non-empty list
    of non-empty strings. *)
Theorem rocket_row_shape (row : Pandas.Series) (r : dict) :
  RocketMoney.parse_row row = Ok r ->
  (exists n, r !! "institution_name" = Some (PStr n))
  /\ (exists n, r !! "account_name" = Some (PStr n))
  /\ (exists v a, r !! "account_type" = Some (PStr v)
                  /\ AccountType.of_value (PStr v) = Ok a)
  /\ (exists d, r !! "date" = Some (PStr d))
  /\ (exists z, r !! "amount_cents" = Some (PInt z))
  /\ (exists d, r !! "description" = Some (PStr d))
  /\ (forall k,
        k ∈ ["original_date"; "account_number_last4"; "merchant_name";
             "custom_name"; "note"] ->
        r !! k = Some PNone
        \/ exists t, r !! k = Some (PStr t) /\ t <> "")
  /\ (r !! "tags" = Some PNone
      \/ exists tags, r !! "tags" = Some (PList tags) /\ tags <> []
                      /\ Forall (fun t => t <> "") tags).
Proof.
  unfold RocketMoney.parse_row.
  destruct (RocketMoney.amount_to_cents _) as [cents|e]; [|discriminate].
  cbn [rbind]. intros H. apply Ok_inj in H. subst r.
  split; [eexists; by lookup_literal|].
  split; [eexists; by lookup_literal|].
  split.
  { destruct (rocket_account_type_valid
                (strip (Pandas.get row "Account Type" ""))) as [a Ha].
    eexists _, a. split; [by lookup_literal|exact Ha]. }
  split; [eexists; by lookup_literal|].
  split; [eexists; by lookup_literal|].
  split; [eexists; by lookup_literal|].
  split.
  { intros k Hk.
    repeat (apply elem_of_cons in Hk as [->|Hk];
            [lookup_literal;
             match goal with
             | |- context [str_or_None ?s] =>
                 destruct (str_or_None_cases s) as [->|[-> Hne]];
                 [by left|right; by eexists]
             end|]).
    by apply elem_of_nil in Hk. }
  lookup_literal.
  destruct (String.eqb _ "") eqn:E; [by left|].
  destruct (map strip _) as [|t tags] eqn:Et; [by left|].
  right. eexists. split; [reflexivity|]. split; [done|].
  rewrite <- Et. apply Forall_fmap, Forall_forall.
  intros t' Ht'. by apply list_elem_of_filter in Ht' as [Ht' _].
Qed.

Lemma rocket_row_shape_witness :
  exists r v a,
    RocketMoney.parse_row savings_row = Ok r
    /\ r !! "account_type" = Some (PStr v)
    /\ AccountType.of_value (PStr v) = Ok a.
Proof.
  destruct (RocketMoney.parse_row savings_row) as [r|e] eqn:H.
  - destruct (rocket_row_shape savings_row r H)
      as (_ & _ & (v & a & Hv & Ha) & _).
    by exists r, v, a.
  - pose proof savings_row_parses as Hok. rewrite H in Hok. discriminate Hok.
Defined.

(** ** The schema-based parser *)

Section Schemas.
Context (re_search : string -> string -> bool -> result bool)
        (reformat_date : string -> string -> option string)
        (read_csv : bytes -> string -> result Pandas.DataFrame).

Lemma match_schema_first schemas content filename schema :
  SchemaBased._match_schema re_search schemas content filename
  = Ok (Some schema)
  <-> exists before after,
        schemas = before ++ schema :: after
        /\ Forall (fun x => SchemaBased._check_rules re_search
                              (SchemaBased.detection_rules x) content filename
                            = Ok false) before
        /\ SchemaBased._check_rules re_search
             (SchemaBased.detection_rules schema) content filename = Ok true.
Proof.
  induction schemas as [|x rest IH]; cbn [SchemaBased._match_schema].
  - split; [discriminate|]. intros (before & after & H & _).
    by destruct before.
  - destruct (SchemaBased._check_rules re_search
                (SchemaBased.detection_rules x) content filename)
      as [[]|e] eqn:E; cbn [rbind negb].
    + split.
      * intros [= <-]. exists [], rest. split; [done|]. by split.
      * intros ([|x' before] & after & H & Hb & Hp).
        -- by injection H as <- _.
        -- injection H as <- _. apply Forall_cons_1 in Hb as [Hb _].
           rewrite E in Hb. discriminate Hb.
    + rewrite IH. split.
      * intros (before & after & -> & Hb & Hp).
        exists (x :: before), after. split; [done|]. split; [|done].
        by constructor.
      * intros ([|x' before] & after & H & Hb & Hp).
        -- injection H as <- _. rewrite E in Hp. discriminate Hp.
        -- injection H as <- ->. apply Forall_cons_1 in Hb as [_ Hb].
           by exists before, after.
    + split; [discriminate|].
      intros ([|x' before] & after & H & Hb & Hp).
      * injection H as <- _. rewrite E in Hp. discriminate Hp.
      * injection H as <- _. apply Forall_cons_1 in Hb as [Hb _].
        rewrite E in Hb. discriminate Hb.
Qed.

(** X8: the schema-based parser uses the first loaded schema whose
    detection rules hold, the schemas before it having failed theirs;
    [detect] answers true exactly when there is one; and on a file that it
    does not detect, [parse] returns the empty list, not an error. *)
Theorem schema_order_is_priority
    (schemas : list SchemaBased.Schema) (content : bytes)
    (filename : string) :
  (forall schema,
      SchemaBased._match_schema re_search schemas content filename
      = Ok (Some schema)
      <-> exists before after,
            schemas = before ++ schema :: after
            /\ Forall (fun x => SchemaBased._check_rules re_search
                                  (SchemaBased.detection_rules x) content
                                  filename = Ok false) before
            /\ SchemaBased._check_rules re_search
                 (SchemaBased.detection_rules schema) content filename
               = Ok true)
  /\ (SchemaBased.detect re_search schemas content filename = Ok true
      <-> exists schema,
            SchemaBased._match_schema re_search schemas content filename
            = Ok (Some schema))
  /\ (SchemaBased.detect re_search schemas content filename = Ok false ->
      SchemaBased.parse re_search reformat_date read_csv schemas content
        filename = Ok []).
Proof.
  split; [intros schema; apply match_schema_first|].
  unfold SchemaBased.detect, SchemaBased.parse.
  destruct (SchemaBased._match_schema re_search schemas content filename)
    as [[schema|]|e]; cbn [rbind].
  - split; [|discriminate]. split; [by exists schema|done].
  - split; [|done]. split; [discriminate|]. by intros [schema H].
  - split; [|discriminate]. split; [discriminate|]. by intros [schema H].
Qed.

(** *** Defaults *)

Lemma apply_defaults_step_other (l : list (string * pyval)) (record : dict) k :
  k ∉ l.*1 ->
  foldl (fun record '(field, default) =>
           if negb (truthy (Py.get record field))
           then <[field := default]> record
           else record) record l !! k
  = record !! k.
Proof.
  revert record. induction l as [|[field d] l IH]; intros record Hk; [done|].
  cbn in Hk. apply not_elem_of_cons in Hk as [Hne Hk].
  cbn [foldl]. rewrite IH by exact Hk.
  destruct (negb _); [|done]. by rewrite lookup_insert_ne.
Qed.

Lemma apply_defaults_step_kept (l : list (string * pyval)) (record : dict)
    k v :
  record !! k = Some v -> truthy v = true ->
  foldl (fun record '(field, default) =>
           if negb (truthy (Py.get record field))
           then <[field := default]> record
           else record) record l !! k
  = Some v.
Proof.
  revert record. induction l as [|[field d] l IH]; intros record Hk Hv;
    [done|].
  cbn [foldl]. apply IH; [|exact Hv].
  destruct (decide (field = k)) as [->|Hne].
  - unfold Py.get, get_or. rewrite Hk, Hv. done.
  - destruct (negb _); [|done]. by rewrite lookup_insert_ne.
Qed.

Lemma apply_defaults_step_filled (l : list (string * pyval)) (record : dict)
    k d :
  NoDup l.*1 -> (k, d) ∈ l ->
  truthy (Py.get record k) = false ->
  foldl (fun record '(field, default) =>
           if negb (truthy (Py.get record field))
           then <[field := default]> record
           else record) record l !! k
  = Some d.
Proof.
  revert record. induction l as [|[field d'] l IH]; intros record Hnd Hin Hf.
  - by apply elem_of_nil in Hin.
  - cbn in Hnd. apply NoDup_cons in Hnd as [Hfield Hnd].
    cbn [foldl]. apply elem_of_cons in Hin as [[= <- <-]|Hin].
    + rewrite Hf. cbn [negb].
      rewrite apply_defaults_step_other by exact Hfield.
      by rewrite lookup_insert_eq.
    + assert (field <> k) as Hne.
      { intros ->. apply Hfield. apply list_elem_of_fmap.
        by exists (k, d). }
      apply IH; [exact Hnd|exact Hin|].
      destruct (negb _); [|done].
      unfold Py.get, get_or. rewrite lookup_insert_ne by exact Hne.
      exact Hf.
Qed.

(** X9: the defaults of a schema never replace a value of the record that
    is present and not empty (truthy), they leave the fields alone for which
    the schema gives no default, and a field with a default that is missing
    from the record or empty in it gets this default (the fields of
    [defaults] being those of a JSON object, hence distinct). *)
Theorem defaults_fill_only_blanks
    (rules : SchemaBased.TransformRules) (record : dict) :
  let filled := SchemaBased.apply_defaults rules record in
  let defaults := default [] (SchemaBased.defaults rules) in
  (forall k v, record !! k = Some v -> truthy v = true ->
               filled !! k = Some v)
  /\ (forall k, k ∉ defaults.*1 -> filled !! k = record !! k)
  /\ (forall k d,
        NoDup defaults.*1 -> (k, d) ∈ defaults ->
        truthy (Py.get record k) = false ->
        filled !! k = Some d).
Proof.
  unfold SchemaBased.apply_defaults. cbn zeta. split; [|split].
  - intros k v. apply apply_defaults_step_kept.
  - intros k. apply apply_defaults_step_other.
  - intros k d. apply apply_defaults_step_filled.
Qed.

(** *** The fields of a parsed row *)

Lemma map_columns_other (mapping : list (string * string)) row (acc : dict)
    k :
  k ∉ mapping.*1 ->
  foldl (fun record '(target_field, source_col) =>
           <[target_field := PStr (strip (Pandas.get row source_col ""))]>
             record) acc mapping !! k
  = acc !! k.
Proof.
  revert acc. induction mapping as [|[t src] l IH]; intros acc Hk; [done|].
  cbn in Hk. apply not_elem_of_cons in Hk as [Hne Hk].
  cbn [foldl]. rewrite IH by exact Hk. by rewrite lookup_insert_ne.
Qed.

Lemma convert_amount_none rules (record r : dict) k :
  SchemaBased.convert_amount rules record = Ok r ->
  record !! k = None -> r !! k = None.
Proof.
  unfold SchemaBased.convert_amount. intros H Hk.
  destruct (decide (k = "amount_cents")) as [->|Hne].
  - rewrite Hk in H. destruct (SchemaBased.amount_multiplier rules);
      by injection H as <-.
  - destruct (SchemaBased.amount_multiplier rules),
      (record !! "amount_cents"); try (by injection H as <-);
      destruct (except_ _ _ _) as [cents|e]; try discriminate;
      injection H as <-; by rewrite lookup_insert_ne.
Qed.

Lemma normalize_date_none rules (record : dict) k :
  record !! k = None ->
  SchemaBased.normalize_date reformat_date rules record !! k = None.
Proof.
  unfold SchemaBased.normalize_date. intros Hk.
  destruct (SchemaBased.date_format rules) as [fmt|]; [|done].
  destruct (record !! "date") as [[| | | |text|]|] eqn:E; try done.
  destruct (reformat_date text fmt); [|done].
  rewrite lookup_insert_ne; [done|]. intros <-. congruence.
Qed.

Lemma schema_row_only_mapped schema row r k :
  SchemaBased.parse_row reformat_date schema row = Ok r ->
  k ∉ (SchemaBased.column_mapping schema).*1 ->
  k ∉ (default [] (SchemaBased.defaults
                     (SchemaBased.transform_rules schema))).*1 ->
  r !! k = None.
Proof.
  unfold SchemaBased.parse_row. intros H Hmap Hdef.
  destruct (SchemaBased.convert_amount _ _) as [record|e] eqn:E;
    [|discriminate].
  injection H as <-. unfold SchemaBased.apply_defaults.
  rewrite apply_defaults_step_other by exact Hdef.
  apply normalize_date_none. eapply convert_amount_none; [exact E|].
  unfold SchemaBased.map_columns.
  by rewrite map_columns_other.
Qed.

(** X10: a row of the schema-based parser has no field but those the
    column mapping and the defaults of its schema name; so a schema that
    names no institution makes the import of each of its rows raise
    [KeyError] before anything is written. *)
Theorem schema_row_has_only_mapped_fields
    (fromisoformat : string -> result date) (repr : pyval -> string)
    (schema : SchemaBased.Schema) (row : Pandas.Series) (r : dict) :
  SchemaBased.parse_row reformat_date schema row = Ok r ->
  (forall k,
      k ∉ (SchemaBased.column_mapping schema).*1 ->
      k ∉ (default [] (SchemaBased.defaults
                         (SchemaBased.transform_rules schema))).*1 ->
      r !! k = None)
  /\ ("institution_name" ∉ (SchemaBased.column_mapping schema).*1 ->
      "institution_name"
        ∉ (default [] (SchemaBased.defaults
                         (SchemaBased.transform_rules schema))).*1 ->
      forall user_id job_id st s,
        ImportService.import_row fromisoformat repr user_id job_id r st s
        = (Raise (Exn KeyError "'institution_name'"), s)).
Proof.
  intros H. split.
  - intros k. apply (schema_row_only_mapped _ _ _ _ H).
  - intros Hmap Hdef user_id job_id st s.
    unfold ImportService.import_row, getitem.
    by rewrite (schema_row_only_mapped _ _ _ _ H Hmap Hdef).
Qed.
End Schemas.

Lemma schema_row_witness :
  exists r,
    SchemaBased.parse_row (fun text fmt => None) date_amount_schema
      {[ "Date" := "2024-01-15"; "Amount" := "4.50" ]} = Ok r
    /\ ImportService.import_row Plain.fromisoformat Plain.repr 7 1 r
         ImportService.init fresh_session
       = (Raise (Exn KeyError "'institution_name'"), fresh_session).
Proof.
  destruct (SchemaBased.parse_row (fun text fmt => None) date_amount_schema
              {[ "Date" := "2024-01-15"; "Amount" := "4.50" ]})
    as [r|e] eqn:H.
  2:{ assert (is_ok (SchemaBased.parse_row (fun text fmt => None)
                       date_amount_schema
                       {[ "Date" := "2024-01-15"; "Amount" := "4.50" ]})
              = true) as Hok by (vm_compute; reflexivity).
      rewrite H in Hok. discriminate Hok. }
  exists r. split; [reflexivity|].
  destruct (schema_row_has_only_mapped_fields (fun text fmt => None)
              Plain.fromisoformat Plain.repr _ _ _ H) as [_ Himp].
  apply Himp; cbn.
  - intros Hin.
    repeat (apply elem_of_cons in Hin as [Hin|Hin]; [discriminate Hin|]).
    by apply elem_of_nil in Hin.
  - apply not_elem_of_nil.
Defined.

Lemma defaults_witness :
  SchemaBased.apply_defaults
    (SchemaBased.Build_TransformRules None None None
       (Some [("account_type", PStr "checking")]))
    ({[ "account_type" := PStr ""; "date" := PStr "2024-01-15" ]} : dict)
  !! "account_type" = Some (PStr "checking").
Proof.
  destruct (defaults_fill_only_blanks
              (SchemaBased.Build_TransformRules None None None
                 (Some [("account_type", PStr "checking")]))
              ({[ "account_type" := PStr ""; "date" := PStr "2024-01-15" ]}
               : dict)) as (_ & _ & H).
  apply H.
  - apply NoDup_singleton.
  - left.
  - reflexivity.
Defined.

(* ===================================================================== *)
(** * Further properties of the categorisation service *)
(* ===================================================================== *)

(** X11: the provider [_get_ai_provider] returns is registered and bears
    the requested name, or the default one when no name or an empty one is
    requested; when no registered provider bears that name the call raises
    [ValueError]. *)
Theorem ai_provider_resolution
    (ps : Categorization.Providers) (provider_name : option string) :
  (forall provider,
      Categorization._get_ai_provider ps provider_name = Ok provider ->
      provider ∈ Categorization.registered ps
      /\ AIProviderPlugin.name provider
         = requested_provider ps provider_name)
  /\ ((forall p, p ∈ Categorization.registered ps ->
                 AIProviderPlugin.name p
                 <> requested_provider ps provider_name) ->
      exists msg,
        Categorization._get_ai_provider ps provider_name
        = Raise (Exn ValueError msg))
  /\ Categorization._get_ai_provider ps (Some "")
     = Categorization._get_ai_provider ps None.
Proof.
  unfold Categorization._get_ai_provider, Categorization.registry_get.
  fold (requested_provider ps provider_name).
  split; [|split; [|reflexivity]].
  - intros provider H.
    destruct (find _ _) as [p|] eqn:E; [|discriminate].
    injection H as <-. apply find_some in E as [Hin Hn].
    split; [by apply list_elem_of_In|by apply String.eqb_eq].
  - intros Hnone. destruct (find _ _) as [p|] eqn:E; [|by eexists].
    apply find_some in E as [Hin Hn]. apply String.eqb_eq in Hn.
    apply list_elem_of_In in Hin. by destruct (Hnone p Hin).
Qed.

Lemma ai_provider_witness :
  AIProviderPlugin.name
    <$> Categorization._get_ai_provider mock_providers (Some "")
  = Ok "mock".
Proof.
  destruct (Categorization._get_ai_provider mock_providers (Some ""))
    as [p|e] eqn:H; [|discriminate H].
  destruct (ai_provider_resolution mock_providers (Some "")) as (Hok & _).
  destruct (Hok p H) as [_ Hn]. cbn. by rewrite Hn.
Defined.

(** ** What a batch changes *)

Lemma relabelled_refl x : relabelled x x.
Proof. by destruct x. Qed.

Lemma relabelled_trans x y z : relabelled x y -> relabelled y z ->
  relabelled x z.
Proof.
  unfold relabelled. destruct x, y, z; cbn. intros [= -> -> -> -> -> -> ->
    -> -> -> -> -> ->] [= -> -> -> -> -> -> -> -> -> -> -> -> ->]. done.
Qed.

#[local] Instance labels_only_refl : Reflexive labels_only.
Proof.
  intros s. repeat split. apply Forall2_same_length_lookup.
  split; [done|]. intros i x y Hx Hy. rewrite Hx in Hy. injection Hy as <-.
  apply relabelled_refl.
Qed.

#[local] Instance labels_only_trans : Transitive labels_only.
Proof.
  intros s1 s2 s3 (A1 & B1 & C1 & D1 & E1 & F1) (A2 & B2 & C2 & D2 & E2 & F2).
  repeat split; try congruence.
  eapply Forall2_trans; [|exact F1|exact F2].
  intros x y z. apply relabelled_trans.
Qed.

Lemma labels_only_set_category tid c :
  respects labels_only
    (set_transaction tid (Transaction.with_category_id c)).
Proof.
  intros s r s' [= <- <-]. do 5 (split; [reflexivity|]). cbn.
  apply Forall2_fmap_r, Forall_Forall2_diag, Forall_forall.
  intros x _. unfold compose.
  case_decide; [by destruct x|apply relabelled_refl].
Qed.

Lemma labels_only_set_merchant tid m :
  respects labels_only
    (set_transaction tid (Transaction.with_merchant_name m)).
Proof.
  intros s r s' [= <- <-]. do 5 (split; [reflexivity|]). cbn.
  apply Forall2_fmap_r, Forall_Forall2_diag, Forall_forall.
  intros x _. unfold compose.
  case_decide; [by destruct x|apply relabelled_refl].
Qed.

Lemma labels_only_commit : respects labels_only commit.
Proof. intros s r s' [= <- <-]. exact (labels_only_refl s). Qed.

Lemma labels_only_match_category name :
  respects labels_only (Categorization._match_category name).
Proof. unfold Categorization._match_category. repeat respects_step. Qed.

Lemma labels_only_apply_answers ai_results i ordered_ids :
  respects labels_only
    (Categorization.apply_answers ai_results i ordered_ids).
Proof.
  revert i. induction ordered_ids as [|tid rest IH]; intros i.
  - apply respects_ret; apply _.
  - cbn [Categorization.apply_answers]. unfold Categorization.txn_object.
    repeat first
      [ apply labels_only_match_category
      | apply labels_only_set_category
      | apply labels_only_set_merchant
      | apply IH
      | respects_step ].
Qed.

Lemma labels_only_categorize_batch ps ids provider_name :
  respects labels_only
    (Categorization.categorize_batch ps ids provider_name).
Proof.
  unfold Categorization.categorize_batch.
  repeat first
    [ apply labels_only_apply_answers
    | apply labels_only_commit
    | respects_step ].
Qed.

(** X12: whatever its outcome, [categorize_batch] leaves institutions,
    accounts, categories, jobs and schemas as they are, and neither adds nor
    removes a transaction: the transactions after the call are those from
    before, in the same order, each with its id, account, dates, amount,
    description and job, only category and merchant name possibly
    changed. *)
Theorem categorize_batch_only_relabels
    (ps : Categorization.Providers) (transaction_ids : list uuid)
    (provider_name : option string) (s : Session)
    (r : result (list Categorization.Outcome)) (s' : Session) :
  Categorization.categorize_batch ps transaction_ids provider_name s
  = (r, s') ->
  labels_only s s'
  /\ Forall2 (fun x x' =>
                Transaction.id x' = Transaction.id x
                /\ Transaction.account_id x' = Transaction.account_id x
                /\ Transaction.date_ x' = Transaction.date_ x
                /\ Transaction.amount_cents x' = Transaction.amount_cents x
                /\ Transaction.description x' = Transaction.description x
                /\ Transaction.import_job_id x'
                   = Transaction.import_job_id x)
       (transactions (current s)) (transactions (current s')).
Proof.
  intros H. apply labels_only_categorize_batch in H.
  split; [exact H|]. destruct H as (_ & _ & _ & _ & _ & H).
  eapply Forall2_impl; [exact H|]. intros x x' ->. by destruct x.
Qed.

Lemma categorize_batch_relabels_witness :
  exists r s',
    Categorization.categorize_batch mock_providers [11; 99; 10] None
      purchases_session = (r, s')
    /\ length (transactions (current s')) = 2.
Proof.
  destruct (Categorization.categorize_batch mock_providers [11; 99; 10] None
              purchases_session) as [r s'] eqn:H.
  exists r, s'. split; [reflexivity|].
  destruct (categorize_batch_only_relabels _ _ _ _ _ _ H) as [_ Hf].
  by rewrite <- (Forall2_length _ _ _ Hf).
Defined.

(** ** Answers that are missing *)

Lemma match_category_sound n s c s' :
  Categorization._match_category (PStr n) s = (Ok (Some c), s') ->
  c ∈ categories (current s) /\ lower (Category.name c) = lower n.
Proof.
  unfold Categorization._match_category. run_batch.
  destruct (filter (fun c => Category.name c = n) (categories (current s)))
    as [|x [|y l]] eqn:E; run_batch; [| |discriminate].
  - intros [= Hf <-]. apply find_some in Hf as [Hin Hn].
    split; [by apply list_elem_of_In|by apply String.eqb_eq].
  - intros [= <- <-]. apply filter_singleton_elem in E as [Hin <-]. done.
Qed.

Lemma apply_answers_unanswered ai_results i ordered_ids s out s' :
  Categorization.apply_answers ai_results i ordered_ids s = (Ok out, s') ->
  length ai_results <= i ->
  Forall unanswered out.
Proof.
  revert i s out s'. induction ordered_ids as [|tid rest IH];
    intros i s out s' H Hi.
  - injection H as <- <-. constructor.
  - cbn [Categorization.apply_answers] in H.
    rewrite (lookup_ge_None_2 ai_results i) in H by exact Hi.
    cbn [default] in H.
    apply bind_inv_ok in H as (txn & s1 & _ & H).
    apply bind_inv_ok in H as (category & s2 & Hcat & H).
    apply bind_inv_ok in H as ([] & s3 & _ & H).
    apply bind_inv_ok in H as ([] & s4 & _ & H).
    apply bind_inv_ok in H as (out' & s5 & Hrest & H).
    injection H as <- <-. constructor; [|eapply IH; [exact Hrest|lia]].
    split; [|by split].
    cbn [Categorization.category_name].
    change (get_or Categorization.no_answer "category"
              (PStr "Uncategorized")) with (PStr "Uncategorized") in *.
    destruct category as [c|]; [|by eexists].
    apply match_category_sound in Hcat as [_ Hl]. by eexists.
Qed.

(** X13: when the provider returns no answer for a batch, every result
    of [categorize_batch] is the one of an unanswered transaction: the
    category "Uncategorized" (up to case, as a stored category of that name
    spells it), confidence 0.0 and no normalised merchant. *)
Theorem unanswered_count_as_uncategorized
    (ps : Categorization.Providers) (provider_name : option string)
    (provider : AIProviderPlugin.t) (transaction_ids : list uuid)
    (s : Session) (out : list Categorization.Outcome) (s' : Session) :
  Categorization._get_ai_provider ps provider_name = Ok provider ->
  (forall txn_dicts,
      AIProviderPlugin.categorize_batch provider txn_dicts = Ok []) ->
  Categorization.categorize_batch ps transaction_ids provider_name s
  = (Ok out, s') ->
  Forall unanswered out.
Proof.
  intros Hp Hmute H. unfold Categorization.categorize_batch in H.
  rewrite Hp in H. revert H. run_batch.
  destruct (filter _ (transactions (current s))) as [|x l].
  - intros [= <- <-]. constructor.
  - rewrite Hmute. run_batch. intros H.
    apply bind_inv_ok in H as (output & s1 & Hout & H).
    injection H as <- <-.
    eapply apply_answers_unanswered; [exact Hout|cbn; lia].
Qed.

Lemma unanswered_witness :
  exists out s',
    Categorization.categorize_batch mute_providers [10; 11] None
      purchases_session = (Ok out, s')
    /\ length out = 2
    /\ Forall unanswered out.
Proof.
  destruct (Categorization.categorize_batch mute_providers [10; 11] None
              purchases_session) as [r s'] eqn:H.
  assert (length <$> r = Ok 2) as Hlen.
  { change r with (r, s').1. rewrite <- H. vm_compute. reflexivity. }
  destruct r as [out|e]; [|discriminate Hlen]. injection Hlen as Hlen.
  exists out, s'. split; [reflexivity|]. split; [exact Hlen|].
  by apply (unanswered_count_as_uncategorized mute_providers None mute
              [10; 11] purchases_session out s' eq_refl).
Defined.

(** ** Recategorising what is uncategorized *)

Section Recategorize.
Context (providers : Categorization.Providers).

Lemma count_categorized_le results :
  ImportTasks.count_categorized results <= length results.
Proof. unfold ImportTasks.count_categorized. apply length_filter. Qed.

Lemma categorize_batch_length ps ids provider_name s out s' :
  Categorization.categorize_batch ps ids provider_name s = (Ok out, s') ->
  length out <= length ids.
Proof.
  intros H. apply categorize_batch_ids in H.
  rewrite <- (length_fmap Categorization.transaction_id), H.
  apply length_filter.
Qed.

Lemma categorize_batches_le txn_ids provider_name starts categorized s
    categorized' s' :
  Recategorization.categorize_batches providers txn_ids provider_name starts
    categorized s = (Ok categorized', s') ->
  categorized'
  <= categorized
     + length (concat (map (fun start => take 20 (drop start txn_ids))
                           starts)).
Proof.
  revert categorized s. induction starts as [|start rest IH];
    intros categorized s H.
  - injection H as <- _. cbn. lia.
  - cbn [Recategorization.categorize_batches] in H.
    apply bind_inv_ok in H as (results & s1 & H1 & H).
    apply IH in H. apply categorize_batch_length in H1.
    pose proof (count_categorized_le results).
    cbn [map concat]. rewrite length_app. lia.
Qed.

(** X14: [recategorize_uncategorized] answers zero and zero, and changes
    nothing, when there is no category "Uncategorized"; when it returns,
    [total] is the number of transactions of the accounts of the user that
    are filed under that category, and [categorized] is at most [total]. *)
Theorem recategorize_counts (user_id : uuid) (provider_name : option string)
    (s : Session) :
  (filter (fun c => Category.name c = "Uncategorized")
          (categories (current s)) = [] ->
   Recategorization.recategorize_uncategorized providers user_id
     provider_name s = (Ok (Recategorization.mkCounts 0 0), s))
  /\ (forall counts s',
        Recategorization.recategorize_uncategorized providers user_id
          provider_name s = (Ok counts, s') ->
        Recategorization.categorized counts <= Recategorization.total counts
        /\ forall uncat,
             filter (fun c => Category.name c = "Uncategorized")
                    (categories (current s)) = [uncat] ->
             Recategorization.total counts
             = length
                 (filter (fun x =>
                            Transaction.account_id x
                            ∈ map Account.id
                                (filter (fun a => Account.user_id a
                                                  = Some user_id)
                                        (accounts (current s)))
                            /\ Transaction.category_id x
                               = Some (Category.id uncat))
                         (transactions (current s)))).
Proof.
  unfold Recategorization.recategorize_uncategorized. split.
  - intros H. run_batch. rewrite H. by run_batch.
  - intros counts s'. run_batch.
    destruct (filter (fun c => Category.name c = "Uncategorized")
                (categories (current s))) as [|uncat [|c l]];
      run_batch; [| |discriminate].
    { intros [= <- <-]. cbn. split; [lia|discriminate]. }
    destruct (filter _ (transactions (current s))) as [|x txns] eqn:E.
    { intros [= <- <-]. cbn. split; [lia|].
      intros u [= <-]. by rewrite E. }
    intros H. apply bind_inv_ok in H as (c' & s1 & Hloop & H).
    injection H as <- <-. cbn [Recategorization.categorized
                                 Recategorization.total].
    apply categorize_batches_le in Hloop.
    pose proof (concat_batches (map Transaction.id (x :: txns))) as Hc.
    unfold batches, ImportTasks.batch_size in Hc. rewrite Hc in Hloop.
    split; [cbn in *; lia|].
    intros u [= <-]. rewrite E. by rewrite length_map.
Qed.
End Recategorize.

Lemma recategorize_witness :
  Recategorization.recategorize_uncategorized mock_providers 7 None
    purchases_session
  = (Ok (Recategorization.mkCounts 0 0), purchases_session).
Proof.
  destruct (recategorize_counts mock_providers 7 None purchases_session)
    as [H _].
  apply H. reflexivity.
Defined.

(* ===================================================================== *)
(** * The plugin registry *)
(* ===================================================================== *)

Section DictFacts.
Context {V : Type}.
Implicit Types (d : Registry.Dict V) (k : string) (v : V).

Lemma dict_get_set_eq d k v :
  Registry.dict_get k (Registry.dict_set k v d) = Some v.
Proof.
  unfold Registry.dict_get. induction d as [|[k' v'] d IH]; cbn.
  - by rewrite String.eqb_refl.
  - destruct (String.eqb k' k) eqn:E; cbn.
    + by rewrite String.eqb_refl.
    + by rewrite E.
Qed.

Lemma dict_get_set_ne d k k' v :
  k <> k' ->
  Registry.dict_get k' (Registry.dict_set k v d) = Registry.dict_get k' d.
Proof.
  intros Hne. unfold Registry.dict_get.
  induction d as [|[k0 v0] d IH]; cbn.
  - by rewrite (proj2 (String.eqb_neq k k')).
  - destruct (String.eqb k0 k) eqn:E; cbn.
    + apply String.eqb_eq in E as ->.
      by rewrite (proj2 (String.eqb_neq k k')).
    + destruct (String.eqb k0 k'); [done|exact IH].
Qed.

Lemma dict_set_keys_known d k v v0 :
  Registry.dict_get k d = Some v0 ->
  map fst (Registry.dict_set k v d) = map fst d.
Proof.
  unfold Registry.dict_get. induction d as [|[k' v'] d IH]; cbn;
    [discriminate|].
  destruct (String.eqb k' k) eqn:E; cbn.
  - intros _. by apply String.eqb_eq in E as ->.
  - intros H. f_equal. by apply IH.
Qed.

Lemma dict_set_values_new d k v :
  Registry.dict_get k d = None ->
  Registry.values (Registry.dict_set k v d) = Registry.values d ++ [v].
Proof.
  unfold Registry.dict_get, Registry.values.
  induction d as [|[k' v'] d IH]; cbn; [done|].
  destruct (String.eqb k' k) eqn:E; cbn; [discriminate|].
  intros H. f_equal. by apply IH.
Qed.

Lemma dict_set_values_length d k v v0 :
  Registry.dict_get k d = Some v0 ->
  length (Registry.dict_set k v d) = length d.
Proof.
  intros H. rewrite <- (length_map fst), (dict_set_keys_known _ _ _ _ H).
  by rewrite length_map.
Qed.
End DictFacts.

Section RegistryFacts.
Context {PluginBase : Type} (plugin_name : PluginBase -> string).

(** X15: registering a plugin under a known type makes [get] return it
    under its name and leaves every other name and type as it was; the
    plugin types stay the same; a plugin with a new name comes last in
    [get_all(...).values()], so that it never takes precedence over the
    plugins registered before it, while one whose name is taken replaces the
    plugin of that name; registering under an unknown type raises
    [ValueError]. *)
Theorem register_then_get
    (plugin_type : string) (plugin : PluginBase)
    (r : Registry.t (PluginBase := PluginBase)) :
  (forall r',
      Registry.register plugin_name plugin_type plugin r = Ok r' ->
      Registry.get plugin_type (plugin_name plugin) r' = Some plugin
      /\ (forall t n,
            (t, n) <> (plugin_type, plugin_name plugin) ->
            Registry.get t n r' = Registry.get t n r)
      /\ map fst r' = map fst r
      /\ (Registry.get plugin_type (plugin_name plugin) r = None ->
          Registry.values (Registry.get_all plugin_type r')
          = Registry.values (Registry.get_all plugin_type r) ++ [plugin])
      /\ (is_Some (Registry.get plugin_type (plugin_name plugin) r) ->
          length (Registry.get_all plugin_type r')
          = length (Registry.get_all plugin_type r)))
  /\ (Registry.dict_get plugin_type r = None ->
      exists msg,
        Registry.register plugin_name plugin_type plugin r
        = Raise (Exn ValueError msg))
  /\ (plugin_type ∈ ["parser"; "datasource"; "ai"; "notification"] ->
      is_ok (Registry.register plugin_name plugin_type plugin
               Registry._registry) = true).
Proof.
  unfold Registry.register, Registry.get, Registry.get_all.
  split; [|split].
  - intros r'. destruct (Registry.dict_get plugin_type r) as [plugins|] eqn:E;
      [|discriminate].
    intros H. apply Ok_inj in H. subst r'.
    rewrite dict_get_set_eq. cbn [default].
    split; [apply dict_get_set_eq|].
    split.
    { intros t n Hne. destruct (decide (plugin_type = t)) as [<-|Ht].
      - rewrite dict_get_set_eq, E. cbn [default].
        apply dict_get_set_ne. congruence.
      - by rewrite dict_get_set_ne. }
    split; [by eapply dict_set_keys_known|].
    split.
    + apply dict_set_values_new.
    + intros [v0 Hv0]. by eapply dict_set_values_length.
  - intros ->. by eexists.
  - intros Hin.
    repeat (apply elem_of_cons in Hin as [->|Hin]; [reflexivity|]).
    by apply elem_of_nil in Hin.
Qed.
End RegistryFacts.

Lemma register_then_get_witness :
  exists r',
    Registry.register FileParserPlugin.name "parser"
      (RocketMoney.RocketMoneyParser Plain.read_csv) Registry._registry
    = Ok r'
    /\ FileParserPlugin.name
         <$> Registry.get "parser" "rocket_money" r' = Some "rocket_money".
Proof.
  destruct (Registry.register FileParserPlugin.name "parser"
              (RocketMoney.RocketMoneyParser Plain.read_csv)
              Registry._registry) as [r'|e] eqn:H; [|discriminate H].
  exists r'. split; [reflexivity|].
  destruct (register_then_get FileParserPlugin.name "parser"
              (RocketMoney.RocketMoneyParser Plain.read_csv)
              Registry._registry) as (Hok & _).
  destruct (Hok r' H) as (Hget & _).
  change "rocket_money"
    with (FileParserPlugin.name
            (RocketMoney.RocketMoneyParser Plain.read_csv)) at 1.
  by rewrite Hget.
Defined.

(* ===================================================================== *)
(** * Further properties of the API *)
(* ===================================================================== *)

(** ** Reading a job *)

(** X16: [get_import_job] returns a job only to its owner: the job it
    returns is the stored one of that id and belongs to the current user;
    for the job of another user the answer is the 404 of a job that does
    not exist; the session is never changed. *)
Theorem job_is_read_by_its_owner_only
    (job_id current_user : uuid) (s : Session) :
  (forall job s',
      ImportJobsApi.get_import_job job_id current_user s = (Ok job, s') ->
      s' = s
      /\ import_jobs (current s) !! job_id = Some job
      /\ ImportJob.user_id job = current_user)
  /\ (forall job,
        import_jobs (current s) !! job_id = Some job ->
        ImportJob.user_id job <> current_user ->
        ImportJobsApi.get_import_job job_id current_user s
        = (Raise (Exn (HTTPException 404) "Import job not found"), s))
  /\ (import_jobs (current s) !! job_id = None ->
      ImportJobsApi.get_import_job job_id current_user s
      = (Raise (Exn (HTTPException 404) "Import job not found"), s))
  /\ (forall job,
        import_jobs (current s) !! job_id = Some job ->
        ImportJob.user_id job = current_user ->
        ImportJobsApi.get_import_job job_id current_user s = (Ok job, s)).
Proof.
  unfold ImportJobsApi.get_import_job, ImportJobsApi.select_own_job.
  run_import.
  destruct (import_jobs (current s) !! job_id) as [j|];
    unfold option_list; cbn [option_rect].
  - rewrite filter_cons, filter_nil. case_decide as Hu; run_import.
    + split; [by intros job s' [= <- <-]|].
      split; [by intros job [= <-]|]. split; [discriminate|].
      by intros job [= <-].
    + split; [discriminate|]. split; [done|]. split; [discriminate|].
      by intros job [= <-].
  - rewrite filter_nil. run_import.
    split; [discriminate|]. split; [discriminate|]. split; [done|].
    discriminate.
Qed.

Lemma job_is_read_witness :
  ImportJobsApi.get_import_job 1 8 queued_session
  = (Raise (Exn (HTTPException 404) "Import job not found"), queued_session)
  /\ is_ok (ImportJobsApi.get_import_job 1 7 queued_session).1 = true.
Proof.
  destruct (job_is_read_by_its_owner_only 1 8 queued_session)
    as (_ & Hother & _).
  destruct (job_is_read_by_its_owner_only 1 7 queued_session)
    as (_ & _ & _ & Hown).
  split.
  - eapply Hother; [reflexivity|]. discriminate.
  - erewrite Hown; reflexivity.
Defined.

(** ** Retrying the categorisation *)

Section Retry.
Context (apply_async : ImportTasks.ImportResult -> result string).

(** X17: [retry_categorize] dispatches the categorisation task only for
    a job of the current user whose status is COMPLETED or
    PARTIALLY_FAILED, and with a result that the task does not skip as a
    failed import; any other status of an own job is refused with a 400;
    the session is never changed. *)
Theorem retry_needs_a_finished_job
    (job_id current_user : uuid) (s : Session) :
  (forall task_id id s',
      ImportJobsApi.retry_categorize apply_async job_id current_user s
      = (Ok (task_id, id), s') ->
      exists job,
        s' = s
        /\ import_jobs (current s) !! job_id = Some job
        /\ ImportJob.user_id job = current_user
        /\ id = ImportJob.id job
        /\ (ImportJob.status job = ImportStatus.COMPLETED
            \/ ImportJob.status job = ImportStatus.PARTIALLY_FAILED)
        /\ exists import_result,
            apply_async import_result = Ok task_id
            /\ ImportTasks.job_id import_result = Some (ImportJob.id job)
            /\ ImportTasks.status import_result <> Some "failed")
  /\ (forall job,
        import_jobs (current s) !! job_id = Some job ->
        ImportJob.user_id job = current_user ->
        ImportJob.status job <> ImportStatus.COMPLETED ->
        ImportJob.status job <> ImportStatus.PARTIALLY_FAILED ->
        exists detail,
          ImportJobsApi.retry_categorize apply_async job_id current_user s
          = (Raise (Exn (HTTPException 400) detail), s)).
Proof.
  unfold ImportJobsApi.retry_categorize, ImportJobsApi.select_own_job.
  run_import.
  destruct (import_jobs (current s) !! job_id) as [j|];
    unfold option_list; cbn [option_rect].
  2:{ rewrite filter_nil. run_import. split; [discriminate|]. done. }
  rewrite filter_cons, filter_nil. case_decide as Hu; run_import.
  2:{ split; [discriminate|]. intros job [= <-] Hown. by destruct Hu. }
  case_bool_decide as Hst.
  - split.
    + intros task_id id s' H.
      destruct (apply_async _) as [t|e] eqn:Ha; [|discriminate].
      revert H. run_import. intros [= <- <- <-].
      exists j. do 4 (split; [done|]).
      split.
      { apply elem_of_cons in Hst as [Hst|Hst]; [by left|].
        apply elem_of_cons in Hst as [Hst|Hst]; [by right|].
        by apply elem_of_nil in Hst. }
      eexists. split; [exact Ha|]. split; [done|]. cbn.
      apply elem_of_cons in Hst as [->|Hst]; [discriminate|].
      apply elem_of_cons in Hst as [->|Hst]; [discriminate|].
      by apply elem_of_nil in Hst.
    + intros job [= <-] _ Hc Hp. exfalso.
      apply elem_of_cons in Hst as [Hst|Hst]; [done|].
      apply elem_of_cons in Hst as [Hst|Hst]; [done|].
      by apply elem_of_nil in Hst.
  - split; [discriminate|]. intros job [= <-] _ _ _. by eexists.
Qed.
End Retry.

Lemma retry_witness :
  exists detail,
    ImportJobsApi.retry_categorize (fun _ => Ok "task") 1 7 queued_session
    = (Raise (Exn (HTTPException 400) detail), queued_session).
Proof.
  destruct (retry_needs_a_finished_job (fun _ => Ok "task") 1 7
              queued_session) as [_ H].
  by apply (H (ImportJob.new 1 7 "export.csv" "unknown"
                 ImportStatus.PENDING)).
Defined.

(** ** An accepted upload *)

Section Upload.
Context (re_search : string -> string -> bool -> result bool)
        (infer_schema : string -> bytes -> result ImportsApi.Inferred)
        (dispatch : uuid -> bytes -> result string)
        (parsers : list FileParserPlugin.t).

(** X18: an upload that a registered parser detects adds one job, PENDING,
    of the current user, commits it and dispatches the tasks; the job
    returned and stored carries the id of the dispatched task.  When the
    dispatch fails the exception escapes, and the job stays committed,
    PENDING and without a task. *)
Theorem upload_queues_a_job
    (filename : string) (content : bytes) (current_user : uuid)
    (s : Session) :
  content <> "" ->
  ImportsApi.any_detect parsers content filename = Ok true ->
  let job :=
    ImportJob.new (next_uuid s) current_user filename "unknown"
      ImportStatus.PENDING in
  (forall task_id,
      dispatch (next_uuid s) content = Ok task_id ->
      exists s',
        ImportsApi.upload_file re_search infer_schema dispatch parsers
          (Some filename) content current_user s
        = (Ok (ImportJob.with_celery_task_id (Some task_id) job), s')
        /\ committed s' = current s'
        /\ import_jobs (committed s')
           = <[next_uuid s :=
                 ImportJob.with_celery_task_id (Some task_id) job]>
               (import_jobs (current s))
        /\ entities (committed s') = entities (current s))
  /\ (forall exc,
        dispatch (next_uuid s) content = Raise exc ->
        exists s',
          ImportsApi.upload_file re_search infer_schema dispatch parsers
            (Some filename) content current_user s = (Raise exc, s')
          /\ import_jobs (committed s')
             = <[next_uuid s := job]> (import_jobs (current s))).
Proof.
  intros Hne Hdet job. unfold ImportsApi.upload_file.
  rewrite (proj2 (String.eqb_neq content "")) by exact Hne.
  rewrite Hdet. run_import. cbn [negb]. run_import. split.
  - intros task_id ->. unfold job_object, select_job. run_import.
    cbn [import_jobs with_import_jobs].
    rewrite lookup_alter_eq, lookup_insert_eq. cbn.
    eexists. split; [reflexivity|]. cbn.
    split; [done|]. split; [|done].
    by rewrite alter_insert_eq.
  - intros exc ->. run_import. eexists. split; [reflexivity|]. done.
Qed.
End Upload.

Lemma upload_queues_witness :
  exists job s',
    ImportsApi.upload_file Plain.re_search ai_down no_dispatch rocket_only
      (Some "export.csv") two_accounts_file 7 fresh_session = (Ok job, s')
    /\ ImportJob.status job = ImportStatus.PENDING
    /\ ImportJob.celery_task_id job = Some "task".
Proof.
  destruct (upload_queues_a_job Plain.re_search ai_down no_dispatch
              rocket_only "export.csv" two_accounts_file 7 fresh_session)
    as [Hok _].
  - discriminate.
  - vm_compute. reflexivity.
  - destruct (Hok "task" eq_refl) as (s' & H & _).
    eexists _, s'. split; [exact H|]. by split.
Defined.

(** ** Saving an inferred schema *)

Section Inference.
Context (infer_schema : string -> bytes -> result ImportsApi.Inferred).

(** X19: a schema that [infer_and_save_schema] returns is stored and
    committed, active and marked as created by the AI, and its file type is
    one of csv, tsv, ofx, qfx and pdf (csv for any other extension).  Its
    name depends on the file name only, and names of schemas are unique: a
    second inference for the same file name, whatever the content, does not
    return. *)
Theorem inferred_schema_is_saved_once
    (filename : string) (content : bytes) (s : Session)
    (schema : ParserSchema.t) (s' : Session) :
  ImportsApi.infer_and_save_schema infer_schema filename content s
  = (Ok schema, s') ->
  ParserSchema.file_type schema ∈ ["csv"; "tsv"; "ofx"; "qfx"; "pdf"]
  /\ ParserSchema.is_active schema = true
  /\ ParserSchema.created_by_ai schema = true
  /\ schema ∈ parser_schemas (committed s')
  /\ committed s' = current s'
  /\ forall content',
       is_ok (ImportsApi.infer_and_save_schema infer_schema filename
                content' s').1 = false.
Proof.
  unfold ImportsApi.infer_and_save_schema. intros H.
  step_lift H. rename v into inferred.
  revert H. run_import.
  destruct (filter _ (parser_schemas (current s))) as [|x l] eqn:Etaken;
    [|discriminate].
  run_import. intros [= <- <-]. cbn.
  split.
  { case_bool_decide as Hext; [exact Hext|]. left. }
  do 2 (split; [reflexivity|]).
  split; [apply elem_of_app; right; left|].
  split; [reflexivity|].
  intros content'.
  destruct (infer_schema filename content') as [inferred'|e]; [|done].
  run_import. rewrite filter_app, Etaken. cbn [app].
  rewrite filter_cons, decide_True by reflexivity. reflexivity.
Qed.
End Inference.

Lemma inferred_schema_witness :
  exists schema s',
    ImportsApi.infer_and_save_schema
      (fun filename content => Ok (ImportsApi.Build_Inferred None None None))
      "bank export.xlsx" "a;b" fresh_session = (Ok schema, s')
    /\ ParserSchema.file_type schema = "csv"
    /\ schema ∈ parser_schemas (committed s').
Proof.
  destruct (ImportsApi.infer_and_save_schema
              (fun filename content =>
                 Ok (ImportsApi.Build_Inferred None None None))
              "bank export.xlsx" "a;b" fresh_session) as [r s'] eqn:H.
  assert (ParserSchema.file_type <$> r = Ok "csv") as Hty.
  { change r with (r, s').1. rewrite <- H. vm_compute. reflexivity. }
  destruct r as [schema|e]; [|discriminate Hty]. injection Hty as Hty.
  destruct (inferred_schema_is_saved_once _ _ _ _ _ _ H)
    as (_ & _ & _ & Hin & _).
  by exists schema, s'.
Defined.

(** ** The categorization task without work *)

Section NoWork.
Context (providers : Categorization.Providers) (now : nat).

(** X20: the categorization task skips, without touching the database,
    a result without job id or with status "failed", so that it never
    completes an import that has failed; it skips a job that is not stored;
    and for a stored job it commits COMPLETED at once, with nothing
    categorized, when no category is named "Uncategorized" or no
    transaction of the job is filed under it. *)
Theorem categorization_skips_or_completes (s : Session) :
  (forall import_result,
      ImportTasks.job_id import_result = None
      \/ ImportTasks.status import_result = Some "failed" ->
      ImportTasks.categorize_import_task providers now import_result s
      = (Ok (ImportTasks.Skipped "Import failed or missing"), s))
  /\ (forall job_uuid status,
        status <> Some "failed" ->
        stored_job s job_uuid = None ->
        exists s',
          ImportTasks.categorize_import_task providers now
            (ImportTasks.Build_ImportResult (Some job_uuid) status) s
          = (Ok (ImportTasks.Skipped "Job not found"), s')
          /\ committed s' = committed s)
  /\ (forall job_uuid status j,
        status <> Some "failed" ->
        stored_job s job_uuid = Some j ->
        filter (fun c => Category.name c = "Uncategorized")
               (categories (committed s)) = []
        \/ (exists uncat,
               filter (fun c => Category.name c = "Uncategorized")
                      (categories (committed s)) = [uncat]
               /\ forall x,
                    x ∈ transactions (committed s) ->
                    Transaction.import_job_id x = Some job_uuid ->
                    Transaction.category_id x <> Some (Category.id uncat)) ->
        exists s',
          ImportTasks.categorize_import_task providers now
            (ImportTasks.Build_ImportResult (Some job_uuid) status) s
          = (Ok (ImportTasks.Categorized 0 0 None), s')
          /\ stored_job s' job_uuid
             = Some (ImportJob.with_completed_at (Some now)
                       (ImportJob.with_status ImportStatus.COMPLETED j))
          /\ entities (committed s') = entities (committed s)).
Proof.
  unfold stored_job. split; [|split].
  - intros [job_id status] [H|H]; cbn in H; subst.
    + reflexivity.
    + unfold ImportTasks.categorize_import_task. cbn.
      by destruct job_id.
  - intros job_uuid status Hst Hj.
    unfold ImportTasks.categorize_import_task. cbn.
    rewrite bool_decide_eq_false_2 by exact Hst.
    assert (ImportTasks.with_session (ImportTasks.plan now job_uuid) s
            = (Ok ImportTasks.JobNotFound,
               mkSession (committed s) (committed s) (next_uuid s)))
      as Hplan.
    { unfold ImportTasks.with_session, ImportTasks.plan, select_job.
      run_import. by rewrite Hj. }
    rewrite (bind_ok _ _ _ _ _ Hplan). by eexists.
  - intros job_uuid status j Hst Hj Hnone.
    unfold ImportTasks.categorize_import_task. cbn.
    rewrite bool_decide_eq_false_2 by exact Hst.
    assert (ImportTasks.with_session (ImportTasks.plan now job_uuid) s
            = (Ok ImportTasks.NothingToDo,
               let tables :=
                 with_import_jobs
                   (alter (ImportJob.with_completed_at (Some now)) job_uuid)
                   (with_import_jobs
                      (alter (ImportJob.with_status ImportStatus.COMPLETED)
                         job_uuid)
                      (committed s)) in
               mkSession tables tables (next_uuid s))) as Hplan.
    { unfold ImportTasks.with_session, ImportTasks.plan, select_job.
      run_import. rewrite Hj. cbn.
      destruct Hnone as [->|(uncat & -> & Hno)]; run_import; [done|].
      rewrite filter_none; [done|].
      intros x Hx [Hjob Hcat]. by apply (Hno x Hx Hjob). }
    rewrite (bind_ok _ _ _ _ _ Hplan).
    eexists. split; [reflexivity|]. cbn.
    by rewrite !lookup_alter_eq, Hj.
Qed.
End NoWork.

Lemma categorization_skips_witness :
  ImportTasks.categorize_import_task no_providers 1000
    (ImportTasks.Build_ImportResult (Some 1) (Some "failed"))
    imported_session
  = (Ok (ImportTasks.Skipped "Import failed or missing"), imported_session).
Proof.
  destruct (categorization_skips_or_completes no_providers 1000
              imported_session) as [H _].
  apply H. by right.
Defined.

(* ===================================================================== *)
(** * The import task *)
(* ===================================================================== *)

Section WorkerRun.
Context (fromisoformat : string -> result date) (repr : pyval -> string).

(** A worker run that returns has committed, and returns the job as it is
    stored. *)
Lemma run_import_sync_commits parsers user_id filename content job_id
    on_progress s job s' :
  ImportService.run_import_sync fromisoformat repr parsers user_id filename
    content job_id on_progress s = (Ok job, s') ->
  committed s' = current s'
  /\ import_jobs (current s') !! job_id = Some job.
Proof.
  unfold ImportService.run_import_sync. intros H.
  step_lift H. rename v into parser.
  apply bind_inv_ok in H as (j0 & s1 & H1 & H).
  apply job_object_inv in H1 as [Hj0 ->].
  destruct parser as [parser|].
  - apply bind_inv_ok in H as ([] & s1 & [= <-] & H).
    apply bind_inv_ok in H as ([] & s2 & [= <-] & H).
    apply bind_inv_ok in H as ([] & s3 & [= <-] & H).
    apply bind_inv_ok in H as ([] & s4 & Htry & H).
    apply job_object_inv in H as [Hjob ->]. split; [|exact Hjob].
    apply try_except_inv in Htry as [([] & Hbody & _)|(e & s5 & _ & Hh)].
    + unfold ImportService.import_body_sync in Hbody.
      step_lift Hbody.
      apply bind_inv_ok in Hbody as ([] & s5 & _ & Hbody).
      apply bind_inv_ok in Hbody as ([] & s6 & _ & Hbody).
      apply bind_inv_ok in Hbody as (st & s7 & _ & Hbody).
      revert Hbody. run_import. by intros [= <-].
    + revert Hh. run_import. by intros [= <-].
  - revert H. unfold job_object, select_job. run_import.
    cbn [import_jobs with_import_jobs].
    rewrite !lookup_alter_eq, Hj0. cbn. intros [= <- <-]. cbn.
    by rewrite !lookup_alter_eq, Hj0.
Qed.
End WorkerRun.

Section Worker.
Context (fromisoformat : string -> result date) (repr : pyval -> string)
        (parsers : list FileParserPlugin.t)
        (read_file : string -> option bytes)
        (redis_get : uuid -> result (option bytes))
        (redis_delete : uuid -> result unit)
        (retries : nat) (retry : exn -> exn).

Abbreviation process_import_task :=
  (ImportWorker.process_import_task fromisoformat repr parsers read_file
     redis_get redis_delete retries retry).
Abbreviation read_content := (ImportWorker.read_content read_file redis_get).

(** X21: the import task answers "Job not found" and leaves the database
    as it is when the job is not stored; when the file is neither on disk
    nor in Redis it commits the job as FAILED with "File content not found
    in Redis or on disk"; a file on disk is used without asking Redis; and
    an error of Redis while the content is fetched escapes from the task,
    the job being left as it was. *)
Theorem import_task_needs_job_and_file
    (job_uuid : uuid) (file_path : option string) (s : Session) :
  (stored_job s job_uuid = None ->
   process_import_task job_uuid file_path s
   = (Ok (ImportWorker.Failed "Job not found"),
      mkSession (committed s) (committed s) (next_uuid s)))
  /\ (forall j,
        stored_job s job_uuid = Some j ->
        read_content job_uuid file_path = Ok None ->
        exists s',
          process_import_task job_uuid file_path s
          = (Ok (ImportWorker.Failed "File not found"), s')
          /\ stored_job s' job_uuid
             = Some (ImportJob.with_error_message
                       (Some "File content not found in Redis or on disk")
                       (ImportJob.with_status ImportStatus.FAILED j))
          /\ entities (committed s') = entities (committed s))
  /\ (forall path content,
        path <> "" -> read_file path = Some content ->
        read_content job_uuid (Some path) = Ok (Some content))
  /\ (forall j exc,
        stored_job s job_uuid = Some j ->
        read_content job_uuid file_path = Raise exc ->
        process_import_task job_uuid file_path s
        = (Raise exc, mkSession (committed s) (committed s) (next_uuid s))).
Proof.
  unfold stored_job. split; [|split; [|split]].
  - intros Hj. unfold ImportWorker.process_import_task,
      ImportTasks.with_session, select_job.
    run_import. by rewrite Hj.
  - intros j Hj Hc. unfold ImportWorker.process_import_task,
      ImportTasks.with_session, select_job.
    run_import. rewrite Hj. cbn. rewrite Hc. run_import.
    eexists. split; [reflexivity|]. cbn.
    by rewrite !lookup_alter_eq, Hj.
  - intros path content Hne Hfile. unfold ImportWorker.read_content. cbn.
    rewrite (proj2 (String.eqb_neq path "")) by exact Hne.
    by rewrite Hfile.
  - intros j exc Hj Hc. unfold ImportWorker.process_import_task,
      ImportTasks.with_session, select_job.
    run_import. rewrite Hj. cbn. rewrite Hc. by run_import.
Qed.

(** X22: when the import has gone through and the removal of the file
    from Redis then fails, the task marks the job FAILED, with the text of
    that error, and asks for a retry (or answers failed once the retries
    are used up), although everything the import has committed, its
    transactions included, stays in the database. *)
Theorem import_task_fails_after_import_when_cleanup_fails
    (job_uuid : uuid) (file_path : option string) (s : Session)
    (j : ImportJob.t) (content : bytes) (result_job : ImportJob.t)
    (s1 : Session) (exc : exn) :
  stored_job s job_uuid = Some j ->
  read_content job_uuid file_path = Ok (Some content) ->
  ImportService.run_import_sync fromisoformat repr parsers
    (ImportJob.user_id j) (ImportJob.filename j) content job_uuid
    (Some ImportWorker.on_progress)
    (mkSession (committed s) (committed s) (next_uuid s))
  = (Ok result_job, s1) ->
  redis_delete job_uuid = Raise exc ->
  exists s',
    process_import_task job_uuid file_path s
    = (if decide (2 <= retries)
       then Ok (ImportWorker.Failed (slice_to 500 (message exc)))
       else Raise (retry exc), s')
    /\ stored_job s' job_uuid
       = Some (ImportJob.with_error_message
                 (Some (slice_to 1000 (message exc)))
                 (ImportJob.with_status ImportStatus.FAILED result_job))
    /\ entities (committed s') = entities (committed s1).
Proof.
  unfold stored_job. intros Hj Hc Hrun Hdel.
  destruct (run_import_sync_commits _ _ _ _ _ _ _ _ _ _ _ Hrun)
    as [Hcom Hjob].
  unfold ImportWorker.process_import_task, ImportTasks.with_session,
    select_job.
  run_import. rewrite Hj. cbn. rewrite Hc. run_import.
  unfold try_except. rewrite (bind_ok _ _ _ _ _ Hrun).
  rewrite Hdel. unfold job_object, select_job. run_import.
  rewrite Hcom, Hjob. cbn. unfold ImportWorker.max_retries.
  destruct (decide (2 <= retries)); run_import;
    (eexists; split; [reflexivity|]); cbn;
    by rewrite !lookup_alter_eq, Hjob.
Qed.

(** X23: in the chain of the two tasks a failed import is never
    completed: whenever the import task returns and the job is then stored
    as FAILED, the result it hands over has status "failed", and the
    categorization task skips it without touching the database. *)
Theorem failed_import_is_never_categorized
    (providers : Categorization.Providers) (now : nat)
    (job_uuid : uuid) (file_path : option string) (s : Session)
    (r : ImportWorker.ImportTaskResult) (s1 : Session) (j : ImportJob.t) :
  process_import_task job_uuid file_path s = (Ok r, s1) ->
  stored_job s1 job_uuid = Some j ->
  ImportJob.status j = ImportStatus.FAILED ->
  ImportTasks.status (ImportWorker.import_result job_uuid r) = Some "failed"
  /\ ImportTasks.categorize_import_task providers now
       (ImportWorker.import_result job_uuid r) s1
     = (Ok (ImportTasks.Skipped "Import failed or missing"), s1).
Proof.
  intros H Hj Hst.
  assert (ImportTasks.status (ImportWorker.import_result job_uuid r)
          = Some "failed") as Hfailed.
  { destruct r as [err|status imported duplicates total]; [reflexivity|].
    cbn. f_equal. unfold stored_job in Hj.
    unfold ImportWorker.process_import_task in H.
    apply with_session_inv in H as (s' & H & ->). cbn in Hj.
    apply bind_inv_ok in H as (rows & s2 & [= <- <-] & H).
    step_lift H. destruct v as [job|]; [|discriminate H].
    step_lift H. destruct v as [file_content|].
    2:{ revert H. run_import. discriminate. }
    apply try_except_inv in H as [(a & H & Ha)|(e & s3 & _ & H)].
    - injection Ha as <-.
      apply bind_inv_ok in H as (result_job & s3 & Hrun & H).
      apply run_import_sync_commits in Hrun as [Hcom Hjob].
      step_lift H. apply ret_inv_ok in H as [H ->].
      injection H as -> _ _ _.
      rewrite Hcom, Hjob in Hj. injection Hj as ->.
      by rewrite Hst.
    - exfalso. revert H. unfold job_object, select_job. run_import.
      destruct (import_jobs (committed s3) !! job_uuid); cbn;
        [|discriminate].
      unfold ImportWorker.max_retries.
      destruct (decide (2 <= retries)); discriminate. }
  split; [exact Hfailed|].
  unfold ImportTasks.categorize_import_task.
  destruct (ImportTasks.job_id _); [|reflexivity].
  by rewrite Hfailed.
Qed.
End Worker.

Lemma import_task_witness :
  exists s',
    task_without_file queued_session
    = (Ok (ImportWorker.Failed "File not found"), s')
    /\ ImportJob.status <$> stored_job s' 1 = Some ImportStatus.FAILED.
Proof.
  destruct (import_task_needs_job_and_file Plain.fromisoformat Plain.repr
              rocket_only nothing_on_disk redis_empty redis_deletes 0
              retry_of 1 None queued_session) as (_ & H & _).
  destruct (H (ImportJob.new 1 7 "export.csv" "unknown" ImportStatus.PENDING)
              eq_refl eq_refl) as (s' & Hrun & Hj & _).
  exists s'. split; [exact Hrun|]. by rewrite Hj.
Defined.

Lemma queued_import_runs :
  let run :=
    ImportService.run_import_sync Plain.fromisoformat Plain.repr rocket_only
      7 "export.csv" two_accounts_file 1 (Some ImportWorker.on_progress)
      (mkSession (committed queued_session) (committed queued_session)
         (next_uuid queued_session)) in
  is_ok run.1 = true
  /\ length (transactions (committed run.2)) = 2.
Proof. vm_compute. by split. Qed.

Lemma failing_cleanup_witness :
  exists s',
    task_with_failing_cleanup queued_session
    = (Ok (ImportWorker.Failed "Connection refused"), s')
    /\ ImportJob.status <$> stored_job s' 1 = Some ImportStatus.FAILED
    /\ length (transactions (committed s')) = 2.
Proof.
  pose proof queued_import_runs as [Hok Hlen]. cbv zeta in Hok, Hlen.
  destruct (ImportService.run_import_sync Plain.fromisoformat Plain.repr
              rocket_only 7 "export.csv" two_accounts_file 1
              (Some ImportWorker.on_progress)
              (mkSession (committed queued_session)
                 (committed queued_session) (next_uuid queued_session)))
    as [[result_job|e] s1] eqn:Hrun; [|discriminate Hok].
  destruct (import_task_fails_after_import_when_cleanup_fails
              Plain.fromisoformat Plain.repr rocket_only nothing_on_disk
              (redis_holding two_accounts_file) redis_refuses 2 retry_of
              1 None queued_session
              (ImportJob.new 1 7 "export.csv" "unknown" ImportStatus.PENDING)
              two_accounts_file result_job s1
              (Exn ProviderError "Connection refused")
              eq_refl eq_refl Hrun eq_refl)
    as (s' & Htask & Hj & Hent).
  exists s'. split; [exact Htask|]. split; [by rewrite Hj|].
  cbn in Hlen. unfold entities in Hent. injection Hent as _ _ _ Ht.
  by rewrite Ht.
Defined.

Lemma task_without_file_outcome :
  let run := task_without_file queued_session in
  run.1 = Ok (ImportWorker.Failed "File not found")
  /\ ImportJob.status <$> stored_job run.2 1 = Some ImportStatus.FAILED.
Proof. vm_compute. by split. Qed.

Lemma failed_import_witness_chain :
  exists r s1,
    task_without_file queued_session = (Ok r, s1)
    /\ ImportTasks.categorize_import_task no_providers 1000
         (ImportWorker.import_result 1 r) s1
       = (Ok (ImportTasks.Skipped "Import failed or missing"), s1).
Proof.
  pose proof task_without_file_outcome as [Hr Hst]. cbv zeta in Hr, Hst.
  destruct (task_without_file queued_session) as [r0 s1] eqn:Hrun.
  cbn [fst snd] in Hr, Hst. subst r0.
  destruct (stored_job s1 1) as [j|] eqn:Hj; [|discriminate Hst].
  injection Hst as Hst.
  exists (ImportWorker.Failed "File not found"), s1.
  split; [reflexivity|].
  by destruct (failed_import_is_never_categorized Plain.fromisoformat
                 Plain.repr rocket_only nothing_on_disk redis_empty
                 redis_deletes 0 retry_of no_providers 1000 1 None
                 queued_session _ s1 j Hrun Hj Hst).
Defined.

(* ===================================================================== *)
(** * One parsed row for each row of the file *)
(* ===================================================================== *)

Lemma rocket_parse_rows_each rows parsed :
  RocketMoney.parse_rows rows = Ok parsed ->
  Forall2 (fun row r => RocketMoney.parse_row row = Ok r) rows parsed.
Proof.
  revert parsed. induction rows as [|row rest IH]; intros parsed H.
  - injection H as <-. constructor.
  - cbn [RocketMoney.parse_rows] in H.
    destruct (RocketMoney.parse_row row) as [r|e] eqn:E; [|discriminate].
    cbn [rbind] in H.
    destruct (RocketMoney.parse_rows rest) as [rs|e]; [|discriminate].
    injection H as <-. constructor; [exact E|]. by apply IH.
Qed.

Lemma rocket_parse_rows_raise rows e :
  RocketMoney.parse_rows rows = Raise e ->
  exists row, row ∈ rows /\ RocketMoney.parse_row row = Raise e.
Proof.
  induction rows as [|row rest IH]; [discriminate|].
  cbn [RocketMoney.parse_rows].
  destruct (RocketMoney.parse_row row) as [r|e'] eqn:E; cbn [rbind].
  - destruct (RocketMoney.parse_rows rest) as [rs|e'] eqn:E';
      [discriminate|].
    intros [= ->]. destruct (IH eq_refl) as (x & Hx & Hr).
    exists x. split; [by right|done].
  - intros [= ->]. exists row. split; [by left|done].
Qed.

Section SchemaRows.
Context (reformat_date : string -> string -> option string).

Lemma schema_parse_rows_each schema rows parsed :
  SchemaBased.parse_rows reformat_date schema rows = Ok parsed ->
  Forall2 (fun row r => SchemaBased.parse_row reformat_date schema row = Ok r)
          rows parsed.
Proof.
  revert parsed. induction rows as [|row rest IH]; intros parsed H.
  - injection H as <-. constructor.
  - cbn [SchemaBased.parse_rows] in H.
    destruct (SchemaBased.parse_row reformat_date schema row) as [r|e] eqn:E;
      [|discriminate].
    cbn [rbind] in H.
    destruct (SchemaBased.parse_rows reformat_date schema rest) as [rs|e];
      [|discriminate].
    injection H as <-. constructor; [exact E|]. by apply IH.
Qed.
End SchemaRows.

(** X24: both parsers return one record for each row of the data frame,
    in the order of the file, each the result of the row; no row is dropped
    or merged.  When the fixed-format parser raises after the file has been
    read, it is the error of one of the rows (an amount that does not fit),
    and no record is returned at all. *)
Theorem parsers_keep_every_row
    (re_search : string -> string -> bool -> result bool)
    (reformat_date : string -> string -> option string)
    (read_csv : bytes -> string -> result Pandas.DataFrame)
    (content : bytes) (filename : string) :
  (forall parsed,
      RocketMoney.parse read_csv content filename = Ok parsed ->
      exists df,
        read_csv content "," = Ok df
        /\ Forall2 (fun row r => RocketMoney.parse_row row = Ok r)
             (Pandas.iterrows df) parsed)
  /\ (forall df e,
        read_csv content "," = Ok df ->
        RocketMoney.parse read_csv content filename = Raise e ->
        exists row, row ∈ Pandas.iterrows df
                    /\ RocketMoney.parse_row row = Raise e)
  /\ (forall schemas schema parsed,
        SchemaBased._match_schema re_search schemas content filename
        = Ok (Some schema) ->
        SchemaBased.parse re_search reformat_date read_csv schemas content
          filename = Ok parsed ->
        exists df,
          read_csv content
            (default "," (SchemaBased.delimiter
                            (SchemaBased.transform_rules schema))) = Ok df
          /\ Forall2 (fun row r =>
                        SchemaBased.parse_row reformat_date schema row = Ok r)
               (Pandas.iterrows df) parsed).
Proof.
  split; [|split].
  - intros parsed. unfold RocketMoney.parse.
    destruct (read_csv content ",") as [df|e]; [|discriminate].
    cbn [rbind]. intros H. exists df. split; [done|].
    by apply rocket_parse_rows_each.
  - intros df e Hdf. unfold RocketMoney.parse. rewrite Hdf. cbn [rbind].
    apply rocket_parse_rows_raise.
  - intros schemas schema parsed Hm. unfold SchemaBased.parse.
    rewrite Hm. cbn [rbind].
    destruct (read_csv content _) as [df|e]; [|discriminate].
    cbn [rbind]. intros H. exists df. split; [done|].
    by apply schema_parse_rows_each.
Qed.

Lemma parsers_keep_every_row_witness :
  exists parsed,
    RocketMoney.parse Plain.read_csv two_accounts_file "export.csv"
    = Ok parsed
    /\ length parsed = 2.
Proof.
  destruct (RocketMoney.parse Plain.read_csv two_accounts_file "export.csv")
    as [parsed|e] eqn:H.
  - exists parsed. split; [reflexivity|].
    destruct (parsers_keep_every_row Plain.re_search (fun _ _ => None)
                Plain.read_csv two_accounts_file "export.csv") as (Hok & _).
    destruct (Hok parsed H) as (df & Hdf & Hrows).
    rewrite <- (Forall2_length _ _ _ Hrows).
    assert (length <$> (Pandas.iterrows
                          <$> Plain.read_csv two_accounts_file ",") = Ok 2)
      as Hlen by (vm_compute; reflexivity).
    rewrite Hdf in Hlen. by injection Hlen.
  - assert (is_ok (RocketMoney.parse Plain.read_csv two_accounts_file
                     "export.csv") = true) as Hok by (vm_compute; reflexivity).
    rewrite H in Hok. discriminate Hok.
Defined.

Lemma schema_order_witness :
  SchemaBased.parse Plain.re_search (fun _ _ => None) Plain.read_csv []
    date_amount_file "statement.csv" = Ok [].
Proof.
  destruct (schema_order_is_priority Plain.re_search (fun _ _ => None)
              Plain.read_csv [] date_amount_file "statement.csv")
    as (_ & _ & H).
  by apply H.
Defined.
